(** * TapPark reservation / capacity engine

    A shallow embedding of the Express route handlers of the TapPark
    backend that book, confirm, end and release parking reservations
    (capacity routes, parking routes), over an explicit model of the
    MySQL tables they read and write.

    Conventions of the embedding:
    - a table with an integer primary key is a [gmap Z row]; the key is
      the primary-key column ([parking_section_id], [parking_spot_id],
      [reservation_id], ...);
    - a nullable column is an [option]; SQL arithmetic and comparisons
      on NULL follow SQL (NULL propagates, a NULL condition selects
      nothing);
    - SQL INT columns and JS numbers holding them are [Z];
    - text is a [string] of code units below 256; SQL string equality is
      taken as exact equality (binary collation);
    - a handler is a function from the database (and its request) to a
      reply and the database it leaves behind; [rollback] returns the
      database the transaction started from;
    - [NOW()], [Date.now()] and [uuid.v4()] are inputs of the request;
    - the wrappers [db.query] and [db.execute] of the database module
      return the rows of a SELECT and the [affectedRows] and [insertId]
      of a statement, as the handlers read them; where [affectedRows]
      depends on whether the driver counts matched or changed rows, it
      is a parameter of the handler. *)

From Stdlib Require Import ZArith Lia Ascii.
From stdpp Require Import base numbers option list strings pretty gmap fin_maps sorting.

Local Open Scope string_scope.
Local Open Scope Z_scope.

(** ** JavaScript string primitives *)

Module JS.

(** [String.prototype.toLowerCase] on code units below 256: A-Z and the
    Latin-1 capitals (except the multiplication sign) move up by 32. *)
Definition lower_code (n : N) : N :=
  if ((65 <=? n) && (n <=? 90))%N then (n + 32)%N
  else if ((192 <=? n) && (n <=? 222) && negb (n =? 215))%N then (n + 32)%N
  else n.

Definition lower_char (c : ascii) : ascii :=
  Ascii.ascii_of_N (lower_code (Ascii.N_of_ascii c)).

Fixpoint toLowerCase (s : string) : string :=
  match s with
  | EmptyString => EmptyString
  | String c s' => String (lower_char c) (toLowerCase s')
  end.

(** WhiteSpace and LineTerminator code units below 256. *)
Definition is_ws (c : ascii) : bool :=
  let n := Ascii.N_of_ascii c in
  ((n =? 9) || (n =? 10) || (n =? 11) || (n =? 12) || (n =? 13)
   || (n =? 32) || (n =? 160))%N.

Fixpoint trimStart (s : string) : string :=
  match s with
  | EmptyString => EmptyString
  | String c s' => if is_ws c then trimStart s' else s
  end.

(** Drops the trailing white space: a character is kept when it is not
    white space or when something is kept after it. *)
Fixpoint trimEnd (s : string) : string :=
  match s with
  | EmptyString => EmptyString
  | String c s' =>
      match trimEnd s' with
      | EmptyString => if is_ws c then EmptyString else String c EmptyString
      | t => String c t
      end
  end.

Definition trim (s : string) : string := trimEnd (trimStart s).

Definition startsWith (s p : string) : bool := String.prefix p s.

(** Template-literal rendering of a number and of a nullable text
    column ([`${null}`] is ["null"]). The numbers the handlers render
    are row ids, INT counters, loop indices and [Date.now()], all safe
    integers below 10^21 in size, where the rendering is the decimal
    numeral with every digit; [num] is the rendering on that range
    (from 10^21 on JavaScript switches to exponent notation). *)
Definition num (n : Z) : string := pretty n.

Definition tpl (o : option string) : string :=
  match o with Some s => s | None => "null" end.

(** [x || 0] on a nullable number. *)
Definition or0 (x : option Z) : Z :=
  match x with Some v => v | None => 0 end.

(** [!x] on a nullable number ([undefined], [null] and [0] are falsy). *)
Definition falsy (x : option Z) : bool :=
  match x with Some v => v =? 0 | None => true end.

(** [!x] on a nullable string ([undefined], [null] and [""] are falsy). *)
Definition falsy_str (x : option string) : bool :=
  match x with Some EmptyString => true | Some _ => false | None => true end.

(** [JSON.stringify] of a string: quoting and escaping. *)
Definition dquote : ascii := "034"%char.
Definition backslash : ascii := "092"%char.

Definition hex_digit (n : N) : ascii :=
  Ascii.ascii_of_N (if (n <? 10)%N then 48 + n else 87 + n)%N.

Definition json_escape_char (c : ascii) : string :=
  let n := Ascii.N_of_ascii c in
  if (n =? 34)%N then String backslash (String dquote EmptyString)
  else if (n =? 92)%N then String backslash (String backslash EmptyString)
  else if (n =? 8)%N then String backslash "b"
  else if (n =? 12)%N then String backslash "f"
  else if (n =? 10)%N then String backslash "n"
  else if (n =? 13)%N then String backslash "r"
  else if (n =? 9)%N then String backslash "t"
  else if (n <? 32)%N then
    String backslash
      ("u00" +:+ String (hex_digit (n / 16)) (String (hex_digit (n mod 16)) EmptyString))
  else String c EmptyString.

Fixpoint json_escape (s : string) : string :=
  match s with
  | EmptyString => EmptyString
  | String c s' => json_escape_char c +:+ json_escape s'
  end.

Definition json_string (s : string) : string :=
  String dquote (json_escape s +:+ String dquote EmptyString).

(** [JSON.stringify({ qr_key: qrKey })] *)
Definition stringify_qrData (qrKey : string) : string :=
  "{" +:+ json_string "qr_key" +:+ ":" +:+ json_string qrKey +:+ "}".

(** What [typeof JSON.parse(s)] is when the parse succeeds: the first
    character of a trimmed JSON text fixes the kind of its value. *)
Inductive TypeOf := t_object | t_string | t_number | t_boolean.

Definition typeof_parsed (s : string) : TypeOf :=
  match s with
  | String c _ =>
      let n := Ascii.N_of_ascii c in
      if ((n =? 123) || (n =? 91) || (n =? 110))%N then t_object
      else if (n =? 34)%N then t_string
      else if ((n =? 116) || (n =? 102))%N then t_boolean
      else t_number
  | EmptyString => t_number
  end.

End JS.

(** ** Data model: the tables *)

Inductive BookingStatus := reserved | active | completed.

Global Instance BookingStatus_eq_dec : EqDecision BookingStatus.
Proof. solve_decision. Defined.

Definition booking_status_str (b : BookingStatus) : string :=
  match b with
  | reserved => "reserved"
  | active => "active"
  | completed => "completed"
  end.

(** [booking_status IN ('reserved', 'active')] *)
Definition live (b : BookingStatus) : bool :=
  match b with reserved | active => true | completed => false end.

Record User := {
  u_first_name : option string;
  u_last_name : option string;
  u_email : option string
}.

Record Vehicle := {
  v_user_id : Z;
  v_plate_number : option string;
  v_vehicle_type : string;
  v_brand : option string;
  v_color : option string
}.

Record Area := {
  pa_parking_area_name : option string;
  pa_location : option string
}.

(** [parking_section]: the counters are nullable INT columns. *)
Record ParkingSection := {
  psec_parking_area_id : Z;
  psec_section_name : string;
  psec_vehicle_type : string;
  psec_section_mode : string;
  psec_capacity : option Z;
  psec_parked_count : option Z;
  psec_reserved_count : option Z;
  psec_status : option string
}.

(** [parking_spot] *)
Record ParkingSpot := {
  ps_parking_section_id : Z;
  ps_spot_number : string;
  ps_spot_type : string;
  ps_status : string
}.

(** [reservations] *)
Record Reservation := {
  r_user_id : Z;
  r_vehicle_id : option Z;
  r_parking_spots_id : Z;
  r_parking_section_id : option Z;
  r_spot_number : option string;
  r_time_stamp : Z;
  r_start_time : option Z;
  r_end_time : option Z;
  r_booking_status : BookingStatus;
  r_QR : string;
  r_qr_key : option string
}.

Record DB := {
  users : gmap Z User;
  vehicles : gmap Z Vehicle;
  parking_area : gmap Z Area;
  parking_section : gmap Z ParkingSection;
  parking_spot : gmap Z ParkingSpot;
  reservations : gmap Z Reservation;
  (** the AUTO_INCREMENT counters of [reservations], [users], [vehicles] *)
  next_reservation_id : Z;
  next_user_id : Z;
  next_vehicle_id : Z
}.

(** ** SQL primitives *)

Module SQL.

(** NULL-propagating arithmetic. *)
Definition add (a b : option Z) : option Z :=
  match a, b with Some x, Some y => Some (x + y) | _, _ => None end.

Definition sub (a b : option Z) : option Z :=
  match a, b with Some x, Some y => Some (x - y) | _, _ => None end.

(** [a > 0] as a WHERE condition: NULL selects nothing. *)
Definition gt0 (a : option Z) : bool :=
  match a with Some x => 0 <? x | None => false end.

(** [col = ?] on a nullable column. *)
Definition eqZ (a : option Z) (b : Z) : bool :=
  match a with Some x => x =? b | None => false end.

Definition eqS (a : option string) (b : string) : bool :=
  match a with Some x => String.eqb x b | None => false end.

(** [col != ?] on a nullable column. *)
Definition neS (a : option string) (b : string) : bool :=
  match a with Some x => negb (String.eqb x b) | None => false end.

Section Table.
Context {A : Type}.

(** [UPDATE t SET ... WHERE P]: the new table and the number of rows the
WHERE clause matched. Where a handler tests [affectedRows], its UPDATE
conditions on the status it replaces and so changes each row it
matches, and the number is [affectedRows] whatever the driver counts;
the one exception, the status of a section, is treated in
[SectionAdmin]. *)
Definition update (P : Z → A → bool) (f : A → A) (t : gmap Z A)
  : gmap Z A * nat :=
  (map_imap (λ k r, Some (if P k r then f r else r)) t,
   size (filter (λ kr, P kr.1 kr.2 = true) t)).

(** [SELECT ... FROM t WHERE P], in primary-key order of the engine. *)
Definition select (P : Z → A → bool) (t : gmap Z A) : list (Z * A) :=
  List.filter (λ kr, P kr.1 kr.2) (map_to_list t).

(** [SELECT ... FROM t WHERE pk = ? AND Q]: at most one row. *)
Definition select_by_key (key : Z) (Q : A → bool) (t : gmap Z A) : option A :=
  match t !! key with
  | Some r => if Q r then Some r else None
  | None => None
  end.

(** [INSERT INTO t] with the AUTO_INCREMENT value [id]. *)
Definition insert_row (id : Z) (r : A) (t : gmap Z A) : gmap Z A :=
  <[id := r]> t.
End Table.

End SQL.

(** ** Replies *)

(** [res.json({success: true, ...})] or
    [res.status(http).json({success: false, message, errorCode, data})]. *)
Inductive Reply (D : Type) :=
  | Ok (d : D)
  | Fail (http : Z) (message : string) (errorCode : option string)
         (details : list (string * string)).
Arguments Ok {D} d.
Arguments Fail {D} http message errorCode details.

Definition is_ok {D} (r : Reply D) : bool :=
  match r with Ok _ => true | Fail _ _ _ _ => false end.

(** Field updates of the rows ([SET col = ...]). *)
Definition set_booking (b : BookingStatus) (st en : option Z → option Z)
    (r : Reservation) : Reservation :=
  {| r_user_id := r_user_id r; r_vehicle_id := r_vehicle_id r;
     r_parking_spots_id := r_parking_spots_id r;
     r_parking_section_id := r_parking_section_id r;
     r_spot_number := r_spot_number r; r_time_stamp := r_time_stamp r;
     r_start_time := st (r_start_time r); r_end_time := en (r_end_time r);
     r_booking_status := b; r_QR := r_QR r; r_qr_key := r_qr_key r |}.

Definition set_QR (q : string) (r : Reservation) : Reservation :=
  {| r_user_id := r_user_id r; r_vehicle_id := r_vehicle_id r;
     r_parking_spots_id := r_parking_spots_id r;
     r_parking_section_id := r_parking_section_id r;
     r_spot_number := r_spot_number r; r_time_stamp := r_time_stamp r;
     r_start_time := r_start_time r; r_end_time := r_end_time r;
     r_booking_status := r_booking_status r; r_QR := q;
     r_qr_key := r_qr_key r |}.

Definition set_counts (fp fr : option Z → option Z) (s : ParkingSection)
    : ParkingSection :=
  {| psec_parking_area_id := psec_parking_area_id s;
     psec_section_name := psec_section_name s;
     psec_vehicle_type := psec_vehicle_type s;
     psec_section_mode := psec_section_mode s;
     psec_capacity := psec_capacity s;
     psec_parked_count := fp (psec_parked_count s);
     psec_reserved_count := fr (psec_reserved_count s);
     psec_status := psec_status s |}.

Definition set_spot_status (st : string) (p : ParkingSpot) : ParkingSpot :=
  {| ps_parking_section_id := ps_parking_section_id p;
     ps_spot_number := ps_spot_number p; ps_spot_type := ps_spot_type p;
     ps_status := st |}.

(** Replacing one table of the database. *)
Definition with_reservations (t : gmap Z Reservation) (db : DB) : DB :=
  {| users := users db; vehicles := vehicles db;
     parking_area := parking_area db; parking_section := parking_section db;
     parking_spot := parking_spot db; reservations := t;
     next_reservation_id := next_reservation_id db;
     next_user_id := next_user_id db; next_vehicle_id := next_vehicle_id db |}.

Definition with_sections (t : gmap Z ParkingSection) (db : DB) : DB :=
  {| users := users db; vehicles := vehicles db;
     parking_area := parking_area db; parking_section := t;
     parking_spot := parking_spot db; reservations := reservations db;
     next_reservation_id := next_reservation_id db;
     next_user_id := next_user_id db; next_vehicle_id := next_vehicle_id db |}.

Definition with_spots (t : gmap Z ParkingSpot) (db : DB) : DB :=
  {| users := users db; vehicles := vehicles db;
     parking_area := parking_area db; parking_section := parking_section db;
     parking_spot := t; reservations := reservations db;
     next_reservation_id := next_reservation_id db;
     next_user_id := next_user_id db; next_vehicle_id := next_vehicle_id db |}.

(** [INSERT INTO reservations ...]: the row gets the AUTO_INCREMENT value,
    returned as [insertId]. *)
Definition insert_reservation (r : Reservation) (db : DB) : Z * DB :=
  let id := next_reservation_id db in
  (id,
   {| users := users db; vehicles := vehicles db;
      parking_area := parking_area db; parking_section := parking_section db;
      parking_spot := parking_spot db;
      reservations := SQL.insert_row id r (reservations db);
      next_reservation_id := id + 1;
      next_user_id := next_user_id db; next_vehicle_id := next_vehicle_id db |}).

Definition insert_user (u : User) (db : DB) : Z * DB :=
  let id := next_user_id db in
  (id,
   {| users := SQL.insert_row id u (users db); vehicles := vehicles db;
      parking_area := parking_area db; parking_section := parking_section db;
      parking_spot := parking_spot db; reservations := reservations db;
      next_reservation_id := next_reservation_id db;
      next_user_id := id + 1; next_vehicle_id := next_vehicle_id db |}).

Definition insert_vehicle (v : Vehicle) (db : DB) : Z * DB :=
  let id := next_vehicle_id db in
  (id,
   {| users := users db; vehicles := SQL.insert_row id v (vehicles db);
      parking_area := parking_area db; parking_section := parking_section db;
      parking_spot := parking_spot db; reservations := reservations db;
      next_reservation_id := next_reservation_id db;
      next_user_id := next_user_id db; next_vehicle_id := id + 1 |}).

(** [UPDATE parking_section SET ... WHERE parking_section_id = ?] *)
Definition update_section (sectionId : Z) (f : ParkingSection → ParkingSection)
    (db : DB) : DB :=
  with_sections (SQL.update (λ k _, k =? sectionId) f (parking_section db)).1 db.

(** [UPDATE reservations SET QR = ? WHERE reservation_id = ?] *)
Definition update_QR (q : string) (reservationId : Z) (db : DB) : DB :=
  with_reservations
    (SQL.update (λ k _, k =? reservationId) (set_QR q) (reservations db)).1 db.

(** [SELECT ... FROM parking_section ps WHERE ps.parking_section_id = ?
    AND ps.vehicle_type = 'motorcycle'], first row. *)
Definition motorcycle_section (db : DB) (sectionId : Z) : option ParkingSection :=
  SQL.select_by_key sectionId
    (λ ps, String.eqb (psec_vehicle_type ps) "motorcycle") (parking_section db).

(** The data of a successful booking reply (the fields of [bookingDetails]
    that identify the reservation). *)
Record Booked := {
  bk_reservationId : Z;
  bk_qrCode : string;
  bk_qrKey : string;
  bk_spotNumber : option string;
  bk_startTime : option Z;
  bk_status : string
}.

(** ** Capacity routes *)

Module Capacity.

(** *** GET /areas/:areaId/capacity-status *)

Record CapacityEntry := {
  ce_sectionId : Z;
  ce_sectionName : string;
  ce_vehicleType : string;
  ce_totalCapacity : Z;
  ce_availableCapacity : Z;
  ce_parkedCount : Z;
  ce_reservedCount : Z;
  ce_totalUsed : Z;
  ce_status : string;
  ce_isUserBooked : bool
}.

(** The [CASE WHEN EXISTS (...) THEN 1 ELSE 0 END] column. *)
Definition is_user_booked (db : DB) (userId sectionId : Z) : Z :=
  match SQL.select
          (λ _ r2, SQL.eqZ (r_parking_section_id r2) sectionId
                   && (r_user_id r2 =? userId) && live (r_booking_status r2))
          (reservations db) with
  | [] => 0
  | _ :: _ => 1
  end.

Definition by_section_name (a b : Z * ParkingSection) : Prop :=
  Is_true (String.leb (psec_section_name a.2) (psec_section_name b.2)).

Global Instance by_section_name_dec a b : Decision (by_section_name a b).
Proof. unfold by_section_name. apply _. Defined.

(** The query of the handler, [ORDER BY ps.section_name]. *)
Definition status_query (db : DB) (areaId : Z) : list (Z * ParkingSection) :=
  merge_sort by_section_name
    (SQL.select
       (λ _ ps, (psec_parking_area_id ps =? areaId)
                && String.eqb (psec_vehicle_type ps) "motorcycle")
       (parking_section db)).

(** The body of [sections.map(section => ...)]; [utilizationRate], a
    [toFixed(1)] rendering of a floating-point ratio, is left out. *)
Definition capacity_entry (db : DB) (userId : Z) (row : Z * ParkingSection)
    : CapacityEntry :=
  let section := row.2 in
  let totalCapacity := JS.or0 (psec_capacity section) in
  let parkedCount := JS.or0 (psec_parked_count section) in
  let reservedCount := JS.or0 (psec_reserved_count section) in
  let totalUsed := parkedCount + reservedCount in
  let availableCapacity := Z.max 0 (totalCapacity - totalUsed) in
  {| ce_sectionId := row.1;
     ce_sectionName := psec_section_name section;
     ce_vehicleType := psec_vehicle_type section;
     ce_totalCapacity := totalCapacity;
     ce_availableCapacity := availableCapacity;
     ce_parkedCount := parkedCount;
     ce_reservedCount := reservedCount;
     ce_totalUsed := totalUsed;
     ce_status :=
       if JS.falsy_str (psec_status section) then "available"
       else default "" (psec_status section);
     ce_isUserBooked := is_user_booked db userId row.1 =? 1 |}.

(** A route parameter is a non-empty string, hence truthy; only the
    user id of the token can be missing. *)
Definition capacity_status (db : DB) (userId areaId : Z)
    : Reply (list CapacityEntry) :=
  if userId =? 0 then Fail 400 "Missing required parameters" None []
  else Ok (capacity_entry db userId <$> status_query db areaId).

(** *** POST /sections/:sectionId/reserve *)

Record Reserved := {
  rv_reservationId : Z;
  rv_sectionName : string;
  rv_remainingCapacity : Z
}.

Definition reserve (db : DB) (sectionId userId now date_now date_now' : Z)
    : Reply Reserved * DB :=
  match motorcycle_section db sectionId with
  | None => (Fail 404 "Section not found or not capacity-based" None [], db)
  | Some section =>
      let totalUsed :=
        JS.or0 (psec_parked_count section) + JS.or0 (psec_reserved_count section) in
      let availableCapacity := Z.max 0 (JS.or0 (psec_capacity section) - totalUsed) in
      if availableCapacity <=? 0 then
        (Fail 400 "No available capacity in this section" None [], db)
      else
        (* the two parameters read [Date.now()] one after the other *)
        let qr := "CAP-" +:+ JS.num date_now +:+ "-" +:+ JS.num userId in
        let qr_key := "CAP-" +:+ JS.num date_now' +:+ "-" +:+ JS.num userId in
        let '(insertId, db1) :=
          insert_reservation
            {| r_user_id := userId; r_vehicle_id := None;
               r_parking_spots_id := sectionId; r_parking_section_id := None;
               r_spot_number := None; r_time_stamp := now;
               r_start_time := Some now; r_end_time := Some (now + 24 * 3600);
               r_booking_status := reserved; r_QR := qr; r_qr_key := Some qr_key |}
            db in
        let db2 :=
          update_section sectionId
            (set_counts id (λ c, SQL.add c (Some 1))) db1 in
        (Ok {| rv_reservationId := insertId;
               rv_sectionName := psec_section_name section;
               rv_remainingCapacity := availableCapacity - 1 |}, db2)
  end.

(** *** POST /sections/:sectionId/confirm-parking *)

Definition confirm_parking (db : DB) (sectionId userId reservationId now : Z)
    : Reply string * DB :=
  let '(t, affectedRows) :=
    SQL.update
      (λ k r, (k =? reservationId) && (r_user_id r =? userId)
              && bool_decide (r_booking_status r = reserved))
      (set_booking active (λ _, Some now) id)
      (reservations db) in
  if decide (affectedRows = 0%nat) then
    (Fail 404 "Reservation not found or already confirmed" None [], db)
  else
    let db1 := with_reservations t db in
    let db2 :=
      update_section sectionId
        (set_counts (λ c, SQL.add c (Some 1)) (λ c, SQL.sub c (Some 1))) db1 in
    (Ok "Parking confirmed successfully", db2).

(** *** POST /sections/:sectionId/end-reservation *)

Definition end_reservation (db : DB) (sectionId userId now : Z)
    : Reply string * DB :=
  let '(t, affectedRows) :=
    SQL.update
      (λ _ r, (r_parking_spots_id r =? sectionId) && (r_user_id r =? userId)
              && bool_decide (r_booking_status r = active))
      (set_booking completed id (λ _, Some now))
      (reservations db) in
  if decide (affectedRows = 0%nat) then
    (Fail 404 "No active reservation found for this user in this section" None [], db)
  else
    let db1 := with_reservations t db in
    let db2 :=
      update_section sectionId
        (set_counts (λ c, SQL.sub c (Some 1)) id) db1 in
    (Ok "Capacity reservation ended successfully", db2).

(** *** GET /sections/:sectionId/spots *)

(** A row of the reservations query of the handler (reservation
    LEFT JOIN users LEFT JOIN vehicles). *)
Record LiveRow := {
  lr_reservation_id : Z;
  lr_user_id : Z;
  lr_booking_status : BookingStatus;
  lr_start_time : option Z;
  lr_end_time : option Z;
  lr_first_name : option string;
  lr_last_name : option string;
  lr_plate_number : option string;
  lr_brand : option string;
  lr_color : option string;
  lr_spot_number : option string;
  lr_is_user_booked : Z
}.

Definition live_row (db : DB) (userId : Z) (kr : Z * Reservation) : LiveRow :=
  let r := kr.2 in
  let u := users db !! r_user_id r in
  let v := r_vehicle_id r ≫= λ vid, vehicles db !! vid in
  {| lr_reservation_id := kr.1;
     lr_user_id := r_user_id r;
     lr_booking_status := r_booking_status r;
     lr_start_time := r_start_time r;
     lr_end_time := r_end_time r;
     lr_first_name := u ≫= u_first_name;
     lr_last_name := u ≫= u_last_name;
     lr_plate_number := v ≫= v_plate_number;
     lr_brand := v ≫= v_brand;
     lr_color := v ≫= v_color;
     lr_spot_number := r_spot_number r;
     lr_is_user_booked :=
       if (r_user_id r =? userId) && live (r_booking_status r) then 1 else 0 |}.

(** [r.parking_spots_id IN (SELECT ps.parking_spot_id FROM parking_spot ps
    WHERE ps.parking_section_id = ?)] *)
Definition spot_of_section (db : DB) (sectionId spotId : Z) : bool :=
  match parking_spot db !! spotId with
  | Some p => ps_parking_section_id p =? sectionId
  | None => false
  end.

Definition section_live (db : DB) (sectionId : Z) (r : Reservation) : bool :=
  SQL.eqZ (r_parking_section_id r) sectionId
  && live (r_booking_status r)
  && ((r_parking_spots_id r =? 0) || spot_of_section db sectionId (r_parking_spots_id r)).

(** [ORDER BY r.start_time]: NULL sorts first. *)
Definition start_time_leb (a b : LiveRow) : bool :=
  match lr_start_time a, lr_start_time b with
  | None, _ => true
  | Some _, None => false
  | Some x, Some y => x <=? y
  end.

Definition by_start_time (a b : LiveRow) : Prop := Is_true (start_time_leb a b).

Global Instance by_start_time_dec a b : Decision (by_start_time a b).
Proof. unfold by_start_time. apply _. Defined.

Definition reservations_query (db : DB) (userId sectionId : Z) : list LiveRow :=
  merge_sort by_start_time
    (live_row db userId
       <$> SQL.select (λ _ r, section_live db sectionId r) (reservations db)).

Record Occupant := {
  oc_reservationId : Z;
  oc_userId : Z;
  oc_userName : string;
  oc_plateNumber : option string;
  oc_brand : option string;
  oc_color : option string;
  oc_startTime : option Z;
  oc_endTime : option Z
}.

Record VirtualSpot := {
  vs_spotId : string;
  vs_spotNumber : string;
  vs_spotType : string;
  vs_status : string;
  vs_sectionName : string;
  vs_isUserBooked : bool;
  vs_reservation : option Occupant
}.

Definition occupant (reservation : LiveRow) : Occupant :=
  {| oc_reservationId := lr_reservation_id reservation;
     oc_userId := lr_user_id reservation;
     oc_userName :=
       JS.tpl (lr_first_name reservation) +:+ " " +:+ JS.tpl (lr_last_name reservation);
     oc_plateNumber := lr_plate_number reservation;
     oc_brand := lr_brand reservation;
     oc_color := lr_color reservation;
     oc_startTime := lr_start_time reservation;
     oc_endTime := lr_end_time reservation |}.

(** [`${sectionData.section_name}-${i}`] *)
Definition spot_label (section_name : string) (i : Z) : string :=
  section_name +:+ "-" +:+ JS.num i.

(** [reservations.find(r => r.spot_number === spotNumber)] *)
Definition find_reservation (reservations : list LiveRow) (spotNumber : string)
    : option LiveRow :=
  List.find (λ r, bool_decide (lr_spot_number r = Some spotNumber)) reservations.

(** One turn of the loop that generates the virtual spots. *)
Definition virtual_spot (sectionId : Z) (sectionData : ParkingSection)
    (reservations : list LiveRow) (i : Z) : VirtualSpot :=
  let spotNumber := spot_label (psec_section_name sectionData) i in
  let reservation := find_reservation reservations spotNumber in
  {| vs_spotId := JS.num sectionId +:+ "-virtual-" +:+ JS.num i;
     vs_spotNumber := spotNumber;
     vs_spotType := "motorcycle";
     vs_status :=
       match reservation with
       | Some r => booking_status_str (lr_booking_status r)
       | None => "available"
       end;
     vs_sectionName := psec_section_name sectionData;
     vs_isUserBooked :=
       match reservation with
       | Some r => lr_is_user_booked r =? 1
       | None => false
       end;
     vs_reservation := occupant <$> reservation |}.

(** [for (let i = 1; i <= totalCapacity; i++)] *)
Definition virtualSpots (sectionId : Z) (sectionData : ParkingSection)
    (reservations : list LiveRow) : list VirtualSpot :=
  virtual_spot sectionId sectionData reservations
    <$> seqZ 1 (JS.or0 (psec_capacity sectionData)).

Record SpotsData := {
  sd_sectionId : Z;
  sd_spots : list VirtualSpot;
  sd_totalSpots : nat;
  sd_availableSpots : nat;
  sd_occupiedSpots : nat;
  sd_reservedSpots : nat
}.

Definition count_status (st : string) (l : list VirtualSpot) : nat :=
  length (List.filter (λ s, String.eqb (vs_status s) st) l).

Definition get_spots (db : DB) (userId sectionId : Z) : Reply SpotsData :=
  if userId =? 0 then Fail 400 "Missing required parameters" None []
  else
    match motorcycle_section db sectionId with
    | None => Fail 404 "Motorcycle section not found" None []
    | Some sectionData =>
        let spots :=
          virtualSpots sectionId sectionData (reservations_query db userId sectionId) in
        Ok {| sd_sectionId := sectionId;
              sd_spots := spots;
              sd_totalSpots := length spots;
              sd_availableSpots := count_status "available" spots;
              sd_occupiedSpots := count_status "active" spots;
              sd_reservedSpots := count_status "reserved" spots |}
    end.

(** *** POST /sections/:sectionId/spots/:spotNumber/release

    The handler runs outside a transaction. *)

Definition release (db : DB) (sectionId : Z) (spotNumber : string)
    (userId now : Z) : Reply string * DB :=
  let '(t, affectedRows) :=
    SQL.update
      (λ _ r, SQL.eqZ (r_parking_section_id r) sectionId
              && SQL.eqS (r_spot_number r) spotNumber
              && (r_user_id r =? userId)
              && bool_decide (r_booking_status r = active))
      (set_booking completed id (λ _, Some now))
      (reservations db) in
  let db1 := with_reservations t db in
  if decide (affectedRows = 0%nat) then
    (Fail 404 "No active reservation found for this spot" None [], db1)
  else
    let db2 :=
      update_section sectionId (set_counts (λ c, SQL.sub c (Some 1)) id) db1 in
    (Ok "Successfully released parking spot", db2).

(** *** The assign routes; [toDataURL] is [QRCode.toDataURL]. *)

Section Assign.
Variable toDataURL : string → string.

(** POST /sections/:sectionId/spots/:spotNumber/assign (no transaction) *)
Definition assign (db : DB) (sectionId : Z) (spotNumber : string)
    (vehicleId : option Z) (userId : Z) (qrKey : string) (now : Z)
    : Reply Booked * DB :=
  if (userId =? 0) || JS.falsy vehicleId then
    (Fail 400 "Missing required parameters" None [], db)
  else
    match motorcycle_section db sectionId with
    | None => (Fail 404 "Motorcycle section not found" None [], db)
    | Some sectionData =>
        let vid := default 0 vehicleId in
        match SQL.select_by_key vid (λ v, v_user_id v =? userId) (vehicles db) with
        | None => (Fail 404 "Vehicle not found" None [], db)
        | Some _ =>
            match SQL.select
                    (λ _ r, (r_user_id r =? userId)
                            && bool_decide (r_booking_status r = active))
                    (reservations db) with
            | _ :: _ =>
                (Fail 400 "You already have an active parking session" None [], db)
            | [] =>
                match SQL.select
                        (λ _ r, SQL.eqZ (r_parking_section_id r) sectionId
                                && SQL.eqS (r_spot_number r) spotNumber
                                && live (r_booking_status r))
                        (reservations db) with
                | _ :: _ =>
                    (Fail 400 "Spot is already occupied or reserved" None [], db)
                | [] =>
                    let '(reservationId, db1) :=
                      insert_reservation
                        {| r_user_id := userId; r_vehicle_id := Some vid;
                           r_parking_spots_id := 0;
                           r_parking_section_id := Some sectionId;
                           r_spot_number := Some spotNumber;
                           r_time_stamp := now; r_start_time := None;
                           r_end_time := None; r_booking_status := reserved;
                           r_QR := ""; r_qr_key := Some qrKey |}
                        db in
                    let qrCodeDataURL := toDataURL (JS.stringify_qrData qrKey) in
                    let db2 := update_QR qrCodeDataURL reservationId db1 in
                    let db3 :=
                      update_section sectionId
                        (set_counts (λ c, SQL.add c (Some 1)) id) db2 in
                    (Ok {| bk_reservationId := reservationId;
                           bk_qrCode := qrCodeDataURL;
                           bk_qrKey := qrKey;
                           bk_spotNumber := Some spotNumber;
                           bk_startTime := None;
                           bk_status := "reserved" |}, db3)
                end
            end
        end
    end.
End Assign.

(** *** POST /sections/:sectionId/spots/:spotNumber/guest-assign *)

Record GuestAssigned := {
  ga_sectionId : Z;
  ga_spotNumber : string;
  ga_reservationId : Z;
  ga_sectionName : string
}.

(** [x || null] on an optional text field of the body. *)
Definition or_null (x : option string) : option string :=
  if JS.falsy_str x then None else x.

Definition guest_assign (db : DB) (sectionId : Z) (spotNumber : string)
    (guestName plateNumber brand color : option string)
    (userId : Z) (guestEmail : string) (now : Z)
    : Reply GuestAssigned * DB :=
  if (userId =? 0) || JS.falsy_str guestName || JS.falsy_str plateNumber then
    (Fail 400 "Missing required parameters" None [], db)
  else
    match motorcycle_section db sectionId with
    | None => (Fail 404 "Motorcycle section not found" None [], db)
    | Some sectionData =>
        match SQL.select
                (λ _ r, SQL.eqZ (r_parking_section_id r) sectionId
                        && SQL.eqS (r_spot_number r) spotNumber
                        && bool_decide (r_booking_status r = active))
                (reservations db) with
        | _ :: _ => (Fail 400 "Spot is already occupied" None [], db)
        | [] =>
            let '(guestUserId, db1) :=
              insert_user
                {| u_first_name := guestName; u_last_name := Some "Guest";
                   u_email := Some guestEmail |} db in
            let '(vehicleId, db2) :=
              insert_vehicle
                {| v_user_id := guestUserId; v_plate_number := plateNumber;
                   v_vehicle_type := "motorcycle"; v_brand := or_null brand;
                   v_color := or_null color |} db1 in
            let '(insertId, db3) :=
              insert_reservation
                {| r_user_id := guestUserId; r_vehicle_id := Some vehicleId;
                   r_parking_spots_id := 0;
                   r_parking_section_id := Some sectionId;
                   r_spot_number := Some spotNumber;
                   r_time_stamp := now; r_start_time := Some now;
                   r_end_time := None; r_booking_status := active;
                   r_QR := ""; r_qr_key := None |}
                db2 in
            let db4 :=
              update_section sectionId
                (set_counts (λ c, SQL.add c (Some 1)) id) db3 in
            (Ok {| ga_sectionId := sectionId;
                   ga_spotNumber := spotNumber;
                   ga_reservationId := insertId;
                   ga_sectionName := psec_section_name sectionData |}, db4)
        end
    end.

End Capacity.

(** ** Parking routes *)

Module Parking.

(** Map vehicle types to spot types for compatibility. *)
Definition expectedSpotType (vehicleType : string) : string :=
  if String.eqb (JS.toLowerCase vehicleType) "bicycle" then "bike"
  else if String.eqb (JS.toLowerCase vehicleType) "ebike" then "bike"
  else JS.toLowerCase vehicleType.

(** [SELECT ps.spot_number, ps.parking_section_id, psec.section_name FROM
    parking_spot ps JOIN parking_section psec ... WHERE ps.parking_spot_id = ?] *)
Definition spotDetails (db : DB) (spotId : Z) : option (string * Z * string) :=
  p ← parking_spot db !! spotId;
  psec ← parking_section db !! ps_parking_section_id p;
  Some (ps_spot_number p, ps_parking_section_id p, psec_section_name psec).

Section Book.
Variable toDataURL : string → string.

(** The helper [bookMotorcycleSection]. *)
Definition bookMotorcycleSection (db : DB) (areaId spotId vehicleId userId : Z)
    (qrKey : string) (now : Z) : Reply Booked * DB :=
  match SQL.select_by_key spotId
          (λ ps, (psec_parking_area_id ps =? areaId)
                   && String.eqb (psec_vehicle_type ps) "motorcycle"
                   && String.eqb (psec_section_mode ps) "capacity_only"
                   && SQL.gt0 (SQL.sub (SQL.sub (psec_capacity ps) (psec_parked_count ps))
                                       (psec_reserved_count ps))
                   && SQL.neS (psec_status ps) "unavailable")
          (parking_section db) with
  | None =>
      (Fail 400 "Recommended section is no longer available or is full/unavailable"
            (Some "SECTION_NOT_AVAILABLE") [], db)
  | Some assignedSection =>
      let parking_section_id := spotId in
      let spotNumber :=
        psec_section_name assignedSection +:+ "-"
          +:+ JS.num (JS.or0 (psec_reserved_count assignedSection) + 1) in
      let dummyParkingSpotId := 0 in
      let '(insertId, db1) :=
        insert_reservation
          {| r_user_id := userId; r_vehicle_id := Some vehicleId;
             r_parking_spots_id := dummyParkingSpotId;
             r_parking_section_id := Some parking_section_id;
             r_spot_number := Some spotNumber;
             r_time_stamp := now; r_start_time := None; r_end_time := None;
             r_booking_status := reserved; r_QR := qrKey;
             r_qr_key := Some qrKey |}
          db in
      let db2 :=
        update_section parking_section_id
          (set_counts id (λ c, SQL.add c (Some 1))) db1 in
      let qrCodeDataURL := toDataURL (JS.stringify_qrData qrKey) in
      let db3 := update_QR qrCodeDataURL insertId db2 in
      (Ok {| bk_reservationId := insertId;
             bk_qrCode := qrCodeDataURL;
             bk_qrKey := qrKey;
             bk_spotNumber := None;
             bk_startTime := None;
             bk_status := "reserved" |}, db3)
  end.

(** POST /book, from the conditional update of the spot to the reply.
    [db] is the database the statement runs on; a failure rolls back
    to it. *)
Definition claim_spot (db : DB) (spot : ParkingSpot) (vehicleId spotId userId : Z)
    (qrKey : string) (now : Z) : Reply Booked * DB :=
  let '(t, affectedRows) :=
    SQL.update
      (λ k p, (k =? spotId) && String.eqb (ps_status p) "available")
      (set_spot_status "reserved")
      (parking_spot db) in
  if decide (affectedRows = 0%nat) then
    (Fail 400
          "Parking spot was just booked by another user. Please try a different spot."
          (Some "SPOT_ALREADY_BOOKED") [], db)
  else
    let db1 := with_spots t db in
    let details := spotDetails db1 spotId in
    let spotNumber := (λ d, d.2 +:+ "-" +:+ d.1.1) <$> details in
    let parkingSectionId := (λ d, d.1.2) <$> details in
    let '(reservationId, db2) :=
      insert_reservation
        {| r_user_id := userId; r_vehicle_id := Some vehicleId;
           r_parking_spots_id := spotId;
           r_parking_section_id := parkingSectionId;
           r_spot_number := spotNumber;
           r_time_stamp := now; r_start_time := None; r_end_time := None;
           r_booking_status := reserved; r_QR := "";
           r_qr_key := Some qrKey |}
        db1 in
    let qrCodeDataURL := toDataURL (JS.stringify_qrData qrKey) in
    let db3 := update_QR qrCodeDataURL reservationId db2 in
    (Ok {| bk_reservationId := reservationId;
           bk_qrCode := qrCodeDataURL;
           bk_qrKey := qrKey;
           bk_spotNumber := Some (ps_spot_number spot);
           bk_startTime := None;
           bk_status := "reserved" |}, db3).

(** POST /book. The debug query on the spot id and the activity log
    written after the commit are left out. *)
Definition book (db : DB) (vehicleId spotId areaId : option Z) (userId : Z)
    (qrKey : string) (now : Z) : Reply Booked * DB :=
  if JS.falsy vehicleId || JS.falsy spotId || JS.falsy areaId then
    (Fail 400 "Vehicle ID, spot ID, and area ID are required" None [], db)
  else
    let vid := default 0 vehicleId in
    let sid := default 0 spotId in
    let aid := default 0 areaId in
    match SQL.select_by_key vid (λ v, v_user_id v =? userId) (vehicles db) with
    | None => (Fail 400 "Vehicle not found or does not belong to user" None [], db)
    | Some _ =>
        match vehicles db !! vid with
        | None => (Fail 400 "Vehicle not found" None [], db)
        | Some vehicle =>
            let isMotorcycle :=
              String.eqb (JS.toLowerCase (v_vehicle_type vehicle)) "motorcycle" in
            if isMotorcycle then bookMotorcycleSection db aid sid vid userId qrKey now
            else
              match parking_area db !! aid with
              | None => (Fail 400 "Parking area not found" None [], db)
              | Some _ =>
                  (* SELECT ... FOR UPDATE *)
                  match parking_spot db !! sid with
                  | None => (Fail 400 "Parking spot not found" None [], db)
                  | Some spot =>
                      if negb (String.eqb (ps_status spot) "available") then
                        (Fail 400 "Parking spot is no longer available"
                              (Some "SPOT_UNAVAILABLE") [], db)
                      else
                        let vehicleType := v_vehicle_type vehicle in
                        let spotType := ps_spot_type spot in
                        if negb (String.eqb (expectedSpotType vehicleType)
                                            (JS.toLowerCase spotType)) then
                          (Fail 400
                                ("This parking spot is for " +:+ spotType
                                   +:+ "s only. Your vehicle is a "
                                   +:+ vehicleType +:+ ".")
                                (Some "VEHICLE_TYPE_MISMATCH")
                                [("vehicleType", vehicleType);
                                 ("spotType", spotType);
                                 ("expectedSpotType", expectedSpotType vehicleType)],
                           db)
                        else claim_spot db spot vid sid userId qrKey now
                  end
              end
        end
    end.
End Book.

(** *** GET /booking/:reservationId *)

Record BookingRow := {
  b_reservation_id : Z;
  b_time_stamp : Z;
  b_start_time : option Z;
  b_end_time : option Z;
  b_booking_status : BookingStatus;
  b_QR : string;
  b_qr_key : option string;
  b_first_name : option string;
  b_last_name : option string;
  b_email : option string;
  b_plate_number : option string;
  b_vehicle_type : string;
  b_parking_area_id : Z;
  b_parking_area_name : option string;
  b_spot_number : option string;
  b_spot_type : string;
  b_section_name : string
}.

Definition booking_row (reservationId : Z) (r : Reservation) (u : User)
    (v : Vehicle) (area_id : Z) (pa : Area) (spot_number : option string)
    (spot_type section_name : string) : BookingRow :=
  {| b_reservation_id := reservationId;
     b_time_stamp := r_time_stamp r;
     b_start_time := r_start_time r;
     b_end_time := r_end_time r;
     b_booking_status := r_booking_status r;
     b_QR := r_QR r;
     b_qr_key := r_qr_key r;
     b_first_name := u_first_name u;
     b_last_name := u_last_name u;
     b_email := u_email u;
     b_plate_number := v_plate_number v;
     b_vehicle_type := v_vehicle_type v;
     b_parking_area_id := area_id;
     b_parking_area_name := pa_parking_area_name pa;
     b_spot_number := spot_number;
     b_spot_type := spot_type;
     b_section_name := section_name |}.

(** The join of a capacity-section booking, on the section [section_id]. *)
Definition section_join (db : DB) (reservationId : Z) (r : Reservation)
    (section_id : option Z) (spot_number : string → option string)
    : option BookingRow :=
  u ← users db !! r_user_id r;
  v ← r_vehicle_id r ≫= λ vid, vehicles db !! vid;
  sid ← section_id;
  ps ← parking_section db !! sid;
  pa ← parking_area db !! psec_parking_area_id ps;
  Some (booking_row reservationId r u v (psec_parking_area_id ps) pa
          (spot_number (psec_section_name ps)) "motorcycle" (psec_section_name ps)).

(** The join of a regular-spot booking. *)
Definition spot_join (db : DB) (reservationId : Z) (r : Reservation)
    : option BookingRow :=
  u ← users db !! r_user_id r;
  v ← r_vehicle_id r ≫= λ vid, vehicles db !! vid;
  ps ← parking_spot db !! r_parking_spots_id r;
  psec ← parking_section db !! ps_parking_section_id ps;
  pa ← parking_area db !! psec_parking_area_id psec;
  Some (booking_row reservationId r u v (psec_parking_area_id psec) pa
          (Some (ps_spot_number ps)) (ps_spot_type ps) (psec_section_name psec)).

Section Details.
(** Whether [JSON.parse] accepts a text. *)
Variable json_valid : string → bool.

(** Ensure qr_key is a clean UUID string, not JSON. *)
Definition clean_qr_key (qr_key : option string) : option string :=
  if JS.falsy_str qr_key then None
  else
    let qrKey := JS.trim (default "" qr_key) in
    let cleaned :=
      if JS.startsWith qrKey "{" || JS.startsWith qrKey "[" then
        if json_valid qrKey then
          match JS.typeof_parsed qrKey with
          | JS.t_object => None
          | _ => Some qrKey
          end
        else None
      else Some qrKey in
    (* qrKey || null *)
    if JS.falsy_str cleaned then None else cleaned.

Record BookingDetails := {
  bd_reservationId : Z;
  bd_displayName : string;
  bd_userEmail : option string;
  bd_plateNumber : option string;
  bd_vehicleType : string;
  bd_areaId : Z;
  bd_areaName : option string;
  bd_spotNumber : option string;
  bd_spotType : string;
  bd_sectionName : string;
  bd_bookingTime : Z;
  bd_startTime : option Z;
  bd_endTime : option Z;
  bd_bookingStatus : string;
  bd_qrCode : string;
  bd_qrKey : option string
}.

(** The reply built from the first row; [penaltyInfo], read from a
    table outside this model, is left out. *)
Definition booking_details (booking : BookingRow) : BookingDetails :=
  {| bd_reservationId := b_reservation_id booking;
     bd_displayName :=
       JS.tpl (b_first_name booking) +:+ " " +:+ JS.tpl (b_last_name booking);
     bd_userEmail := b_email booking;
     bd_plateNumber := b_plate_number booking;
     bd_vehicleType := b_vehicle_type booking;
     bd_areaId := b_parking_area_id booking;
     bd_areaName := b_parking_area_name booking;
     bd_spotNumber := b_spot_number booking;
     bd_spotType := b_spot_type booking;
     bd_sectionName := b_section_name booking;
     bd_bookingTime := b_time_stamp booking;
     bd_startTime := b_start_time booking;
     bd_endTime := b_end_time booking;
     bd_bookingStatus := booking_status_str (b_booking_status booking);
     bd_qrCode := b_QR booking;
     bd_qrKey := clean_qr_key (b_qr_key booking) |}.

Definition booking (db : DB) (reservationId userId : Z) : Reply BookingDetails :=
  match SQL.select_by_key reservationId (λ r, r_user_id r =? userId)
          (reservations db) with
  | None => Fail 404 "Booking not found or does not belong to user" None []
  | Some r =>
      let parkingSpotsId := r_parking_spots_id r in
      let vehicle_type :=
        v_vehicle_type <$> (r_vehicle_id r ≫= λ vid, vehicles db !! vid) in
      let found (bookingDetails : option BookingRow) :=
        match bookingDetails with
        | None => Fail 404 "Booking not found or does not belong to user" None []
        | Some booking => Ok (booking_details booking)
        end in
      if bool_decide (vehicle_type = Some "motorcycle") then
        if parkingSpotsId =? 0 then
          found (section_join db reservationId r (r_parking_section_id r)
                   (λ _, r_spot_number r))
        else
          match parking_section db !! parkingSpotsId with
          | Some _ =>
              found (section_join db reservationId r (Some parkingSpotsId)
                       (λ name, Some ("M1-" +:+ name +:+ "-1")))
          | None => Fail 404 "Motorcycle section not found" None []
          end
      else found (spot_join db reservationId r)
  end.
End Details.

(** *** PUT /end-session/:reservationId (no transaction) *)

Record SessionEnded := {
  se_reservationId : Z;
  se_status : string;
  se_spotFreed : bool
}.

Definition end_session (db : DB) (reservationId userId now : Z)
    : Reply SessionEnded * DB :=
  match SQL.select_by_key reservationId (λ r, r_user_id r =? userId)
          (reservations db) with
  | None => (Fail 404 "Reservation not found" None [], db)
  | Some reservationData =>
      let db1 :=
        with_reservations
          (SQL.update (λ k _, k =? reservationId)
             (set_booking completed id (λ _, Some now)) (reservations db)).1 db in
      let db2 :=
        with_spots
          (SQL.update (λ k _, k =? r_parking_spots_id reservationData)
             (set_spot_status "available") (parking_spot db1)).1 db1 in
      (Ok {| se_reservationId := reservationId;
             se_status := "completed";
             se_spotFreed := true |}, db2)
  end.

End Parking.

(** ** Parking routes: listings and look-ups *)

Module ParkingViews.

(** *** GET /areas/:areaId/spots *)

Record SpotRow := {
  sr_id : Z;
  sr_spot_number : string;
  sr_status : string;
  sr_spot_type : string;
  sr_section_name : string
}.

Definition by_spot_number (a b : SpotRow) : Prop :=
  Is_true (String.leb (sr_spot_number a) (sr_spot_number b)).

Global Instance by_spot_number_dec a b : Decision (by_spot_number a b).
Proof. unfold by_spot_number. apply _. Defined.

(** [!includeAll || includeAll === 'false'] on the query parameter. *)
Definition only_available (includeAll : option string) : bool :=
  JS.falsy_str includeAll || bool_decide (includeAll = Some "false").

(** [ps.capacity - ps.parked_count - ps.reserved_count] *)
Definition free_capacity (ps : ParkingSection) : option Z :=
  SQL.sub (SQL.sub (psec_capacity ps) (psec_parked_count ps)) (psec_reserved_count ps).

Definition section_row (kr : Z * ParkingSection) : SpotRow :=
  {| sr_id := kr.1;
     sr_spot_number := psec_section_name kr.2;
     sr_status := if SQL.gt0 (free_capacity kr.2) then "available" else "full";
     sr_spot_type := "motorcycle";
     sr_section_name := psec_section_name kr.2 |}.

(** The WHERE clause of the motorcycle branch. *)
Definition section_listed (areaId : Z) (includeAll : option string)
    (ps : ParkingSection) : bool :=
  (psec_parking_area_id ps =? areaId)
  && String.eqb (psec_vehicle_type ps) "motorcycle"
  && String.eqb (psec_section_mode ps) "capacity_only"
  && SQL.neS (psec_status ps) "unavailable"
  && (if only_available includeAll then SQL.gt0 (free_capacity ps) else true).

(** Map vehicle types to spot types for compatibility (no lower-casing
here). *)
Definition spotType_of (vehicleType : string) : string :=
  if String.eqb vehicleType "bicycle" then "bike"
  else if String.eqb vehicleType "ebike" then "bike"
  else vehicleType.

(** The WHERE clause of the regular branch, on a spot and the section it
joins. *)
Definition spot_listed (db : DB) (areaId : Z) (vehicleType includeAll : option string)
    (ps : ParkingSpot) : bool :=
  match parking_section db !! ps_parking_section_id ps with
  | Some psec =>
      (psec_parking_area_id psec =? areaId)
      && SQL.neS (psec_status psec) "unavailable"
      && (if only_available includeAll then String.eqb (ps_status ps) "available"
          else true)
      && (if JS.falsy_str vehicleType then true
          else String.eqb (ps_spot_type ps) (spotType_of (default "" vehicleType)))
  | None => false
  end.

Definition spot_row (db : DB) (kr : Z * ParkingSpot) : SpotRow :=
  {| sr_id := kr.1;
     sr_spot_number := ps_spot_number kr.2;
     sr_status := ps_status kr.2;
     sr_spot_type := ps_spot_type kr.2;
     sr_section_name :=
       default "" (psec_section_name
                     <$> parking_section db !! ps_parking_section_id kr.2) |}.

(** The [spots] of the reply. *)
Definition spots (db : DB) (areaId : Z) (vehicleType includeAll : option string)
    : list SpotRow :=
  if bool_decide (vehicleType = Some "motorcycle") then
    merge_sort by_spot_number
      (section_row
         <$> SQL.select (λ _ ps, section_listed areaId includeAll ps)
               (parking_section db))
  else
    merge_sort by_spot_number
      (spot_row db
         <$> SQL.select (λ _ ps, spot_listed db areaId vehicleType includeAll ps)
               (parking_spot db)).

(** *** GET /areas/:areaId/spots-status *)

Record SpotStatusRow := {
  ss_id : Z;
  ss_spot_number : string;
  ss_status : string;
  ss_spot_type : string;
  ss_section_name : string;
  ss_is_user_booked : Z
}.

Definition by_status_spot_number (a b : SpotStatusRow) : Prop :=
  Is_true (String.leb (ss_spot_number a) (ss_spot_number b)).

Global Instance by_status_spot_number_dec a b : Decision (by_status_spot_number a b).
Proof. unfold by_status_spot_number. apply _. Defined.

(** The [CASE WHEN EXISTS (...) THEN 1 ELSE 0 END] column on a spot. *)
Definition spot_user_booked (db : DB) (userId spotId : Z) : Z :=
  match SQL.select
          (λ _ r, (r_parking_spots_id r =? spotId) && (r_user_id r =? userId)
                  && live (r_booking_status r))
          (reservations db) with
  | [] => 0
  | _ :: _ => 1
  end.

Definition spot_status_row (db : DB) (userId : Z) (kr : Z * ParkingSpot)
    : SpotStatusRow :=
  {| ss_id := kr.1;
     ss_spot_number := ps_spot_number kr.2;
     ss_status := ps_status kr.2;
     ss_spot_type := ps_spot_type kr.2;
     ss_section_name :=
       default "" (psec_section_name
                     <$> parking_section db !! ps_parking_section_id kr.2);
     ss_is_user_booked := spot_user_booked db userId kr.1 |}.

Definition spot_in_area (db : DB) (areaId : Z) (ps : ParkingSpot) : bool :=
  match parking_section db !! ps_parking_section_id ps with
  | Some psec => psec_parking_area_id psec =? areaId
  | None => false
  end.

Definition spots_status (db : DB) (userId areaId : Z) : list SpotStatusRow :=
  merge_sort by_status_spot_number
    (spot_status_row db userId
       <$> SQL.select (λ _ ps, spot_in_area db areaId ps) (parking_spot db)).

(** *** GET /reservation/:reservationId/parking-spot-id *)

Definition parking_spot_id (db : DB) (reservationId userId : Z) : Reply Z :=
  match SQL.select_by_key reservationId (λ r, r_user_id r =? userId)
          (reservations db) with
  | None => Fail 404 "Reservation not found or does not belong to user" None []
  | Some r => Ok (r_parking_spots_id r)
  end.

(** *** GET /current-booking *)

Record CurrentBooking := {
  cb_reservationId : Z;
  cb_bookingStatus : string;
  cb_location_name : option string;
  cb_spot_number : string;
  cb_plate_number : option string;
  cb_vehicle_type : string;
  cb_vehicle_brand : option string;
  cb_vehicle_color : option string;
  cb_spot_type : string;
  cb_section_name : string;
  cb_location : option string;
  cb_parking_area_id : Z;
  cb_time_stamp : Z;
  cb_start_time : option Z;
  cb_end_time : option Z;
  cb_qr_code : string;
  cb_qr_key : option string
}.

(** [ORDER BY r.time_stamp DESC] *)
Definition newest_first (a b : Z * Reservation) : Prop :=
  r_time_stamp b.2 ≤ r_time_stamp a.2.

Global Instance newest_first_dec a b : Decision (newest_first a b).
Proof. unfold newest_first. apply _. Defined.

(** The vehicle row a reservation joins. *)
Definition vehicle_of_reservation (db : DB) (r : Reservation) : option Vehicle :=
  r_vehicle_id r ≫= λ vid, vehicles db !! vid.

(** The reservations query of the handler, before its [LIMIT 1]. *)
Definition current_reservations (db : DB) (userId : Z) : list (Z * Reservation) :=
  merge_sort newest_first
    (SQL.select
       (λ _ r, (r_user_id r =? userId) && live (r_booking_status r)
               && bool_decide (is_Some (vehicle_of_reservation db r)))
       (reservations db)).

Definition current_row (reservationId : Z) (reservation : Reservation) (v : Vehicle)
    (area_id : Z) (pa : Area) (spot_number spot_type section_name : string)
    : CurrentBooking :=
  {| cb_reservationId := reservationId;
     cb_bookingStatus := booking_status_str (r_booking_status reservation);
     cb_location_name := pa_parking_area_name pa;
     cb_spot_number := spot_number;
     cb_plate_number := v_plate_number v;
     cb_vehicle_type := v_vehicle_type v;
     cb_vehicle_brand := v_brand v;
     cb_vehicle_color := v_color v;
     cb_spot_type := spot_type;
     cb_section_name := section_name;
     cb_location := pa_location pa;
     cb_parking_area_id := area_id;
     cb_time_stamp := r_time_stamp reservation;
     cb_start_time := r_start_time reservation;
     cb_end_time := r_end_time reservation;
     cb_qr_code := r_QR reservation;
     cb_qr_key := r_qr_key reservation |}.

(** The [booking] of the reply ([None] is [booking: null]). *)
Definition current_booking (db : DB) (userId : Z) : option CurrentBooking :=
  match current_reservations db userId with
  | [] => None
  | (reservation_id, reservation) :: _ =>
      v ← vehicle_of_reservation db reservation;
      let parkingSpotsId := r_parking_spots_id reservation in
      match parking_section db !! parkingSpotsId with
      | Some section =>
          (* this is a capacity section *)
          pa ← parking_area db !! psec_parking_area_id section;
          Some (current_row reservation_id reservation v
                  (psec_parking_area_id section) pa
                  ("M1-" +:+ psec_section_name section +:+ "-1") "motorcycle"
                  (psec_section_name section))
      | None =>
          (* this is a regular spot *)
          spot ← parking_spot db !! parkingSpotsId;
          psec ← parking_section db !! ps_parking_section_id spot;
          pa ← parking_area db !! psec_parking_area_id psec;
          Some (current_row reservation_id reservation v
                  (psec_parking_area_id psec) pa
                  (ps_spot_number spot) (ps_spot_type spot)
                  (psec_section_name psec))
      end
  end.

End ParkingViews.

(** ** History routes *)

Module History.

(** [DELETE FROM t WHERE P]: the new table and [affectedRows]. *)
Definition delete_where {A : Type} (P : Z → A → bool) (t : gmap Z A)
    : gmap Z A * nat :=
  (filter (λ kr, P kr.1 kr.2 = false) t,
   size (filter (λ kr, P kr.1 kr.2 = true) t)).

(** DELETE /parking/:reservationId (no transaction) *)
Definition delete_parking (db : DB) (reservationId userId : Z)
    : Reply string * DB :=
  match reservations db !! reservationId with
  | None => (Fail 404 "History record not found" None [], db)
  | Some reservation =>
      if negb (r_user_id reservation =? userId) then
        (Fail 403 "You do not have permission to delete this record" None [], db)
      else
        let '(t, affectedRows) :=
          delete_where (λ k r, (k =? reservationId) && (r_user_id r =? userId))
            (reservations db) in
        let db1 := with_reservations t db in
        if decide (affectedRows = 0%nat) then
          (Fail 404 "History record not found or could not be deleted" None [], db1)
        else (Ok "History record deleted successfully", db1)
  end.

End History.

(** ** Capacity routes: the status of a section *)

Module SectionAdmin.

Definition validStatuses : list string := ["available"; "unavailable"; "maintenance"].

Definition set_section_status (st : string) (s : ParkingSection) : ParkingSection :=
  {| psec_parking_area_id := psec_parking_area_id s;
     psec_section_name := psec_section_name s;
     psec_vehicle_type := psec_vehicle_type s;
     psec_section_mode := psec_section_mode s;
     psec_capacity := psec_capacity s;
     psec_parked_count := psec_parked_count s;
     psec_reserved_count := psec_reserved_count s;
     psec_status := Some st |}.

(** The rows [UPDATE parking_section SET status = ? WHERE
    parking_section_id = ?] changes: the row of the section, unless it
    already stores the status. *)
Definition changed_rows (sectionId : Z) (status : string)
    (t : gmap Z ParkingSection) : nat :=
  size (filter (λ kr : Z * ParkingSection,
                  kr.1 = sectionId ∧ psec_status kr.2 ≠ Some status) t).

Section Driver.
(** [updateResult.affectedRows || (updateResult.rows?.length || 0)] is
    read from the reply of the database module, and this UPDATE can
    match a row without changing it: whether such a row is reported is
    up to the driver (MySQL counts changed rows, or matched rows under
    CLIENT_FOUND_ROWS) and to the wrapper. The number the handler reads
    is therefore a parameter: [affected matched changed], for the rows
    the statement matched and the rows it changed. *)
Variable affected : nat → nat → nat.

(** PUT /sections/:sectionId/status (no transaction) *)
Definition update_section_status (db : DB) (sectionId : Z) (status : option string)
    : Reply string * DB :=
  if JS.falsy_str status then (Fail 400 "Missing required parameters" None [], db)
  else
    let status := default "" status in
    if negb (bool_decide (status ∈ validStatuses)) then
      (Fail 400 ("Invalid status. Must be one of: " +:+ String.concat ", " validStatuses)
            None [], db)
    else
      match parking_section db !! sectionId with
      | None => (Fail 404 "Section not found" None [], db)
      | Some section =>
          let '(t, matched) :=
            SQL.update (λ k _, k =? sectionId) (set_section_status status)
              (parking_section db) in
          let affectedRows :=
            affected matched (changed_rows sectionId status (parking_section db)) in
          let db1 := with_sections t db in
          if decide (affectedRows = 0%nat) then
            (Fail 500 "Failed to update section status" None [], db1)
          else (Ok ("Section status updated to " +:+ status), db1)
      end.
End Driver.

End SectionAdmin.

(** ** Vocabulary of the statements *)

(** The section a capacity reservation is tied to: [reserve] stores it
    in [parking_spots_id] (and no [parking_section_id]), POST /book and
    the assign routes store it in [parking_section_id] (with the dummy
    [parking_spots_id] 0). *)
Definition tied_to_section (r : Reservation) (sectionId : Z) : Prop :=
  match r_parking_section_id r with
  | Some s => s = sectionId
  | None => r_parking_spots_id r = sectionId
  end.

(** The rows the UPDATE of the release route addresses, status apart. *)
Definition release_matches (sectionId : Z) (spotNumber : string) (userId : Z)
    (r : Reservation) : Prop :=
  r_parking_section_id r = Some sectionId ∧
  r_spot_number r = Some spotNumber ∧
  r_user_id r = userId.

(** The conditional update of POST /book. *)
Definition spot_update (db : DB) (spotId : Z) : gmap Z ParkingSpot * nat :=
  SQL.update (λ k p, (k =? spotId) && String.eqb (ps_status p) "available")
    (set_spot_status "reserved") (parking_spot db).

(** The row POST /book inserts for a discrete spot, once its QR image
    is stored. *)
Definition spot_reservation (toDataURL : string → string) (db : DB)
    (vehicleId spotId userId : Z) (qrKey : string) (now : Z) : Reservation :=
  let details := Parking.spotDetails (with_spots (spot_update db spotId).1 db) spotId in
  {| r_user_id := userId; r_vehicle_id := Some vehicleId;
     r_parking_spots_id := spotId;
     r_parking_section_id := (λ d, d.1.2) <$> details;
     r_spot_number := (λ d, d.2 +:+ "-" +:+ d.1.1) <$> details;
     r_time_stamp := now; r_start_time := None; r_end_time := None;
     r_booking_status := reserved;
     r_QR := toDataURL (JS.stringify_qrData qrKey);
     r_qr_key := Some qrKey |}.

(** A bare token, as [uuid.v4()] mints them: not empty, no white space
    around it, not opening like a JSON object or array. *)
Definition bare_token (k : string) : Prop :=
  k ≠ "" ∧ JS.trim k = k ∧
  JS.startsWith k "{" = false ∧ JS.startsWith k "[" = false.

(** A character [JSON.stringify] copies as it is: a code unit from 32 on
    other than the quote (34) and the backslash (92). The characters of
    a uuid are such. *)
Definition plain_char (c : ascii) : bool :=
  let n := Ascii.N_of_ascii c in
  ((32 <=? n) && negb (n =? 34) && negb (n =? 92))%N.

Fixpoint plain_text (k : string) : bool :=
  match k with
  | EmptyString => true
  | String c k' => plain_char c && plain_text k'
  end.

(** The JSON text of the object whose one member is qr_key with the
    value [k], written out character by character: an opening brace, the
    name and the value each between quotes (code unit 34) with a colon
    between them, a closing brace. *)
Definition qr_key_object (k : string) : string :=
  String "{" (String "034" ("qr_key" +:+ String "034" (String ":"
    (String "034" (k +:+ String "034" (String "}" EmptyString)))))).

(** The foreign keys the joins of GET /booking/:reservationId follow. *)
Definition foreign_keys (db : DB) (userId : Z) : Prop :=
  is_Some (users db !! userId) ∧
  (∀ k ps, parking_section db !! k = Some ps →
           is_Some (parking_area db !! psec_parking_area_id ps)) ∧
  (∀ k sp, parking_spot db !! k = Some sp →
           is_Some (parking_section db !! ps_parking_section_id sp)).

(** The row [bookMotorcycleSection] inserts, once its QR image is stored. *)
Definition section_reservation (toDataURL : string → string) (ps : ParkingSection)
    (vehicleId sectionId userId : Z) (qrKey : string) (now : Z) : Reservation :=
  {| r_user_id := userId; r_vehicle_id := Some vehicleId;
     r_parking_spots_id := 0;
     r_parking_section_id := Some sectionId;
     r_spot_number :=
       Some (psec_section_name ps +:+ "-"
               +:+ JS.num (JS.or0 (psec_reserved_count ps) + 1));
     r_time_stamp := now; r_start_time := None; r_end_time := None;
     r_booking_status := reserved;
     r_QR := toDataURL (JS.stringify_qrData qrKey);
     r_qr_key := Some qrKey |}.

(** ** Sample databases

    Small concrete states on which the handlers are run. *)

Module Sample.

Definition toDataURL (payload : string) : string :=
  "data:image/png;base64," +:+ payload.

(** [JSON.parse] standing in: a text is accepted when it ends with the
    closing bracket of its opening one. *)
Definition json_valid (s : string) : bool :=
  match s with
  | String c rest =>
      match String.get (String.length rest - 1) rest with
      | Some d =>
          (Ascii.eqb c "{" && Ascii.eqb d "}") || (Ascii.eqb c "[" && Ascii.eqb d "]")
      | None => false
      end
  | EmptyString => false
  end.

Definition section (area : Z) (name : string) (capacity parked reserved : option Z)
    : ParkingSection :=
  {| psec_parking_area_id := area; psec_section_name := name;
     psec_vehicle_type := "motorcycle"; psec_section_mode := "capacity_only";
     psec_capacity := capacity; psec_parked_count := parked;
     psec_reserved_count := reserved; psec_status := Some "available" |}.



(** Area 1 with the motorcycle sections A (7) and B (8), a user 5 with a
motorcycle 50. *)
Definition base_db : DB :=
  {| users := {[ 5 := {| u_first_name := Some "Ana"; u_last_name := Some "Cruz";
                         u_email := Some "ana@example.org" |} ]};
     vehicles := {[ 50 := {| v_user_id := 5; v_plate_number := Some "ABC123";
                             v_vehicle_type := "motorcycle";
                             v_brand := Some "Honda"; v_color := None |} ]};
     parking_area := {[ 1 := {| pa_parking_area_name := Some "Main";
                                pa_location := Some "Campus" |} ]};
     parking_section :=
       {[ 7 := section 1 "A" (Some 3) (Some 0) (Some 0);
          8 := section 1 "B" (Some 3) (Some 0) (Some 0) ]};
     parking_spot := ∅; reservations := ∅;
     next_reservation_id := 1; next_user_id := 6; next_vehicle_id := 51 |}.

(** User 5 reserved capacity in section A: reservation 1. *)
Definition reserved_db : DB := (Capacity.reserve base_db 7 5 1000 1000000 1000000).2.

(** The attendant confirmed reservation 1 in section A. *)
Definition active_db : DB := (Capacity.confirm_parking reserved_db 7 5 1 2000).2.

(** Reservation 1 of section A confirmed through the route of section B:
the counters of B moved, those of A did not. *)
Definition misconfirmed_db : DB :=
  (Capacity.confirm_parking reserved_db 8 5 1 2000).2.

(** User 5 booked section A with the motorcycle through POST /book:
reservation 1, labelled A-1, in status reserved. *)
Definition moto_booked_db : DB :=
  (Parking.book toDataURL base_db (Some 50) (Some 7) (Some 1) 5
     "3f2b8c1e-0d4a-4e7b-9c61-5a1f0e6d2b77" 1000).2.

(** ... and the attendant confirmed it. *)
Definition moto_active_db : DB :=
  (Capacity.confirm_parking moto_booked_db 7 5 1 2000).2.

Definition blank_reservation : Reservation :=
  {| r_user_id := 0; r_vehicle_id := None; r_parking_spots_id := 0;
     r_parking_section_id := None; r_spot_number := None; r_time_stamp := 0;
     r_start_time := None; r_end_time := None; r_booking_status := completed;
     r_QR := ""; r_qr_key := None |}.

(** The stored reservation [k]. *)
Definition reservation_of (db : DB) (k : Z) : Reservation :=
  default blank_reservation (reservations db !! k).

Definition section_of (db : DB) (k : Z) : ParkingSection :=
  default (section 0 "" None None None) (parking_section db !! k).

(** Area 1 with the car section P (20) and its spots 100 and 101, the
users 5 and 6 with a car each. *)
Definition car_db : DB :=
  {| users := {[ 5 := {| u_first_name := Some "Ana"; u_last_name := Some "Cruz";
                         u_email := Some "ana@example.org" |};
                 6 := {| u_first_name := Some "Ben"; u_last_name := None;
                         u_email := None |} ]};
     vehicles := {[ 51 := {| v_user_id := 5; v_plate_number := Some "CAR051";
                             v_vehicle_type := "Car";
                             v_brand := Some "Toyota"; v_color := Some "red" |};
                    61 := {| v_user_id := 6; v_plate_number := Some "CAR061";
                             v_vehicle_type := "car";
                             v_brand := None; v_color := None |} ]};
     parking_area := {[ 1 := {| pa_parking_area_name := Some "Main";
                                pa_location := Some "Campus" |} ]};
     parking_section :=
       {[ 20 := {| psec_parking_area_id := 1; psec_section_name := "P";
                   psec_vehicle_type := "car"; psec_section_mode := "slot_based";
                   psec_capacity := None; psec_parked_count := None;
                   psec_reserved_count := None; psec_status := Some "available" |} ]};
     parking_spot :=
       {[ 100 := {| ps_parking_section_id := 20; ps_spot_number := "1";
                    ps_spot_type := "car"; ps_status := "available" |};
          101 := {| ps_parking_section_id := 20; ps_spot_number := "2";
                    ps_spot_type := "car"; ps_status := "available" |} ]};
     reservations := ∅;
     next_reservation_id := 1; next_user_id := 7; next_vehicle_id := 62 |}.

(** [base_db] with the type of vehicle 50 stored with a capital. *)
Definition capital_db : DB :=
  {| users := users base_db;
     vehicles := {[ 50 := {| v_user_id := 5; v_plate_number := Some "ABC123";
                             v_vehicle_type := "Motorcycle";
                             v_brand := Some "Honda"; v_color := None |} ]};
     parking_area := parking_area base_db;
     parking_section := parking_section base_db;
     parking_spot := parking_spot base_db;
     reservations := reservations base_db;
     next_reservation_id := 1; next_user_id := 6; next_vehicle_id := 51 |}.

(** [affectedRows] under CLIENT_FOUND_ROWS (rows matched) and without it
    (rows changed). *)
Definition found_rows (matched changed : nat) : nat := matched.
Definition changed_only (matched changed : nat) : nat := changed.

Definition token1 : string := "3f2b8c1e-0d4a-4e7b-9c61-5a1f0e6d2b77".
Definition token2 : string := "9a7d5e30-6b1c-4f2a-8e0d-c4b3a2915f68".

(** User 5 booked spot 100: reservation 1. *)
Definition car_booked_db : DB :=
  (Parking.book toDataURL car_db (Some 51) (Some 100) (Some 1) 5 token1 1000).2.

(** User 5 ended the session of reservation 1; spot 100 is free again. *)
Definition car_ended_db : DB := (Parking.end_session car_booked_db 1 5 3000).2.

(** User 6 then booked spot 100: reservation 2. *)
Definition car_rebooked_db : DB :=
  (Parking.book toDataURL car_ended_db (Some 61) (Some 100) (Some 1) 6 token2 5000).2.

Definition spot_of (db : DB) (k : Z) : ParkingSpot :=
  default {| ps_parking_section_id := 0; ps_spot_number := "";
             ps_spot_type := ""; ps_status := "" |} (parking_spot db !! k).

Definition vehicle_of (db : DB) (k : Z) : Vehicle :=
  default {| v_user_id := 0; v_plate_number := None; v_vehicle_type := "";
             v_brand := None; v_color := None |} (vehicles db !! k).

(** Section C (9) of capacity 1, empty. *)
Definition single_db : DB :=
  with_sections {[ 9 := section 1 "C" (Some 1) (Some 0) (Some 0) ]} base_db.

(** A walk-up guest was assigned to C-1: the section is full. *)
Definition single_full_db : DB :=
  (Capacity.guest_assign single_db 9 "C-1" (Some "Guest One") (Some "G-0001")
     None None 5 "guest_1000_ab12cd@tappark.guest" 1000).2.

(** A walk-up guest parked on A-2 of the 3-capacity section A. *)
Definition guest_db : DB :=
  (Capacity.guest_assign base_db 7 "A-2" (Some "Guest Two") (Some "G-0002")
     (Some "Yamaha") None 5 "guest_2000_ef34gh@tappark.guest" 2000).2.

End Sample.

(** * Properties *)

(** ** The JavaScript primitives on small inputs *)

Example toLowerCase_mixed : JS.toLowerCase "MotorCycle" = "motorcycle".
Proof. reflexivity. Qed.

Example trim_both_ends : JS.trim "  ab c  " = "ab c".
Proof. reflexivity. Qed.

Example num_negative : JS.num (-1) = "-1".
Proof. reflexivity. Qed.

Example json_escape_backslash : JS.json_escape "a\b" = "a\\b".
Proof. reflexivity. Qed.

Example expectedSpotType_ebike : Parking.expectedSpotType "EBike" = "bike".
Proof. reflexivity. Qed.

Example expectedSpotType_car : Parking.expectedSpotType "Car" = "car".
Proof. reflexivity. Qed.

Example spot_label_A2 : Capacity.spot_label "A" 2 = "A-2".
Proof. reflexivity. Qed.

Example clean_qr_key_array :
  Parking.clean_qr_key Sample.json_valid (Some " [1] ") = None.
Proof. reflexivity. Qed.

Example clean_qr_key_padded :
  Parking.clean_qr_key Sample.json_valid (Some (" " +:+ Sample.token1 +:+ " "))
  = Some Sample.token1.
Proof. reflexivity. Qed.

(** ** The SQL primitives *)

Section SQL_facts.
Context {A : Type}.
Implicit Types (P : Z → A → bool) (f : A → A) (t : gmap Z A).

Lemma update_lookup P f t k :
  (SQL.update P f t).1 !! k = (λ r, if P k r then f r else r) <$> t !! k.
Proof.
  unfold SQL.update; simpl. rewrite map_lookup_imap.
  by destruct (t !! k).
Qed.

Lemma update_affected_zero P f t :
  (SQL.update P f t).2 = 0%nat ↔ ∀ k r, t !! k = Some r → P k r = false.
Proof.
  unfold SQL.update; simpl. rewrite map_size_empty_iff, map_empty. split.
  - intros Hnone k r Hk. destruct (P k r) eqn:HP; [|done].
    specialize (Hnone k). rewrite map_lookup_filter in Hnone.
    rewrite Hk in Hnone. simpl in Hnone.
    rewrite option_guard_True in Hnone by done. discriminate.
  - intros Hall k. rewrite map_lookup_filter.
    destruct (t !! k) as [r|] eqn:Hk; [|done]. simpl.
    rewrite option_guard_False; [done|].
    simpl. rewrite (Hall k r Hk). discriminate.
Qed.

Lemma update_affected_pos P f t k r :
  t !! k = Some r → P k r = true → (SQL.update P f t).2 ≠ 0%nat.
Proof.
  intros Hk HP H0. rewrite update_affected_zero in H0.
  rewrite (H0 k r Hk) in HP. discriminate.
Qed.

(** An UPDATE that matched no row leaves the table as it was. *)
Lemma update_none_id P f t :
  (SQL.update P f t).2 = 0%nat → (SQL.update P f t).1 = t.
Proof.
  rewrite update_affected_zero. intros Hall. apply map_eq. intros k.
  rewrite update_lookup. destruct (t !! k) as [r|] eqn:Hk; [|done].
  simpl. by rewrite (Hall k r Hk).
Qed.

(** [UPDATE ... WHERE pk = key]. *)
Lemma update_key_eq f t key :
  (SQL.update (λ k _, k =? key) f t).1 !! key = f <$> t !! key.
Proof.
  rewrite update_lookup. destruct (t !! key); [|done].
  simpl. by rewrite Z.eqb_refl.
Qed.

Lemma update_key_ne f t key k :
  k ≠ key → (SQL.update (λ k _, k =? key) f t).1 !! k = t !! k.
Proof.
  intros Hne. rewrite update_lookup. destruct (t !! k); [|done].
  simpl. by rewrite (proj2 (Z.eqb_neq k key) Hne).
Qed.

Lemma select_elem P t k r :
  (k, r) ∈ SQL.select P t ↔ t !! k = Some r ∧ P k r = true.
Proof.
  unfold SQL.select. rewrite list_elem_of_In, List.filter_In, <- list_elem_of_In.
  by rewrite elem_of_map_to_list.
Qed.

Lemma select_nil P t :
  SQL.select P t = [] ↔ ∀ k r, t !! k = Some r → P k r = false.
Proof.
  split.
  - intros Hnil k r Hk. destruct (P k r) eqn:HP; [|done].
    assert ((k, r) ∈ SQL.select P t) as Hin by by apply select_elem.
    rewrite Hnil in Hin. by apply elem_of_nil in Hin.
  - intros Hall. destruct (SQL.select P t) as [|[k r] l] eqn:Hsel; [done|].
    assert ((k, r) ∈ SQL.select P t) as Hin by (rewrite Hsel; left).
    apply select_elem in Hin as [Hk HP]. by rewrite (Hall k r Hk) in HP.
Qed.

Lemma select_by_key_Some key (Q : A → bool) t r :
  SQL.select_by_key key Q t = Some r ↔ t !! key = Some r ∧ Q r = true.
Proof.
  unfold SQL.select_by_key. destruct (t !! key) as [r'|].
  - destruct (Q r') eqn:HQ; split.
    + intros [= ->]. done.
    + intros [[= ->] _]. done.
    + discriminate.
    + intros [[= ->] HQ']. congruence.
  - split; [discriminate | intros [? _]; discriminate].
Qed.
End SQL_facts.

(** ** Capacity status *)




(** ** Database bookkeeping *)

Lemma update_section_lookup db sectionId f :
  parking_section (update_section sectionId f db) !! sectionId
  = f <$> parking_section db !! sectionId.
Proof. unfold update_section; simpl. apply update_key_eq. Qed.

Lemma update_section_lookup_ne db sectionId f k :
  k ≠ sectionId →
  parking_section (update_section sectionId f db) !! k = parking_section db !! k.
Proof. intros Hne. unfold update_section; simpl. by apply update_key_ne. Qed.

Lemma update_section_reservations db sectionId f :
  reservations (update_section sectionId f db) = reservations db.
Proof. reflexivity. Qed.

Lemma with_reservations_id db : with_reservations (reservations db) db = db.
Proof. by destruct db. Qed.

Lemma with_spots_id db : with_spots (parking_spot db) db = db.
Proof. by destruct db. Qed.

(** ** Confirm *)

(** C3 (as the code has it): confirm is legal only from status reserved
    and only for the owner. A confirm by the owner of a reservation in
    status reserved, made through the route of the section the
    reservation is tied to, makes it active with start_time = now and, in
    the same resulting state, moves one unit of that section from
    reserved_count to parked_count; no other reservation and no other
    section changes. A confirm of a reservation that is already active or
    completed, or of a reservation of somebody else, fails (404, not
    found or already confirmed) and leaves the whole database as it
    was. *)
Theorem confirm_parking_only_from_reserved db sectionId userId reservationId now r :
  reservations db !! reservationId = Some r →
  (r_user_id r = userId →
   r_booking_status r = reserved →
   tied_to_section r sectionId →
   ∃ db',
     Capacity.confirm_parking db sectionId userId reservationId now
       = (Ok "Parking confirmed successfully", db') ∧
     reservations db' !! reservationId
       = Some (set_booking active (λ _, Some now) id r) ∧
     (∀ k, k ≠ reservationId → reservations db' !! k = reservations db !! k) ∧
     (∀ s p rc,
        parking_section db !! sectionId = Some s →
        psec_parked_count s = Some p →
        psec_reserved_count s = Some rc →
        ∃ s', parking_section db' !! sectionId = Some s' ∧
              psec_reserved_count s' = Some (rc - 1) ∧
              psec_parked_count s' = Some (p + 1)) ∧
     (∀ k, k ≠ sectionId → parking_section db' !! k = parking_section db !! k))
  ∧ (r_booking_status r ≠ reserved ∨ r_user_id r ≠ userId →
     Capacity.confirm_parking db sectionId userId reservationId now
       = (Fail 404 "Reservation not found or already confirmed" None [], db)).
Proof.
  intros Hr. unfold Capacity.confirm_parking.
  set (P := λ (k : Z) (r0 : Reservation),
         (k =? reservationId) && (r_user_id r0 =? userId)
         && bool_decide (r_booking_status r0 = reserved)).
  set (f := set_booking active (λ _, Some now) id).
  pose proof (update_lookup P f (reservations db)) as Hlook.
  pose proof (update_affected_zero P f (reservations db)) as Hzero.
  destruct (SQL.update P f (reservations db)) as [t n]. simpl in Hlook, Hzero.
  split.
  - intros Hu Hst _.
    assert (P reservationId r = true) as HP.
    { unfold P. rewrite Z.eqb_refl, Hu, Z.eqb_refl, Hst. done. }
    destruct (decide (n = 0%nat)) as [Hn|Hn].
    { rewrite (proj1 Hzero Hn _ _ Hr) in HP. discriminate. }
    eexists. split; [reflexivity|]. split; [|split; [|split]].
    + rewrite update_section_reservations. simpl.
      rewrite Hlook, Hr. simpl. by rewrite HP.
    + intros k Hne. rewrite update_section_reservations. simpl.
      rewrite Hlook. destruct (reservations db !! k) as [r0|]; [|done]. simpl.
      unfold P. by rewrite (proj2 (Z.eqb_neq _ _) Hne).
    + intros s p rc Hs Hp Hrc. rewrite update_section_lookup. simpl.
      rewrite Hs. simpl. eexists. split; [reflexivity|]. simpl.
      rewrite Hp, Hrc. done.
    + intros k Hne. by rewrite update_section_lookup_ne.
  - intros Hst.
    destruct (decide (n = 0%nat)) as [Hn|Hn]; [done|].
    exfalso. apply Hn. apply (proj2 Hzero). intros k r0 Hk. unfold P.
    destruct (Z.eqb_spec k reservationId) as [->|]; [|done].
    rewrite Hr in Hk. injection Hk as <-.
    destruct Hst as [Hst|Hu].
    + rewrite (bool_decide_eq_false_2 _ Hst). by rewrite andb_false_r.
    + by rewrite (proj2 (Z.eqb_neq _ _) Hu).
Qed.

Lemma confirm_parking_only_from_reserved_witness :
  (∃ db',
     Capacity.confirm_parking Sample.reserved_db 7 5 1 2000
       = (Ok "Parking confirmed successfully", db') ∧
     (r_booking_status <$> reservations db' !! 1) = Some active ∧
     (r_start_time <$> reservations db' !! 1) = Some (Some 2000) ∧
     (psec_reserved_count <$> parking_section db' !! 7) = Some (Some 0) ∧
     (psec_parked_count <$> parking_section db' !! 7) = Some (Some 1) ∧
     parking_section db' !! 8 = parking_section Sample.reserved_db !! 8)
  ∧ Capacity.confirm_parking Sample.active_db 7 5 1 3000
    = (Fail 404 "Reservation not found or already confirmed" None [],
       Sample.active_db).
Proof.
  split.
  - destruct (confirm_parking_only_from_reserved Sample.reserved_db 7 5 1 2000
                {| r_user_id := 5; r_vehicle_id := None; r_parking_spots_id := 7;
                   r_parking_section_id := None; r_spot_number := None;
                   r_time_stamp := 1000; r_start_time := Some 1000;
                   r_end_time := Some 87400; r_booking_status := reserved;
                   r_QR := "CAP-1000000-5"; r_qr_key := Some "CAP-1000000-5" |}
                ltac:(vm_compute; reflexivity))
      as [Hok _].
    destruct (Hok ltac:(reflexivity) ltac:(reflexivity) ltac:(reflexivity))
      as (db' & Hrun & Hres & _ & Hsec & Hother).
    destruct (Hsec (Sample.section 1 "A" (Some 3) (Some 0) (Some 1)) 0 1
                ltac:(vm_compute; reflexivity) ltac:(reflexivity) ltac:(reflexivity))
      as (s' & Hs' & Hrc & Hpc).
    exists db'. split; [exact Hrun|]. rewrite Hres. split; [done|]. split; [done|].
    rewrite Hs'. simpl. rewrite Hrc, Hpc. split; [done|]. split; [done|].
    by apply Hother.
  - eapply (confirm_parking_only_from_reserved Sample.active_db 7 5 1 3000).
    + vm_compute. reflexivity.
    + left. discriminate.
Defined.

(** The claim as stated fails on both counts at reservation 1 of user 5,
    reserved in section 7 (A): user 6 is refused and the reservation
    stays reserved; and the owner's confirm through the route of section
    8 (B) succeeds, leaves the counters of section 7 at parked 0,
    reserved 1, and moves those of section 8 to parked 1, reserved -1. *)
Lemma confirm_parking_other_user_or_section :
  Capacity.confirm_parking Sample.reserved_db 7 6 1 2000
  = (Fail 404 "Reservation not found or already confirmed" None [],
     Sample.reserved_db)
  ∧ (r_booking_status <$> reservations Sample.reserved_db !! 1) = Some reserved
  ∧ ∃ db',
      Capacity.confirm_parking Sample.reserved_db 8 5 1 2000
      = (Ok "Parking confirmed successfully", db') ∧
      (r_booking_status <$> reservations db' !! 1) = Some active ∧
      (r_parking_spots_id <$> reservations db' !! 1) = Some 7 ∧
      (psec_parked_count <$> parking_section db' !! 7) = Some (Some 0) ∧
      (psec_reserved_count <$> parking_section db' !! 7) = Some (Some 1) ∧
      (psec_parked_count <$> parking_section db' !! 8) = Some (Some 1) ∧
      (psec_reserved_count <$> parking_section db' !! 8) = Some (Some (-1)).
Proof.
  split; [vm_compute; reflexivity|]. split; [vm_compute; reflexivity|].
  eexists. split; [vm_compute; reflexivity|]. vm_compute. done.
Qed.

(** ** End of a capacity reservation *)

(** C7 (as the code has it): ending an active capacity reservation of the
    caller in the section completes it and lowers the section's
    parked_count by exactly 1; the decrement is a plain [parked_count - 1]
    with no floor. *)
Theorem end_reservation_decrements_parked db sectionId userId now k r s p :
  reservations db !! k = Some r →
  r_parking_spots_id r = sectionId →
  r_user_id r = userId →
  r_booking_status r = active →
  parking_section db !! sectionId = Some s →
  psec_parked_count s = Some p →
  ∃ db' s',
    Capacity.end_reservation db sectionId userId now
      = (Ok "Capacity reservation ended successfully", db') ∧
    reservations db' !! k = Some (set_booking completed id (λ _, Some now) r) ∧
    parking_section db' !! sectionId = Some s' ∧
    psec_parked_count s' = Some (p - 1) ∧
    psec_reserved_count s' = psec_reserved_count s.
Proof.
  intros Hr Hsec Hu Hst Hs Hp. unfold Capacity.end_reservation.
  set (P := λ (_ : Z) (r0 : Reservation),
         (r_parking_spots_id r0 =? sectionId) && (r_user_id r0 =? userId)
         && bool_decide (r_booking_status r0 = active)).
  set (f := set_booking completed id (λ _, Some now)).
  pose proof (update_lookup P f (reservations db) k) as Hlook.
  pose proof (update_affected_zero P f (reservations db)) as Hzero.
  destruct (SQL.update P f (reservations db)) as [t n]. simpl in Hlook, Hzero.
  assert (P k r = true) as HP.
  { unfold P. rewrite Hsec, Hu, !Z.eqb_refl, Hst. done. }
  destruct (decide (n = 0%nat)) as [Hn|Hn].
  { rewrite (proj1 Hzero Hn _ _ Hr) in HP. discriminate. }
  eexists _, _. split; [reflexivity|]. split.
  - rewrite update_section_reservations. simpl. rewrite Hlook, Hr. simpl.
    by rewrite HP.
  - rewrite update_section_lookup. simpl. rewrite Hs. simpl.
    split; [reflexivity|]. simpl. by rewrite Hp.
Qed.

Lemma end_reservation_decrements_parked_witness :
  ∃ db' s',
    Capacity.end_reservation Sample.active_db 7 5 3000
      = (Ok "Capacity reservation ended successfully", db') ∧
    (r_booking_status <$> reservations db' !! 1) = Some completed ∧
    parking_section db' !! 7 = Some s' ∧
    psec_parked_count s' = Some 0.
Proof.
  destruct (end_reservation_decrements_parked Sample.active_db 7 5 3000 1
              {| r_user_id := 5; r_vehicle_id := None; r_parking_spots_id := 7;
                 r_parking_section_id := None; r_spot_number := None;
                 r_time_stamp := 1000; r_start_time := Some 2000;
                 r_end_time := Some 87400; r_booking_status := active;
                 r_QR := "CAP-1000000-5"; r_qr_key := Some "CAP-1000000-5" |}
              (Sample.section 1 "A" (Some 3) (Some 1) (Some 0)) 1
              ltac:(vm_compute; reflexivity) ltac:(reflexivity) ltac:(reflexivity)
              ltac:(reflexivity) ltac:(vm_compute; reflexivity) ltac:(reflexivity))
    as (db' & s' & Hrun & Hres & Hs' & Hpc & _).
  exists db', s'. split; [exact Hrun|]. split; [by rewrite Hres|].
  split; [exact Hs'|exact Hpc].
Defined.

(** C7, the claim as stated fails: with a stored parked_count of 0 the
    end of an active reservation drives the counter to -1. *)
Lemma end_reservation_below_zero :
  (psec_parked_count <$> parking_section Sample.misconfirmed_db !! 7) = Some (Some 0)
  ∧ (Capacity.end_reservation Sample.misconfirmed_db 7 5 3000).1
    = Ok "Capacity reservation ended successfully"
  ∧ (psec_parked_count
       <$> parking_section (Capacity.end_reservation Sample.misconfirmed_db 7 5 3000).2 !! 7)
    = Some (Some (-1)).
Proof. vm_compute. done. Qed.

(** ** Release *)

Lemma release_where_true sectionId spotNumber userId r :
  release_matches sectionId spotNumber userId r →
  SQL.eqZ (r_parking_section_id r) sectionId
  && SQL.eqS (r_spot_number r) spotNumber
  && (r_user_id r =? userId) = true.
Proof.
  intros (-> & -> & ->). simpl.
  by rewrite !Z.eqb_refl, String.eqb_refl.
Qed.

(** C6 (as the code has it): release is legal only from status active.
    Releasing an active pseudo-spot reservation of the caller completes
    it and lowers the section's parked_count by 1, after which a section
    that was within its capacity accepts a new reserve; when no matching
    reservation is active (it is still reserved, say) the release fails
    with 404 and nothing changes. *)
Theorem release_only_from_active db sectionId spotNumber userId now :
  (∀ k r,
     reservations db !! k = Some r →
     release_matches sectionId spotNumber userId r →
     r_booking_status r = active →
     ∃ db',
       Capacity.release db sectionId spotNumber userId now
         = (Ok "Successfully released parking spot", db') ∧
       reservations db' !! k = Some (set_booking completed id (λ _, Some now) r) ∧
       ∀ s c p rc,
         parking_section db !! sectionId = Some s →
         psec_capacity s = Some c →
         psec_parked_count s = Some p →
         psec_reserved_count s = Some rc →
         (∃ s', parking_section db' !! sectionId = Some s' ∧
                psec_parked_count s' = Some (p - 1) ∧
                psec_reserved_count s' = Some rc) ∧
         (psec_vehicle_type s = "motorcycle" → p + rc ≤ c →
          ∀ user now' date_now date_now',
            is_ok (Capacity.reserve db' sectionId user now' date_now date_now').1
            = true))
  ∧ ((∀ k r,
        reservations db !! k = Some r →
        release_matches sectionId spotNumber userId r →
        r_booking_status r ≠ active) →
     Capacity.release db sectionId spotNumber userId now
       = (Fail 404 "No active reservation found for this spot" None [], db)).
Proof.
  unfold Capacity.release.
  set (P := λ (_ : Z) (r0 : Reservation),
         SQL.eqZ (r_parking_section_id r0) sectionId
         && SQL.eqS (r_spot_number r0) spotNumber
         && (r_user_id r0 =? userId)
         && bool_decide (r_booking_status r0 = active)).
  set (f := set_booking completed id (λ _, Some now)).
  pose proof (update_lookup P f (reservations db)) as Hlook.
  pose proof (update_affected_zero P f (reservations db)) as Hzero.
  pose proof (update_none_id P f (reservations db)) as Hid.
  destruct (SQL.update P f (reservations db)) as [t n].
  simpl in Hlook, Hzero, Hid. split.
  - intros k r Hr Hm Hst.
    assert (P k r = true) as HP.
    { unfold P. rewrite (release_where_true _ _ _ _ Hm), Hst. done. }
    destruct (decide (n = 0%nat)) as [Hn|Hn].
    { rewrite (proj1 Hzero Hn _ _ Hr) in HP. discriminate. }
    eexists. split; [reflexivity|]. split.
    { rewrite update_section_reservations. simpl. rewrite Hlook, Hr. simpl.
      by rewrite HP. }
    intros s c p rc Hs Hc Hp Hrc.
    assert (parking_section
              (update_section sectionId (set_counts (λ c0, SQL.sub c0 (Some 1)) id)
                 (with_reservations t db)) !! sectionId
            = Some (set_counts (λ c0, SQL.sub c0 (Some 1)) id s)) as Hs'.
    { rewrite update_section_lookup. simpl. by rewrite Hs. }
    split.
    { eexists. split; [exact Hs'|]. simpl. by rewrite Hp, Hrc. }
    intros Hty Hinv user now' date_now date_now'. unfold Capacity.reserve, motorcycle_section.
    unfold SQL.select_by_key. rewrite Hs'. simpl. rewrite Hty. simpl.
    rewrite Hc, Hp, Hrc. simpl.
    destruct (Z.leb_spec (Z.max 0 (c - (p - 1 + rc))) 0) as [Hle|Hgt]; [lia|].
    reflexivity.
  - intros Hall.
    assert (n = 0%nat) as Hn.
    { apply (proj2 Hzero). intros k r Hr. unfold P.
      destruct (SQL.eqZ (r_parking_section_id r) sectionId) eqn:E1; [|done].
      destruct (SQL.eqS (r_spot_number r) spotNumber) eqn:E2; [|done].
      destruct (Z.eqb_spec (r_user_id r) userId) as [E3|]; [|done].
      simpl. apply bool_decide_eq_false_2. apply (Hall k r Hr).
      unfold release_matches, SQL.eqZ, SQL.eqS in *.
      destruct (r_parking_section_id r) as [x|]; [|done].
      destruct (r_spot_number r) as [y|]; [|done].
      apply Z.eqb_eq in E1 as ->. apply String.eqb_eq in E2 as ->. done. }
    rewrite (Hid Hn), with_reservations_id.
    by destruct (decide (n = 0%nat)).
Qed.

Lemma release_only_from_active_witness :
  ∃ db',
    Capacity.release Sample.moto_active_db 7 "A-1" 5 3000
      = (Ok "Successfully released parking spot", db') ∧
    (r_booking_status <$> reservations db' !! 1) = Some completed ∧
    (psec_parked_count <$> parking_section db' !! 7) = Some (Some 0) ∧
    is_ok (Capacity.reserve db' 7 5 4000 4000000 4000001).1 = true.
Proof.
  destruct (proj1 (release_only_from_active Sample.moto_active_db 7 "A-1" 5 3000)
              1 (Sample.reservation_of Sample.moto_active_db 1)
              ltac:(vm_compute; reflexivity)
              ltac:(vm_compute; done)
              ltac:(vm_compute; reflexivity))
    as (db' & Hrun & Hres & Hsec).
  destruct (Hsec (Sample.section_of Sample.moto_active_db 7) 3 1 0
              ltac:(vm_compute; reflexivity) ltac:(reflexivity)
              ltac:(reflexivity) ltac:(reflexivity))
    as ((s' & Hs' & Hpc & _) & Hnew).
  exists db'. split; [exact Hrun|]. split; [by rewrite Hres|].
  split; [rewrite Hs'; simpl; by rewrite Hpc|].
  apply Hnew; [reflexivity | lia].
Defined.

(** C6, the claim as stated fails: the release of a reservation that is
    still reserved is refused, the reservation stays reserved and
    reserved_count keeps its value. *)
Lemma release_rejects_reserved :
  (r_booking_status <$> reservations Sample.moto_booked_db !! 1) = Some reserved
  ∧ (psec_reserved_count <$> parking_section Sample.moto_booked_db !! 7) = Some (Some 1)
  ∧ Capacity.release Sample.moto_booked_db 7 "A-1" 5 3000
    = (Fail 404 "No active reservation found for this spot" None [],
       Sample.moto_booked_db).
Proof.
  vm_compute. done.
Qed.

(** ** Booking a discrete spot *)

Lemma update_QR_inserted q id r t :
  (SQL.update (λ k _, k =? id) (set_QR q) (SQL.insert_row id r t)).1 !! id
  = Some (set_QR q r).
Proof.
  rewrite update_key_eq. unfold SQL.insert_row. by rewrite lookup_insert_eq.
Qed.

Lemma claim_spot_lost toDataURL db spot vehicleId spotId userId qrKey now :
  (spot_update db spotId).2 = 0%nat →
  Parking.claim_spot toDataURL db spot vehicleId spotId userId qrKey now
  = (Fail 400
       "Parking spot was just booked by another user. Please try a different spot."
       (Some "SPOT_ALREADY_BOOKED") [], db).
Proof.
  unfold Parking.claim_spot, spot_update. intros H0.
  destruct (SQL.update _ _ (parking_spot db)) as [t n]. simpl in H0.
  by destruct (decide (n = 0%nat)).
Qed.

(** What a successful claim leaves behind. *)
Lemma claim_spot_ok toDataURL db spot vehicleId spotId userId qrKey now d db' :
  Parking.claim_spot toDataURL db spot vehicleId spotId userId qrKey now = (Ok d, db') →
  (spot_update db spotId).2 ≠ 0%nat ∧
  bk_reservationId d = next_reservation_id db ∧
  bk_qrKey d = qrKey ∧
  bk_qrCode d = toDataURL (JS.stringify_qrData qrKey) ∧
  users db' = users db ∧ vehicles db' = vehicles db ∧
  parking_area db' = parking_area db ∧
  parking_section db' = parking_section db ∧
  parking_spot db' = (spot_update db spotId).1 ∧
  reservations db' !! next_reservation_id db
  = Some (spot_reservation toDataURL db vehicleId spotId userId qrKey now) ∧
  (∀ k, k ≠ next_reservation_id db → reservations db' !! k = reservations db !! k).
Proof.
  unfold Parking.claim_spot, spot_reservation, spot_update.
  destruct (SQL.update _ _ (parking_spot db)) as [t n]. simpl.
  destruct (decide (n = 0%nat)) as [|Hn]; [discriminate|].
  intros [= <- <-].
  split; [done|]. do 8 (split; [reflexivity|]).
  unfold update_QR, insert_reservation.
  cbn [reservations with_reservations with_spots next_reservation_id].
  split.
  - by rewrite update_QR_inserted.
  - intros k Hk. rewrite update_key_ne by done.
    unfold SQL.insert_row. by rewrite lookup_insert_ne.
Qed.

(** POST /book on a discrete spot, up to the conditional update. *)
Lemma book_discrete toDataURL db vid sid aid userId qrKey now vehicle spot :
  vid ≠ 0 → sid ≠ 0 → aid ≠ 0 →
  vehicles db !! vid = Some vehicle →
  v_user_id vehicle = userId →
  JS.toLowerCase (v_vehicle_type vehicle) ≠ "motorcycle" →
  is_Some (parking_area db !! aid) →
  parking_spot db !! sid = Some spot →
  Parking.book toDataURL db (Some vid) (Some sid) (Some aid) userId qrKey now
  = if negb (String.eqb (ps_status spot) "available") then
      (Fail 400 "Parking spot is no longer available" (Some "SPOT_UNAVAILABLE") [], db)
    else if negb (String.eqb (Parking.expectedSpotType (v_vehicle_type vehicle))
                             (JS.toLowerCase (ps_spot_type spot))) then
      (Fail 400
         ("This parking spot is for " +:+ ps_spot_type spot
            +:+ "s only. Your vehicle is a " +:+ v_vehicle_type vehicle +:+ ".")
         (Some "VEHICLE_TYPE_MISMATCH")
         [("vehicleType", v_vehicle_type vehicle);
          ("spotType", ps_spot_type spot);
          ("expectedSpotType", Parking.expectedSpotType (v_vehicle_type vehicle))],
       db)
    else Parking.claim_spot toDataURL db spot vid sid userId qrKey now.
Proof.
  intros Hv Hs Ha Hveh Hown Hmoto [area Harea] Hspot.
  unfold Parking.book. simpl.
  rewrite (proj2 (Z.eqb_neq _ _) Hv), (proj2 (Z.eqb_neq _ _) Hs),
    (proj2 (Z.eqb_neq _ _) Ha). simpl.
  unfold SQL.select_by_key. rewrite Hveh, Hown, Z.eqb_refl.
  rewrite (proj2 (String.eqb_neq _ _) Hmoto).
  by rewrite Harea, Hspot.
Qed.

(** C1: a POST /book on a discrete spot re-reads the locked spot row and
    refuses a spot that is not available (SPOT_UNAVAILABLE), otherwise it
    goes on to the conditional update available -> reserved; whenever
    that update affects zero rows the call fails with the conflict code
    SPOT_ALREADY_BOOKED and returns the database it ran on, so no
    reservation row is created; a call that succeeds found the spot
    available, leaves it reserved and has created its reservation row in
    status reserved. *)
Theorem book_spot_conditional_update toDataURL db vid sid aid userId qrKey now
    vehicle spot :
  vid ≠ 0 → sid ≠ 0 → aid ≠ 0 →
  vehicles db !! vid = Some vehicle →
  v_user_id vehicle = userId →
  JS.toLowerCase (v_vehicle_type vehicle) ≠ "motorcycle" →
  is_Some (parking_area db !! aid) →
  parking_spot db !! sid = Some spot →
  let run := Parking.book toDataURL db (Some vid) (Some sid) (Some aid) userId qrKey now in
  (ps_status spot ≠ "available" →
   run = (Fail 400 "Parking spot is no longer available" (Some "SPOT_UNAVAILABLE") [], db))
  ∧ (ps_status spot = "available" →
     Parking.expectedSpotType (v_vehicle_type vehicle) = JS.toLowerCase (ps_spot_type spot) →
     run = Parking.claim_spot toDataURL db spot vid sid userId qrKey now)
  ∧ (∀ db0, (spot_update db0 sid).2 = 0%nat →
       Parking.claim_spot toDataURL db0 spot vid sid userId qrKey now
       = (Fail 400
            "Parking spot was just booked by another user. Please try a different spot."
            (Some "SPOT_ALREADY_BOOKED") [], db0))
  ∧ (∀ d db', run = (Ok d, db') →
       ps_status spot = "available" ∧
       (ps_status <$> parking_spot db' !! sid) = Some "reserved" ∧
       (r_booking_status <$> reservations db' !! bk_reservationId d) = Some reserved ∧
       (r_parking_spots_id <$> reservations db' !! bk_reservationId d) = Some sid).
Proof.
  intros Hv Hs Ha Hveh Hown Hmoto Harea Hspot run.
  assert (run = _) as Hrun
    by exact (book_discrete toDataURL db vid sid aid userId qrKey now vehicle spot
                Hv Hs Ha Hveh Hown Hmoto Harea Hspot).
  split; [|split; [|split]].
  - intros Hst. rewrite Hrun.
    by rewrite (proj2 (String.eqb_neq _ _) Hst).
  - intros Hst Hty. rewrite Hrun, Hst, Hty. simpl.
    by rewrite String.eqb_refl.
  - intros db0. apply claim_spot_lost.
  - intros d db'. rewrite Hrun.
    destruct (String.eqb_spec (ps_status spot) "available") as [Hst|]; [|discriminate].
    simpl.
    destruct (negb (String.eqb _ (JS.toLowerCase (ps_spot_type spot)))); [discriminate|].
    intros Hclaim. apply claim_spot_ok in Hclaim
      as (_ & Hid & _ & _ & _ & _ & _ & _ & Hspots & Hres & _).
    split; [done|]. rewrite Hid, Hspots, Hres. unfold spot_update.
    rewrite update_lookup, Hspot. simpl.
    by rewrite Z.eqb_refl, Hst.
Qed.

Lemma book_spot_conditional_update_witness :
  ∃ d db',
    Parking.book Sample.toDataURL Sample.car_db (Some 51) (Some 100) (Some 1) 5
      Sample.token1 1000 = (Ok d, db') ∧
    (ps_status <$> parking_spot db' !! 100) = Some "reserved" ∧
    (r_booking_status <$> reservations db' !! bk_reservationId d) = Some reserved.
Proof.
  pose proof (book_spot_conditional_update Sample.toDataURL Sample.car_db
                51 100 1 5 Sample.token1 1000
                (Sample.vehicle_of Sample.car_db 51) (Sample.spot_of Sample.car_db 100)
                ltac:(done) ltac:(done) ltac:(done)
                ltac:(vm_compute; reflexivity) ltac:(reflexivity)
                ltac:(vm_compute; discriminate) ltac:(vm_compute; eauto)
                ltac:(vm_compute; reflexivity)) as (_ & _ & _ & Hok).
  destruct (Parking.book Sample.toDataURL Sample.car_db (Some 51) (Some 100) (Some 1) 5
              Sample.token1 1000) as [[d|] db'] eqn:Hrun.
  - exists d, db'. destruct (Hok d db' eq_refl) as (_ & Hspot & Hres & _).
    split; [reflexivity|]. split; [exact Hspot|exact Hres].
  - vm_compute in Hrun. discriminate.
Defined.

(** ** The pre-check on the caller's current session *)

(** C4 (as the code has it): POST /sections/:sectionId/spots/:spotNumber/assign
    by a user who already holds a reservation in status active is
    rejected, and the database is left as it was: no reservation row, no
    counter and no spot changes. Once the parameters, the section and the
    vehicle are accepted, the rejection is the 400 reply "You already
    have an active parking session". *)
Theorem assign_rejects_active_session toDataURL db sectionId spotNumber vehicleId
    userId qrKey now k r :
  reservations db !! k = Some r →
  r_user_id r = userId →
  r_booking_status r = active →
  (∃ http message errorCode details,
     Capacity.assign toDataURL db sectionId spotNumber vehicleId userId qrKey now
     = (Fail http message errorCode details, db))
  ∧ (userId ≠ 0 →
     JS.falsy vehicleId = false →
     is_Some (motorcycle_section db sectionId) →
     is_Some (SQL.select_by_key (default 0 vehicleId) (λ v, v_user_id v =? userId)
                (vehicles db)) →
     Capacity.assign toDataURL db sectionId spotNumber vehicleId userId qrKey now
     = (Fail 400 "You already have an active parking session" None [], db)).
Proof.
  intros Hr Hu Hst.
  assert (SQL.select
            (λ _ r0, (r_user_id r0 =? userId)
                     && bool_decide (r_booking_status r0 = active))
            (reservations db) ≠ []) as Hsession.
  { intros Hnil. rewrite select_nil in Hnil. specialize (Hnil k r Hr).
    rewrite Hu, Z.eqb_refl, Hst in Hnil. discriminate. }
  unfold Capacity.assign. split.
  - destruct ((userId =? 0) || JS.falsy vehicleId); [by eauto 6|].
    destruct (motorcycle_section db sectionId); [|by eauto 6].
    destruct (SQL.select_by_key _ _ (vehicles db)); [|by eauto 6].
    destruct (SQL.select _ (reservations db)); [done|by eauto 6].
  - intros Hnz Hveh [sec ->] [v ->].
    rewrite (proj2 (Z.eqb_neq _ _) Hnz), Hveh. simpl.
    by destruct (SQL.select _ (reservations db)).
Qed.

Lemma assign_rejects_active_session_witness :
  Capacity.assign Sample.toDataURL Sample.moto_active_db 8 "B-1" (Some 50) 5
    Sample.token2 3000
  = (Fail 400 "You already have an active parking session" None [],
     Sample.moto_active_db).
Proof.
  apply (proj2 (assign_rejects_active_session Sample.toDataURL Sample.moto_active_db
                  8 "B-1" (Some 50) 5 Sample.token2 3000 1
                  (Sample.reservation_of Sample.moto_active_db 1)
                  ltac:(vm_compute; reflexivity) ltac:(reflexivity)
                  ltac:(reflexivity))).
  - done.
  - reflexivity.
  - vm_compute. eauto.
  - vm_compute. eauto.
Defined.

(** C4, the claim as stated fails: user 5, who holds reservation 1 in
    status reserved, books spot 101 through POST /book; the call succeeds,
    a second reservation row is created and spot 101 becomes reserved. *)
Lemma book_while_holding_reservation :
  (r_user_id <$> reservations Sample.car_booked_db !! 1) = Some 5
  ∧ (r_booking_status <$> reservations Sample.car_booked_db !! 1) = Some reserved
  ∧ is_ok (Parking.book Sample.toDataURL Sample.car_booked_db
             (Some 51) (Some 101) (Some 1) 5 Sample.token2 2000).1 = true
  ∧ (r_booking_status
       <$> reservations
             (Parking.book Sample.toDataURL Sample.car_booked_db
                (Some 51) (Some 101) (Some 1) 5 Sample.token2 2000).2 !! 2)
    = Some reserved
  ∧ (ps_status
       <$> parking_spot
             (Parking.book Sample.toDataURL Sample.car_booked_db
                (Some 51) (Some 101) (Some 1) 5 Sample.token2 2000).2 !! 101)
    = Some "reserved".
Proof. vm_compute. done. Qed.

(** ** Ending a session *)

(** C5, the code at the failing input: reservation 1 of user 5 is already
    completed and its spot 100 has since been reserved by user 6
    (reservation 2). PUT /end-session/1 succeeds again: end_time of the
    completed reservation is overwritten and spot 100 is set to available
    under the live reservation 2. *)
Theorem end_session_repeats_on_completed :
  (r_booking_status <$> reservations Sample.car_rebooked_db !! 1) = Some completed
  ∧ (r_end_time <$> reservations Sample.car_rebooked_db !! 1) = Some (Some 3000)
  ∧ (ps_status <$> parking_spot Sample.car_rebooked_db !! 100) = Some "reserved"
  ∧ (Parking.end_session Sample.car_rebooked_db 1 5 9000).1
    = Ok {| Parking.se_reservationId := 1; Parking.se_status := "completed";
            Parking.se_spotFreed := true |}
  ∧ (r_end_time
       <$> reservations (Parking.end_session Sample.car_rebooked_db 1 5 9000).2 !! 1)
    = Some (Some 9000)
  ∧ (ps_status
       <$> parking_spot (Parking.end_session Sample.car_rebooked_db 1 5 9000).2 !! 100)
    = Some "available"
  ∧ (r_booking_status
       <$> reservations (Parking.end_session Sample.car_rebooked_db 1 5 9000).2 !! 2)
    = Some reserved
  ∧ (r_parking_spots_id
       <$> reservations (Parking.end_session Sample.car_rebooked_db 1 5 9000).2 !! 2)
    = Some 100.
Proof. vm_compute. done. Qed.

(** ** Capacity of a section *)

(** The counter-based reserve route refuses a section without free
    capacity and leaves the database as it was. *)
Lemma reserve_full_rejected db sectionId userId now date_now date_now' s :
  motorcycle_section db sectionId = Some s →
  JS.or0 (psec_capacity s) - JS.or0 (psec_parked_count s)
    - JS.or0 (psec_reserved_count s) ≤ 0 →
  Capacity.reserve db sectionId userId now date_now date_now'
  = (Fail 400 "No available capacity in this section" None [], db).
Proof.
  intros Hs Hfull. unfold Capacity.reserve. rewrite Hs.
  destruct (Z.leb_spec
              (Z.max 0 (JS.or0 (psec_capacity s)
                        - (JS.or0 (psec_parked_count s)
                           + JS.or0 (psec_reserved_count s)))) 0); [done|lia].
Qed.

(** A reserve that succeeds found free capacity and raises reserved_count
    alone: within the capacity before, within the capacity after. *)
Lemma reserve_within_capacity db sectionId userId now date_now date_now' d db' :
  Capacity.reserve db sectionId userId now date_now date_now' = (Ok d, db') →
  ∃ s s',
    motorcycle_section db sectionId = Some s ∧
    parking_section db' !! sectionId = Some s' ∧
    psec_capacity s' = psec_capacity s ∧
    psec_parked_count s' = psec_parked_count s ∧
    psec_reserved_count s' = SQL.add (psec_reserved_count s) (Some 1) ∧
    JS.or0 (psec_parked_count s) + JS.or0 (psec_reserved_count s) + 1
    ≤ JS.or0 (psec_capacity s).
Proof.
  unfold Capacity.reserve.
  destruct (motorcycle_section db sectionId) as [s|] eqn:Hs; [|discriminate].
  destruct (Z.leb_spec
              (Z.max 0 (JS.or0 (psec_capacity s)
                        - (JS.or0 (psec_parked_count s)
                           + JS.or0 (psec_reserved_count s)))) 0) as [|Hfree];
    [discriminate|].
  intros [= <- <-]. exists s. eexists. split; [done|]. split.
  { rewrite update_section_lookup. simpl.
    apply select_by_key_Some in Hs as [-> _]. reflexivity. }
  simpl. repeat split; lia.
Qed.

(** The guest route never looks at the counters: whenever the label is
    not taken by an active reservation it raises parked_count, whatever
    the capacity. *)
Lemma guest_assign_ignores_capacity db sectionId spotNumber guestName plateNumber
    brand color userId guestEmail now s p :
  userId ≠ 0 →
  JS.falsy_str guestName = false →
  JS.falsy_str plateNumber = false →
  motorcycle_section db sectionId = Some s →
  psec_parked_count s = Some p →
  (∀ k r, reservations db !! k = Some r →
          r_parking_section_id r = Some sectionId →
          r_spot_number r = Some spotNumber →
          r_booking_status r ≠ active) →
  ∃ d db' s',
    Capacity.guest_assign db sectionId spotNumber guestName plateNumber brand color
      userId guestEmail now = (Ok d, db') ∧
    parking_section db' !! sectionId = Some s' ∧
    psec_capacity s' = psec_capacity s ∧
    psec_parked_count s' = Some (p + 1).
Proof.
  intros Hu Hname Hplate Hs Hp Hfree. unfold Capacity.guest_assign.
  rewrite (proj2 (Z.eqb_neq _ _) Hu), Hname, Hplate, Hs. simpl.
  assert (SQL.select
            (λ _ r, SQL.eqZ (r_parking_section_id r) sectionId
                    && SQL.eqS (r_spot_number r) spotNumber
                    && bool_decide (r_booking_status r = active))
            (reservations db) = []) as ->.
  { apply select_nil. intros k r Hr. unfold SQL.eqZ, SQL.eqS.
    destruct (r_parking_section_id r) as [x|] eqn:Ex; [|done].
    destruct (Z.eqb_spec x sectionId) as [->|]; [|done].
    destruct (r_spot_number r) as [y|] eqn:Ey; [|done].
    destruct (String.eqb_spec y spotNumber) as [->|]; [|done].
    simpl. apply bool_decide_eq_false_2. by apply (Hfree k r). }
  eexists _, _, _. split; [reflexivity|]. split.
  { rewrite update_section_lookup. simpl.
    apply select_by_key_Some in Hs as [-> _]. reflexivity. }
  simpl. by rewrite Hp.
Qed.

(** C2, the code at the failing input: section C has capacity 1,
    parked_count 1 and reserved_count 0, so no capacity is left; the
    guest assignment to C-2 succeeds all the same and raises parked_count
    to 2, past the capacity. *)
Theorem guest_assign_exceeds_capacity :
  (psec_capacity <$> parking_section Sample.single_full_db !! 9) = Some (Some 1)
  ∧ (psec_parked_count <$> parking_section Sample.single_full_db !! 9) = Some (Some 1)
  ∧ (psec_reserved_count <$> parking_section Sample.single_full_db !! 9) = Some (Some 0)
  ∧ is_ok (Capacity.guest_assign Sample.single_full_db 9 "C-2" (Some "Guest Three")
             (Some "G-0003") None None 5 "guest_3000_ij56kl@tappark.guest" 3000).1
    = true
  ∧ (psec_parked_count
       <$> parking_section
             (Capacity.guest_assign Sample.single_full_db 9 "C-2" (Some "Guest Three")
                (Some "G-0003") None None 5 "guest_3000_ij56kl@tappark.guest" 3000).2
           !! 9)
    = Some (Some 2)
  ∧ Capacity.reserve Sample.single_full_db 9 5 3000 3000000 3000000
    = (Fail 400 "No available capacity in this section" None [], Sample.single_full_db).
Proof. vm_compute. done. Qed.

(** ** Virtual spots *)

Lemma reservations_query_elem db userId sectionId row :
  row ∈ Capacity.reservations_query db userId sectionId ↔
  ∃ k r, reservations db !! k = Some r ∧
         Capacity.section_live db sectionId r = true ∧
         row = Capacity.live_row db userId (k, r).
Proof.
  unfold Capacity.reservations_query.
  rewrite merge_sort_Permutation, list_elem_of_fmap. split.
  - intros ([k r] & -> & Hin). apply select_elem in Hin as [Hk Hlive]. eauto.
  - intros (k & r & Hk & Hlive & ->). exists (k, r). split; [done|].
    by apply select_elem.
Qed.

Lemma section_live_inv db sectionId r :
  Capacity.section_live db sectionId r = true →
  r_parking_section_id r = Some sectionId ∧ live (r_booking_status r) = true.
Proof.
  unfold Capacity.section_live, SQL.eqZ.
  destruct (r_parking_section_id r) as [x|]; [|done].
  destruct (Z.eqb_spec x sectionId) as [->|]; [|done].
  destruct (live (r_booking_status r)); done.
Qed.

Lemma find_reservation_Some rows label row :
  Capacity.find_reservation rows label = Some row →
  row ∈ rows ∧ Capacity.lr_spot_number row = Some label.
Proof.
  unfold Capacity.find_reservation. intros Hfind.
  apply List.find_some in Hfind as [Hin Hp].
  split; [by apply list_elem_of_In|]. by apply bool_decide_eq_true_1 in Hp.
Qed.

Lemma find_reservation_None rows label row :
  Capacity.find_reservation rows label = None →
  row ∈ rows → Capacity.lr_spot_number row ≠ Some label.
Proof.
  unfold Capacity.find_reservation. intros Hfind Hin%list_elem_of_In.
  pose proof (List.find_none _ _ Hfind _ Hin) as Hp.
  by apply bool_decide_eq_false_1 in Hp.
Qed.



(** ** Tokens *)

Lemma startsWith_char s c :
  JS.startsWith s (String c EmptyString) = true → ∃ rest, s = String c rest.
Proof.
  unfold JS.startsWith. destruct s as [|c' rest]; simpl; [discriminate|].
  destruct (Ascii.ascii_dec c c') as [->|]; [eauto|discriminate].
Qed.

Lemma clean_qr_key_bare json_valid k :
  bare_token k → Parking.clean_qr_key json_valid (Some k) = Some k.
Proof.
  intros (Hne & Htrim & Hobj & Harr). unfold Parking.clean_qr_key.
  destruct k as [|c k']; [done|].
  cbn [JS.falsy_str default from_option id]. cbv zeta.
  rewrite Htrim, Hobj, Harr. reflexivity.
Qed.

Lemma clean_qr_key_json json_valid stored :
  JS.startsWith (JS.trim stored) "{" = true ∨ JS.startsWith (JS.trim stored) "[" = true →
  Parking.clean_qr_key json_valid (Some stored) = None.
Proof.
  intros Hopen. unfold Parking.clean_qr_key.
  destruct (JS.falsy_str (Some stored)); [done|].
  cbn [default from_option id]. cbv zeta.
  assert (JS.typeof_parsed (JS.trim stored) = JS.t_object) as Hty.
  { destruct Hopen as [H|H]; apply startsWith_char in H as [rest ->]; reflexivity. }
  assert (JS.startsWith (JS.trim stored) "{" || JS.startsWith (JS.trim stored) "[" = true)
    as -> by (destruct Hopen as [-> | ->]; [done|apply orb_true_r]).
  rewrite Hty. by destruct (json_valid (JS.trim stored)).
Qed.

(** What a successful [bookMotorcycleSection] leaves behind. *)
Lemma bookMotorcycleSection_ok toDataURL db areaId spotId vehicleId userId qrKey now d db' :
  Parking.bookMotorcycleSection toDataURL db areaId spotId vehicleId userId qrKey now
  = (Ok d, db') →
  ∃ ps,
    parking_section db !! spotId = Some ps ∧
    0 < JS.or0 (psec_capacity ps) - JS.or0 (psec_parked_count ps)
        - JS.or0 (psec_reserved_count ps) ∧
    bk_reservationId d = next_reservation_id db ∧
    bk_qrKey d = qrKey ∧
    bk_qrCode d = toDataURL (JS.stringify_qrData qrKey) ∧
    users db' = users db ∧ vehicles db' = vehicles db ∧
    parking_area db' = parking_area db ∧
    parking_spot db' = parking_spot db ∧
    parking_section db' !! spotId
    = Some (set_counts id (λ c, SQL.add c (Some 1)) ps) ∧
    reservations db' !! next_reservation_id db
    = Some (section_reservation toDataURL ps vehicleId spotId userId qrKey now).
Proof.
  unfold Parking.bookMotorcycleSection.
  destruct (SQL.select_by_key spotId _ (parking_section db)) as [ps|] eqn:Hsel;
    [|discriminate].
  apply select_by_key_Some in Hsel as [Hps Hwhere].
  intros [= <- <-]. exists ps. split; [done|]. split.
  { apply andb_true_iff in Hwhere as [Hwhere _].
    apply andb_true_iff in Hwhere as [_ Hgt]. unfold SQL.gt0, SQL.sub in Hgt.
    destruct (psec_capacity ps), (psec_parked_count ps), (psec_reserved_count ps);
      try discriminate. simpl. apply Z.ltb_lt in Hgt. lia. }
  do 7 (split; [reflexivity|]).
  unfold update_QR, update_section, insert_reservation.
  cbn [reservations parking_section with_reservations with_sections next_reservation_id].
  split.
  - by rewrite update_key_eq, Hps.
  - by rewrite update_QR_inserted.
Qed.

(** How a successful POST /book came about. *)
Lemma book_ok_inv toDataURL db vehicleId spotId areaId userId qrKey now d db' :
  Parking.book toDataURL db vehicleId spotId areaId userId qrKey now = (Ok d, db') →
  ∃ vid sid aid vehicle,
    vehicleId = Some vid ∧ spotId = Some sid ∧ areaId = Some aid ∧
    vehicles db !! vid = Some vehicle ∧ v_user_id vehicle = userId ∧
    ((JS.toLowerCase (v_vehicle_type vehicle) = "motorcycle" ∧
      Parking.bookMotorcycleSection toDataURL db aid sid vid userId qrKey now = (Ok d, db'))
     ∨ (JS.toLowerCase (v_vehicle_type vehicle) ≠ "motorcycle" ∧
        is_Some (parking_area db !! aid) ∧
        ∃ spot, parking_spot db !! sid = Some spot ∧
                ps_status spot = "available" ∧
                Parking.claim_spot toDataURL db spot vid sid userId qrKey now
                = (Ok d, db'))).
Proof.
  unfold Parking.book.
  destruct (JS.falsy vehicleId || JS.falsy spotId || JS.falsy areaId) eqn:Hfalsy;
    [discriminate|].
  apply orb_false_iff in Hfalsy as [Hfalsy Ha].
  apply orb_false_iff in Hfalsy as [Hv Hs].
  destruct vehicleId as [vid|]; [|discriminate].
  destruct spotId as [sid|]; [|discriminate].
  destruct areaId as [aid|]; [|discriminate].
  cbn [default from_option id]. cbv zeta.
  destruct (SQL.select_by_key vid _ (vehicles db)) as [v|] eqn:Hsel; [|discriminate].
  apply select_by_key_Some in Hsel as [Hveh Hown]. rewrite Hveh.
  apply Z.eqb_eq in Hown.
  destruct (String.eqb_spec (JS.toLowerCase (v_vehicle_type v)) "motorcycle")
    as [Hmoto|Hmoto].
  - intros Hrun. exists vid, sid, aid, v. do 5 (split; [done|]). left. done.
  - destruct (parking_area db !! aid) as [area|] eqn:Harea; [|discriminate].
    destruct (parking_spot db !! sid) as [spot|] eqn:Hspot; [|discriminate].
    destruct (String.eqb_spec (ps_status spot) "available") as [Hst|]; [|discriminate].
    cbn [negb].
    destruct (negb (String.eqb _ (JS.toLowerCase (ps_spot_type spot)))); [discriminate|].
    intros Hrun. exists vid, sid, aid, v. do 5 (split; [done|]). right.
    split; [done|]. split; [by eexists|]. by exists spot.
Qed.

(** GET /booking/:reservationId on a reservation of a regular spot. *)
Lemma booking_resolves_spot json_valid db reservationId userId row vid vehicle u sp psec pa :
  reservations db !! reservationId = Some row →
  r_user_id row = userId →
  r_vehicle_id row = Some vid →
  vehicles db !! vid = Some vehicle →
  v_vehicle_type vehicle ≠ "motorcycle" →
  users db !! userId = Some u →
  parking_spot db !! r_parking_spots_id row = Some sp →
  parking_section db !! ps_parking_section_id sp = Some psec →
  parking_area db !! psec_parking_area_id psec = Some pa →
  ∃ bd,
    Parking.booking json_valid db reservationId userId = Ok bd ∧
    Parking.bd_reservationId bd = reservationId ∧
    Parking.bd_qrKey bd = Parking.clean_qr_key json_valid (r_qr_key row) ∧
    Parking.bd_qrCode bd = r_QR row.
Proof.
  intros Hrow Hu Hvid Hveh Hty Huser Hsp Hsec Harea.
  unfold Parking.booking, SQL.select_by_key.
  rewrite Hrow, Hu, Z.eqb_refl, Hvid. simpl. rewrite Hveh. simpl.
  rewrite bool_decide_eq_false_2 by congruence.
  unfold Parking.spot_join. rewrite Hu, Huser, Hvid. simpl.
  rewrite Hveh. simpl. rewrite Hsp. simpl. rewrite Hsec. simpl.
  rewrite Harea. simpl. eexists. split; [reflexivity|]. done.
Qed.

(** GET /booking/:reservationId on a reservation of a capacity section. *)
Lemma booking_resolves_section json_valid db reservationId userId row vid vehicle u
    sectionId ps pa :
  reservations db !! reservationId = Some row →
  r_user_id row = userId →
  r_vehicle_id row = Some vid →
  vehicles db !! vid = Some vehicle →
  v_vehicle_type vehicle = "motorcycle" →
  users db !! userId = Some u →
  r_parking_spots_id row = 0 →
  r_parking_section_id row = Some sectionId →
  parking_section db !! sectionId = Some ps →
  parking_area db !! psec_parking_area_id ps = Some pa →
  ∃ bd,
    Parking.booking json_valid db reservationId userId = Ok bd ∧
    Parking.bd_reservationId bd = reservationId ∧
    Parking.bd_qrKey bd = Parking.clean_qr_key json_valid (r_qr_key row) ∧
    Parking.bd_qrCode bd = r_QR row.
Proof.
  intros Hrow Hu Hvid Hveh Hty Huser Hzero Hsid Hsec Harea.
  unfold Parking.booking, SQL.select_by_key.
  rewrite Hrow, Hu, Z.eqb_refl, Hvid. simpl. rewrite Hveh. simpl.
  rewrite Hty, bool_decide_eq_true_2 by done. rewrite Hzero. simpl.
  unfold Parking.section_join. rewrite Hu, Huser, Hvid. simpl.
  rewrite Hveh, Hsid. simpl. rewrite Hsec. simpl.
  rewrite Harea. simpl. eexists. split; [reflexivity|]. done.
Qed.

(** What a successful assign leaves behind. *)
Lemma assign_ok toDataURL db sectionId spotNumber vehicleId userId qrKey now d db' :
  Capacity.assign toDataURL db sectionId spotNumber vehicleId userId qrKey now
  = (Ok d, db') →
  ∃ ps vid row,
    userId ≠ 0 ∧ vehicleId = Some vid ∧
    parking_section db !! sectionId = Some ps ∧
    psec_vehicle_type ps = "motorcycle" ∧
    (∀ k r, reservations db !! k = Some r → r_user_id r = userId →
            r_booking_status r ≠ active) ∧
    (∀ k r, reservations db !! k = Some r →
            r_parking_section_id r = Some sectionId →
            r_spot_number r = Some spotNumber →
            live (r_booking_status r) = false) ∧
    bk_reservationId d = next_reservation_id db ∧
    reservations db' !! next_reservation_id db = Some row ∧
    r_user_id row = userId ∧ r_vehicle_id row = Some vid ∧
    r_parking_spots_id row = 0 ∧
    r_parking_section_id row = Some sectionId ∧
    r_spot_number row = Some spotNumber ∧
    r_booking_status row = reserved ∧
    (∀ k, k ≠ next_reservation_id db → reservations db' !! k = reservations db !! k) ∧
    parking_section db' !! sectionId
    = Some (set_counts (λ c, SQL.add c (Some 1)) id ps) ∧
    (∀ k, k ≠ sectionId → parking_section db' !! k = parking_section db !! k) ∧
    users db' = users db ∧ vehicles db' = vehicles db ∧
    parking_spot db' = parking_spot db ∧
    parking_area db' = parking_area db ∧
    bk_qrKey d = qrKey ∧
    bk_qrCode d = toDataURL (JS.stringify_qrData qrKey) ∧
    r_qr_key row = Some qrKey ∧
    r_QR row = toDataURL (JS.stringify_qrData qrKey).
Proof.
  unfold Capacity.assign.
  destruct ((userId =? 0) || JS.falsy vehicleId) eqn:Hfalsy; [discriminate|].
  apply orb_false_iff in Hfalsy as [Hu Hv]. apply Z.eqb_neq in Hu.
  destruct vehicleId as [vid|]; [|discriminate].
  destruct (motorcycle_section db sectionId) as [ps|] eqn:Hsec; [|discriminate].
  apply select_by_key_Some in Hsec as [Hps Htype]. apply String.eqb_eq in Htype.
  cbn [default from_option id]. cbv zeta.
  destruct (SQL.select_by_key vid _ (vehicles db)); [|discriminate].
  destruct (SQL.select _ (reservations db)) eqn:Hactive; [|discriminate].
  pose proof (proj1 (select_nil _ _) Hactive) as Hactive'. clear Hactive.
  destruct (SQL.select _ (reservations db)) eqn:Htaken; [|discriminate].
  pose proof (proj1 (select_nil _ _) Htaken) as Htaken'. clear Htaken.
  intros [= <- <-].
  eexists ps, vid, _. split; [done|]. split; [done|]. split; [done|].
  split; [done|]. split.
  { intros k r Hk Hown Hst. specialize (Hactive' k r Hk). simpl in Hactive'.
    rewrite Hown, Z.eqb_refl, bool_decide_eq_true_2 in Hactive' by done.
    discriminate. }
  split.
  { intros k r Hk Hsid Hlabel. specialize (Htaken' k r Hk). simpl in Htaken'.
    rewrite Hsid, Hlabel in Htaken'. simpl in Htaken'.
    by rewrite Z.eqb_refl, String.eqb_refl in Htaken'. }
  split; [reflexivity|].
  unfold update_QR, update_section, insert_reservation.
  cbn [reservations parking_section with_reservations with_sections next_reservation_id
       users vehicles parking_spot].
  split; [apply update_QR_inserted|].
  do 6 (split; [reflexivity|]). split.
  { intros k Hk. rewrite update_key_ne by done.
    unfold SQL.insert_row. by rewrite lookup_insert_ne. }
  split; [by rewrite update_key_eq, Hps|].
  split; [|done]. intros k Hk. by rewrite update_key_ne.
Qed.

Lemma append_String c (s t : string) : String c s +:+ t = String c (s +:+ t).
Proof. reflexivity. Qed.

Lemma append_empty (t : string) : EmptyString +:+ t = t.
Proof. reflexivity. Qed.

Lemma append_assoc (s t u : string) : (s +:+ t) +:+ u = s +:+ (t +:+ u).
Proof.
  induction s as [|c s IH]; [done|].
  by rewrite !append_String, IH.
Qed.

Lemma json_escape_char_plain c :
  plain_char c = true → JS.json_escape_char c = String c EmptyString.
Proof.
  unfold plain_char, JS.json_escape_char. cbv zeta.
  intros H. apply andb_true_iff in H as [H H92].
  apply andb_true_iff in H as [H32 H34].
  apply negb_true_iff in H34, H92. apply N.leb_le in H32.
  rewrite H34, H92.
  repeat match goal with
         | |- context [(Ascii.N_of_ascii c =? ?k)%N] =>
             destruct (N.eqb_spec (Ascii.N_of_ascii c) k); [lia|]
         end.
  destruct (N.ltb_spec (Ascii.N_of_ascii c) 32); [lia|done].
Qed.

Lemma json_escape_plain k : plain_text k = true → JS.json_escape k = k.
Proof.
  induction k as [|c k IH]; simpl; [done|].
  intros H. apply andb_true_iff in H as [Hc Hk].
  by rewrite (json_escape_char_plain c Hc), (IH Hk), append_String, append_empty.
Qed.

(** [JSON.stringify({qr_key})] of a token of plain characters is the
    object with the one member qr_key, written out. *)
Lemma stringify_qrData_plain k :
  plain_text k = true → JS.stringify_qrData k = qr_key_object k.
Proof.
  intros Hk. unfold JS.stringify_qrData, JS.json_string, qr_key_object.
  rewrite (json_escape_plain k Hk).
  change (JS.json_escape "qr_key") with "qr_key".
  repeat (rewrite append_String || rewrite append_empty || rewrite append_assoc).
  reflexivity.
Qed.

(** C8 (as the code has it): a reservation created by POST /book (for a
    discrete spot or for a motorcycle capacity section) or by
    POST /sections/:sectionId/spots/:spotNumber/assign carries the
    freshly minted token: the reply returns it, the stored row keeps it
    in qr_key, and the barcode image encodes the JSON object whose only
    member is that qr_key (for a token of plain characters, as a uuid is,
    exactly the text [{"qr_key":"<token>"}]);
    GET /booking/:reservationId on the returned reservation id answers
    with the same reservation id, the same token and the same image. A
    stored qr_key that opens like a JSON object or array is surfaced as
    null. The joins follow the foreign keys of the schema; for POST /book
    the vehicle is not a motorcycle or its vehicle_type is stored as
    "motorcycle" in lower case, for assign it is stored so. *)
Theorem book_token_round_trip toDataURL json_valid :
  (∀ db vehicleId spotId areaId userId qrKey now d db',
     Parking.book toDataURL db vehicleId spotId areaId userId qrKey now = (Ok d, db') →
     bare_token qrKey →
     foreign_keys db userId →
     (∀ vid vehicle,
        vehicleId = Some vid → vehicles db !! vid = Some vehicle →
        JS.toLowerCase (v_vehicle_type vehicle) = "motorcycle" →
        v_vehicle_type vehicle = "motorcycle") →
     bk_qrKey d = qrKey ∧
     bk_qrCode d = toDataURL (JS.stringify_qrData qrKey) ∧
     (plain_text qrKey = true → bk_qrCode d = toDataURL (qr_key_object qrKey)) ∧
     (∃ row, reservations db' !! bk_reservationId d = Some row ∧
             r_qr_key row = Some qrKey ∧
             r_QR row = bk_qrCode d) ∧
     (∃ bd, Parking.booking json_valid db' (bk_reservationId d) userId = Ok bd ∧
            Parking.bd_reservationId bd = bk_reservationId d ∧
            Parking.bd_qrKey bd = Some qrKey ∧
            Parking.bd_qrCode bd = bk_qrCode d))
  ∧ (∀ db sectionId spotNumber vehicleId userId qrKey now d db',
       Capacity.assign toDataURL db sectionId spotNumber vehicleId userId qrKey now
       = (Ok d, db') →
       bare_token qrKey →
       foreign_keys db userId →
       (∃ vid vehicle,
          vehicleId = Some vid ∧ vehicles db !! vid = Some vehicle ∧
          v_vehicle_type vehicle = "motorcycle") →
       bk_qrKey d = qrKey ∧
       bk_qrCode d = toDataURL (JS.stringify_qrData qrKey) ∧
       (plain_text qrKey = true → bk_qrCode d = toDataURL (qr_key_object qrKey)) ∧
       (∃ row, reservations db' !! bk_reservationId d = Some row ∧
               r_qr_key row = Some qrKey ∧
               r_QR row = bk_qrCode d) ∧
       (∃ bd, Parking.booking json_valid db' (bk_reservationId d) userId = Ok bd ∧
              Parking.bd_reservationId bd = bk_reservationId d ∧
              Parking.bd_qrKey bd = Some qrKey ∧
              Parking.bd_qrCode bd = bk_qrCode d))
  ∧ (∀ stored,
       JS.startsWith (JS.trim stored) "{" = true
       ∨ JS.startsWith (JS.trim stored) "[" = true →
       Parking.clean_qr_key json_valid (Some stored) = None).
Proof.
  split; [|split; [|apply clean_qr_key_json]].
  - intros db vehicleId spotId areaId userId qrKey now d db'
      Hrun Hbare ([u Hu] & Hfk_sec & Hfk_spot) Hcase.
    apply book_ok_inv in Hrun
      as (vid & sid & aid & vehicle & -> & -> & -> & Hveh & Hown & Hpath).
    destruct Hpath as [[Hmoto Hrun]|[Hmoto (_ & spot & Hspot & _ & Hrun)]].
    + (* capacity section *)
      pose proof (Hcase vid vehicle eq_refl Hveh Hmoto) as Hty.
      apply bookMotorcycleSection_ok in Hrun
        as (ps & Hps & _ & Hid & Hkey & Hqr & Husers & Hvehs & Hareas & _ & Hsec & Hrow).
      destruct (Hfk_sec _ _ Hps) as [pa Hpa].
      split; [done|]. split; [done|]. split.
      { intros Hplain. by rewrite Hqr, (stringify_qrData_plain _ Hplain). }
      rewrite Hid. split.
      * eexists. split; [exact Hrow|]. by rewrite Hqr.
      * assert (vehicles db' !! vid = Some vehicle) as Hveh' by by rewrite Hvehs.
        assert (users db' !! userId = Some u) as Hu' by by rewrite Husers.
        assert (parking_area db'
                  !! psec_parking_area_id (set_counts id (λ c, SQL.add c (Some 1)) ps)
                = Some pa) as Hpa' by by rewrite Hareas.
        destruct (booking_resolves_section json_valid db' (next_reservation_id db)
                    userId _ vid vehicle u sid _ pa Hrow eq_refl eq_refl Hveh' Hty Hu'
                    eq_refl eq_refl Hsec Hpa')
          as (bd & Hbd & Hbid & Hbkey & Hbqr).
        exists bd. split; [done|]. split; [done|]. split.
        -- rewrite Hbkey. by apply clean_qr_key_bare.
        -- by rewrite Hbqr, Hqr.
    + (* discrete spot *)
      assert (v_vehicle_type vehicle ≠ "motorcycle") as Hty.
      { intros Heq. apply Hmoto. by rewrite Heq. }
      apply claim_spot_ok in Hrun
        as (_ & Hid & Hkey & Hqr & Husers & Hvehs & Hareas & Hsecs & Hspots & Hrow & _).
      destruct (Hfk_spot _ _ Hspot) as [psec Hpsec].
      destruct (Hfk_sec _ _ Hpsec) as [pa Hpa].
      split; [done|]. split; [done|]. split.
      { intros Hplain. by rewrite Hqr, (stringify_qrData_plain _ Hplain). }
      rewrite Hid. split.
      * eexists. split; [exact Hrow|]. by rewrite Hqr.
      * set (sp := if String.eqb (ps_status spot) "available"
                   then set_spot_status "reserved" spot else spot).
        assert (vehicles db' !! vid = Some vehicle) as Hveh' by by rewrite Hvehs.
        assert (users db' !! userId = Some u) as Hu' by by rewrite Husers.
        assert (parking_spot db' !! sid = Some sp) as Hsp.
        { rewrite Hspots. unfold spot_update. rewrite update_lookup, Hspot. simpl.
          by rewrite Z.eqb_refl. }
        assert (parking_section db' !! ps_parking_section_id sp = Some psec) as Hsec.
        { rewrite Hsecs. unfold sp.
          by destruct (String.eqb (ps_status spot) "available"). }
        assert (parking_area db' !! psec_parking_area_id psec = Some pa) as Hpa'
          by by rewrite Hareas.
        destruct (booking_resolves_spot json_valid db' (next_reservation_id db) userId
                    _ vid vehicle u sp psec pa Hrow eq_refl eq_refl Hveh' Hty Hu'
                    Hsp Hsec Hpa')
          as (bd & Hbd & Hbid & Hbkey & Hbqr).
        exists bd. split; [done|]. split; [done|]. split.
        -- rewrite Hbkey. by apply clean_qr_key_bare.
        -- by rewrite Hbqr, Hqr.
  - intros db sectionId spotNumber vehicleId userId qrKey now d db'
      Hrun Hbare ([u Hu] & Hfk_sec & _) (vid & vehicle & -> & Hveh & Hty).
    apply assign_ok in Hrun
      as (ps & vid' & row & _ & [= <-] & Hps & _ & _ & _ & Hid & Hrow & Hown & Hvid
          & Hzero & Hsid & _ & _ & _ & Hsec & _ & Husers & Hvehs & _ & Hareas
          & Hkey & Hqr & Hrkey & Hrqr).
    destruct (Hfk_sec _ _ Hps) as [pa Hpa].
    split; [done|]. split; [done|]. split.
    { intros Hplain. by rewrite Hqr, (stringify_qrData_plain _ Hplain). }
    rewrite Hid. split.
    + exists row. split; [exact Hrow|]. split; [done|]. by rewrite Hqr.
    + assert (vehicles db' !! vid = Some vehicle) as Hveh' by by rewrite Hvehs.
      assert (users db' !! userId = Some u) as Hu' by by rewrite Husers.
      assert (parking_area db'
                !! psec_parking_area_id (set_counts (λ c, SQL.add c (Some 1)) id ps)
              = Some pa) as Hpa' by by rewrite Hareas.
      destruct (booking_resolves_section json_valid db' (next_reservation_id db)
                  userId row vid vehicle u sectionId _ pa Hrow Hown Hvid Hveh' Hty Hu'
                  Hzero Hsid Hsec Hpa')
        as (bd & Hbd & Hbid & Hbkey & Hbqr).
      exists bd. split; [done|]. split; [done|]. split.
      * rewrite Hbkey, Hrkey. by apply clean_qr_key_bare.
      * by rewrite Hbqr, Hrqr, Hqr.
Qed.

Lemma car_db_foreign_keys : foreign_keys Sample.car_db 5.
Proof.
  split; [vm_compute; eauto|]. split.
  - intros k ps Hk. unfold Sample.car_db in Hk. simpl in Hk.
    apply lookup_singleton_Some in Hk as [<- <-]. vm_compute. eauto.
  - intros k sp Hk. unfold Sample.car_db in Hk. simpl in Hk.
    apply lookup_insert_Some in Hk as [[<- <-]|[_ Hk]]; [vm_compute; eauto|].
    apply lookup_singleton_Some in Hk as [<- <-]. vm_compute. eauto.
Qed.

Lemma base_db_foreign_keys : foreign_keys Sample.base_db 5.
Proof.
  split; [vm_compute; eauto|]. split.
  - intros k ps Hk. unfold Sample.base_db in Hk. simpl in Hk.
    apply lookup_insert_Some in Hk as [[<- <-]|[_ Hk]]; [vm_compute; eauto|].
    apply lookup_singleton_Some in Hk as [<- <-]. vm_compute. eauto.
  - intros k sp Hk. unfold Sample.base_db in Hk. simpl in Hk.
    by rewrite lookup_empty in Hk.
Qed.

Lemma book_token_round_trip_witness :
  (∃ d db' bd,
     Parking.book Sample.toDataURL Sample.car_db (Some 51) (Some 100) (Some 1) 5
       Sample.token1 1000 = (Ok d, db') ∧
     bk_qrKey d = Sample.token1 ∧
     bk_qrCode d = Sample.toDataURL (qr_key_object Sample.token1) ∧
     Parking.booking Sample.json_valid db' (bk_reservationId d) 5 = Ok bd ∧
     Parking.bd_reservationId bd = bk_reservationId d ∧
     Parking.bd_qrKey bd = Some Sample.token1 ∧
     Parking.bd_qrCode bd = bk_qrCode d)
  ∧ (∃ d db' bd,
       Capacity.assign Sample.toDataURL Sample.base_db 7 "A-2" (Some 50) 5
         Sample.token2 1000 = (Ok d, db') ∧
       bk_qrKey d = Sample.token2 ∧
       bk_qrCode d = Sample.toDataURL (qr_key_object Sample.token2) ∧
       Parking.booking Sample.json_valid db' (bk_reservationId d) 5 = Ok bd ∧
       Parking.bd_reservationId bd = bk_reservationId d ∧
       Parking.bd_qrKey bd = Some Sample.token2)
  ∧ Parking.clean_qr_key Sample.json_valid (Some (JS.stringify_qrData Sample.token1))
    = None.
Proof.
  destruct (book_token_round_trip Sample.toDataURL Sample.json_valid)
    as (Hbook & Hassign & Hjson).
  split; [|split].
  - destruct (Parking.book Sample.toDataURL Sample.car_db (Some 51) (Some 100) (Some 1)
                5 Sample.token1 1000) as [[d|] db'] eqn:Hrun;
      [|vm_compute in Hrun; discriminate].
    destruct (Hbook Sample.car_db (Some 51) (Some 100) (Some 1) 5 Sample.token1 1000
                d db' Hrun)
      as (Hkey & _ & Hplain & _ & (bd & Hbd & Hbid & Hbkey & Hbqr)).
    + vm_compute. done.
    + exact car_db_foreign_keys.
    + intros vid vehicle [= <-] Hveh. vm_compute in Hveh. injection Hveh as <-.
      vm_compute. discriminate.
    + exists d, db', bd. split; [done|]. split; [done|].
      split; [by apply Hplain|]. by repeat split.
  - destruct (Capacity.assign Sample.toDataURL Sample.base_db 7 "A-2" (Some 50) 5
                Sample.token2 1000) as [[d|] db'] eqn:Hrun;
      [|vm_compute in Hrun; discriminate].
    destruct (Hassign Sample.base_db 7 "A-2" (Some 50) 5 Sample.token2 1000 d db' Hrun)
      as (Hkey & _ & Hplain & _ & (bd & Hbd & Hbid & Hbkey & _)).
    + vm_compute. done.
    + exact base_db_foreign_keys.
    + exists 50, (Sample.vehicle_of Sample.base_db 50). by vm_compute.
    + exists d, db', bd. split; [done|]. split; [done|].
      split; [by apply Hplain|]. by repeat split.
  - apply Hjson. left. vm_compute. reflexivity.
Defined.

(** The claim as stated fails for the reservations of two allocators,
    and for one POST /book makes. The reservation of POST
    /sections/:sectionId/reserve stores the text CAP-{Date.now()}-{user}
    in QR and in qr_key and no vehicle, and GET /booking/:reservationId
    does not resolve it; the walk-up reservation of guest-assign stores
    no token at all. And a motorcycle whose vehicle_type is stored as
    Motorcycle is booked by POST /book with its token, but
    GET /booking/:reservationId, which compares the stored type with
    the lower-case word, answers 404 for it. *)
Lemma token_round_trip_breaks :
  ((r_QR <$> reservations Sample.reserved_db !! 1) = Some "CAP-1000000-5" ∧
   (r_qr_key <$> reservations Sample.reserved_db !! 1) = Some (Some "CAP-1000000-5") ∧
   Parking.booking Sample.json_valid Sample.reserved_db 1 5
   = Fail 404 "Booking not found or does not belong to user" None [])
  ∧ ((r_QR <$> reservations Sample.guest_db !! 1) = Some "" ∧
     (r_qr_key <$> reservations Sample.guest_db !! 1) = Some None)
  ∧ ∃ d db',
      Parking.book Sample.toDataURL Sample.capital_db (Some 50) (Some 7) (Some 1) 5
        Sample.token1 1000 = (Ok d, db') ∧
      bk_reservationId d = 1 ∧ bk_qrKey d = Sample.token1 ∧
      (r_qr_key <$> reservations db' !! 1) = Some (Some Sample.token1) ∧
      Parking.booking Sample.json_valid db' 1 5
      = Fail 404 "Booking not found or does not belong to user" None [].
Proof.
  split; [vm_compute; done|]. split; [vm_compute; done|].
  eexists _, _. split; [vm_compute; reflexivity|]. vm_compute. done.
Qed.

(** ** One spot, two requests *)

(** X11: once a POST /book has taken a discrete spot, a later POST /book
    on the same spot, by anyone with a vehicle for regular spots, is
    refused with SPOT_UNAVAILABLE and changes nothing. *)
Lemma book_spot_taken toDataURL db vid sid areaId userId qrKey now d db' vehicle
    vid2 aid2 user2 qrKey2 now2 vehicle2 :
  Parking.book toDataURL db (Some vid) (Some sid) areaId userId qrKey now = (Ok d, db') →
  vehicles db !! vid = Some vehicle →
  JS.toLowerCase (v_vehicle_type vehicle) ≠ "motorcycle" →
  vid2 ≠ 0 → aid2 ≠ 0 →
  vehicles db !! vid2 = Some vehicle2 →
  v_user_id vehicle2 = user2 →
  JS.toLowerCase (v_vehicle_type vehicle2) ≠ "motorcycle" →
  is_Some (parking_area db !! aid2) →
  Parking.book toDataURL db' (Some vid2) (Some sid) (Some aid2) user2 qrKey2 now2
  = (Fail 400 "Parking spot is no longer available" (Some "SPOT_UNAVAILABLE") [], db').
Proof.
  intros Hrun Hveh Hmoto Hv2 Ha2 Hveh2 Hown2 Hmoto2 Harea2.
  assert (sid ≠ 0) as Hsid.
  { intros ->. unfold Parking.book in Hrun. simpl in Hrun.
    rewrite orb_true_r in Hrun. discriminate. }
  apply book_ok_inv in Hrun
    as (vid' & sid' & aid & vehicle' & [= <-] & [= <-] & -> & Hveh' & _ & Hpath).
  rewrite Hveh in Hveh'. injection Hveh' as <-.
  destruct Hpath as [[Hmoto' _]|(_ & _ & spot & Hspot & Hst & Hclaim)]; [done|].
  apply claim_spot_ok in Hclaim
    as (_ & _ & _ & _ & _ & Hvehs & Hareas & _ & Hspots & _ & _).
  rewrite (book_discrete toDataURL db' vid2 sid aid2 user2 qrKey2 now2 vehicle2
             (set_spot_status "reserved" spot)); try done.
  - by rewrite Hvehs.
  - by rewrite Hareas.
  - rewrite Hspots. unfold spot_update. rewrite update_lookup, Hspot. simpl.
    by rewrite Z.eqb_refl, Hst.
Qed.

(** * Further properties of the routes *)

(** ** Reserving capacity *)

(** X1: POST /sections/:sectionId/reserve succeeds exactly when the
    section exists as a motorcycle section and capacity - parked_count -
    reserved_count, missing values counting as 0, is positive. *)
Theorem reserve_succeeds_iff_free db sectionId userId now date_now date_now' :
  is_ok (Capacity.reserve db sectionId userId now date_now date_now').1 = true ↔
  ∃ s, motorcycle_section db sectionId = Some s ∧
       0 < JS.or0 (psec_capacity s) - JS.or0 (psec_parked_count s)
           - JS.or0 (psec_reserved_count s).
Proof.
  unfold Capacity.reserve.
  destruct (motorcycle_section db sectionId) as [s|]; simpl.
  - destruct (Z.leb_spec
                (Z.max 0 (JS.or0 (psec_capacity s)
                          - (JS.or0 (psec_parked_count s)
                             + JS.or0 (psec_reserved_count s)))) 0) as [Hle|Hgt];
      simpl; split.
    + discriminate.
    + intros (s' & [= <-] & Hfree). lia.
    + intros _. exists s. split; [done|lia].
    + done.
  - split; [discriminate|]. by intros (s & ? & _).
Qed.

(** X2: a successful reserve inserts one reservation in status reserved
    for the caller, tied to the section through parking_spots_id, raises
    reserved_count by 1 and leaves parked_count and capacity alone; the
    units in use stay within the capacity, and the reply's
    remainingCapacity is what is left after the reservation. *)
Theorem reserve_keeps_capacity_bound db sectionId userId now date_now date_now' d db' :
  Capacity.reserve db sectionId userId now date_now date_now' = (Ok d, db') →
  ∃ s s' row,
    motorcycle_section db sectionId = Some s ∧
    parking_section db' !! sectionId = Some s' ∧
    psec_capacity s' = psec_capacity s ∧
    psec_parked_count s' = psec_parked_count s ∧
    psec_reserved_count s' = SQL.add (psec_reserved_count s) (Some 1) ∧
    JS.or0 (psec_parked_count s) + (JS.or0 (psec_reserved_count s) + 1)
    ≤ JS.or0 (psec_capacity s) ∧
    Capacity.rv_remainingCapacity d
    = JS.or0 (psec_capacity s) - JS.or0 (psec_parked_count s)
      - (JS.or0 (psec_reserved_count s) + 1) ∧
    reservations db' !! Capacity.rv_reservationId d = Some row ∧
    r_user_id row = userId ∧ r_booking_status row = reserved ∧
    r_parking_spots_id row = sectionId.
Proof.
  intros Hrun.
  destruct (reserve_within_capacity _ _ _ _ _ _ _ _ Hrun)
    as (s & s' & Hs & Hs' & Hc & Hp & Hr & Hbound).
  revert Hrun. unfold Capacity.reserve. rewrite Hs.
  destruct (Z.leb_spec
              (Z.max 0 (JS.or0 (psec_capacity s)
                        - (JS.or0 (psec_parked_count s)
                           + JS.or0 (psec_reserved_count s)))) 0) as [|Hfree];
    [discriminate|].
  intros [= <- <-]. exists s, s'. eexists.
  split; [done|]. split; [exact Hs'|]. split; [exact Hc|]. split; [exact Hp|].
  split; [exact Hr|]. split; [lia|]. split; [simpl; lia|].
  split.
  - rewrite update_section_reservations. simpl.
    unfold SQL.insert_row. by rewrite lookup_insert_eq.
  - done.
Qed.

Lemma reserve_keeps_capacity_bound_witness :
  ∃ d db' s',
    Capacity.reserve Sample.base_db 7 5 1000 1000000 1000000 = (Ok d, db') ∧
    parking_section db' !! 7 = Some s' ∧
    psec_reserved_count s' = Some 1 ∧
    Capacity.rv_remainingCapacity d = 2.
Proof.
  destruct (Capacity.reserve Sample.base_db 7 5 1000 1000000 1000000)
    as [[d|] db'] eqn:Hrun; [|vm_compute in Hrun; discriminate].
  destruct (reserve_keeps_capacity_bound _ _ _ _ _ _ _ _ Hrun)
    as (s & s' & row & Hs & Hs' & _ & _ & Hr & _ & Hrem & _).
  vm_compute in Hs. injection Hs as <-.
  exists d, db', s'. split; [reflexivity|]. split; [exact Hs'|].
  split; [rewrite Hr; reflexivity|rewrite Hrem; reflexivity].
Defined.

(** ** Confirming *)

(** X3: POST /sections/:sectionId/confirm-parking succeeds exactly when
    the reservation exists, belongs to the caller and is in status
    reserved; a missing reservation, a reservation of somebody else and a
    reservation already confirmed or completed are all refused, and a
    refused confirm returns the database unchanged. *)
Theorem confirm_parking_succeeds_iff db sectionId userId reservationId now :
  (is_ok (Capacity.confirm_parking db sectionId userId reservationId now).1 = true ↔
   ∃ r, reservations db !! reservationId = Some r ∧
        r_user_id r = userId ∧ r_booking_status r = reserved)
  ∧ (is_ok (Capacity.confirm_parking db sectionId userId reservationId now).1 = false →
     Capacity.confirm_parking db sectionId userId reservationId now
     = (Fail 404 "Reservation not found or already confirmed" None [], db)).
Proof.
  unfold Capacity.confirm_parking.
  set (P := λ (k : Z) (r0 : Reservation),
         (k =? reservationId) && (r_user_id r0 =? userId)
         && bool_decide (r_booking_status r0 = reserved)).
  pose proof (update_affected_zero P (set_booking active (λ _, Some now) id)
                (reservations db)) as Hzero.
  destruct (SQL.update P _ (reservations db)) as [t n]. simpl in Hzero.
  destruct (decide (n = 0%nat)) as [Hn|Hn]; simpl.
  - split; [|done]. split; [discriminate|].
    intros (r & Hr & Hu & Hst). pose proof (proj1 Hzero Hn _ _ Hr) as HP.
    unfold P in HP. rewrite Z.eqb_refl, Hu, Z.eqb_refl, Hst in HP. discriminate.
  - split; [|discriminate]. split; [|done]. intros _.
    destruct (reservations db !! reservationId) as [r|] eqn:Hr.
    + destruct (decide (r_user_id r = userId ∧ r_booking_status r = reserved))
        as [[Hu Hst]|Hno]; [by exists r|].
      exfalso. apply Hn, (proj2 Hzero). intros k r0 Hk. unfold P.
      destruct (Z.eqb_spec k reservationId) as [->|]; [|done].
      rewrite Hr in Hk. injection Hk as <-.
      destruct (Z.eqb_spec (r_user_id r) userId) as [Hu|]; [|done].
      simpl. apply bool_decide_eq_false_2. tauto.
    + exfalso. apply Hn, (proj2 Hzero). intros k r0 Hk. unfold P.
      destruct (Z.eqb_spec k reservationId) as [->|]; [|done]. congruence.
Qed.

(** ** Ending *)

(** X4: a successful POST /sections/:sectionId/end-reservation leaves the
    caller without any active reservation tied to the section: every such
    reservation is completed with end_time = now, while the reservations
    of other users and of other sections are exactly as before. *)
Theorem end_reservation_ends_all db sectionId userId now db' :
  Capacity.end_reservation db sectionId userId now
  = (Ok "Capacity reservation ended successfully", db') →
  ∀ k,
    reservations db' !! k
    = (λ r, if (r_parking_spots_id r =? sectionId) && (r_user_id r =? userId)
               && bool_decide (r_booking_status r = active)
            then set_booking completed id (λ _, Some now) r else r)
        <$> reservations db !! k
    ∧ (∀ r', reservations db' !! k = Some r' →
             r_parking_spots_id r' = sectionId → r_user_id r' = userId →
             r_booking_status r' ≠ active).
Proof.
  unfold Capacity.end_reservation.
  set (P := λ (_ : Z) (r0 : Reservation),
         (r_parking_spots_id r0 =? sectionId) && (r_user_id r0 =? userId)
         && bool_decide (r_booking_status r0 = active)).
  set (f := set_booking completed id (λ _, Some now)).
  pose proof (update_lookup P f (reservations db)) as Hlook.
  destruct (SQL.update P f (reservations db)) as [t n]. simpl in Hlook.
  destruct (decide (n = 0%nat)); [discriminate|].
  intros [= <-] k. rewrite update_section_reservations. simpl.
  rewrite Hlook. split; [done|].
  destruct (reservations db !! k) as [r|]; [|discriminate]. simpl.
  intros r' [= <-] Hsec Hu. destruct (P k r) eqn:HP; [done|].
  intros Hst. unfold P in HP. rewrite Hsec, Hu, !Z.eqb_refl, Hst in HP.
  discriminate.
Qed.

Lemma end_reservation_ends_all_witness :
  ∃ db',
    Capacity.end_reservation Sample.active_db 7 5 3000
    = (Ok "Capacity reservation ended successfully", db') ∧
    (r_booking_status <$> reservations db' !! 1) = Some completed.
Proof.
  destruct (Capacity.end_reservation Sample.active_db 7 5 3000) as [[m|] db'] eqn:Hrun;
    [|vm_compute in Hrun; discriminate].
  assert (m = "Capacity reservation ended successfully") as ->.
  { vm_compute in Hrun. by injection Hrun as <- _. }
  exists db'. split; [reflexivity|].
  destruct (end_reservation_ends_all _ _ _ _ _ Hrun 1) as [Hrow _].
  rewrite Hrow. vm_compute. reflexivity.
Defined.

(** ** The life of a capacity reservation *)

Lemma confirm_parking_run db sectionId userId reservationId now r :
  reservations db !! reservationId = Some r →
  r_user_id r = userId →
  r_booking_status r = reserved →
  Capacity.confirm_parking db sectionId userId reservationId now
  = (Ok "Parking confirmed successfully",
     update_section sectionId
       (set_counts (λ c, SQL.add c (Some 1)) (λ c, SQL.sub c (Some 1)))
       (with_reservations
          (SQL.update
             (λ k r0, (k =? reservationId) && (r_user_id r0 =? userId)
                      && bool_decide (r_booking_status r0 = reserved))
             (set_booking active (λ _, Some now) id) (reservations db)).1 db)).
Proof.
  intros Hr Hu Hst. unfold Capacity.confirm_parking.
  pose proof (update_affected_pos
                (λ k r0, (k =? reservationId) && (r_user_id r0 =? userId)
                         && bool_decide (r_booking_status r0 = reserved))
                (set_booking active (λ _, Some now) id) (reservations db)
                reservationId r Hr) as Hpos.
  destruct (SQL.update _ _ (reservations db)) as [t n]. simpl in *.
  destruct (decide (n = 0%nat)) as [Hn|]; [|done].
  exfalso. apply Hpos; [|done]. by rewrite Z.eqb_refl, Hu, Z.eqb_refl, Hst.
Qed.

Lemma end_reservation_run db sectionId userId now k r :
  reservations db !! k = Some r →
  r_parking_spots_id r = sectionId →
  r_user_id r = userId →
  r_booking_status r = active →
  Capacity.end_reservation db sectionId userId now
  = (Ok "Capacity reservation ended successfully",
     update_section sectionId (set_counts (λ c, SQL.sub c (Some 1)) id)
       (with_reservations
          (SQL.update
             (λ _ r0, (r_parking_spots_id r0 =? sectionId) && (r_user_id r0 =? userId)
                      && bool_decide (r_booking_status r0 = active))
             (set_booking completed id (λ _, Some now)) (reservations db)).1 db)).
Proof.
  intros Hr Hsec Hu Hst. unfold Capacity.end_reservation.
  pose proof (update_affected_pos
                (λ _ r0, (r_parking_spots_id r0 =? sectionId) && (r_user_id r0 =? userId)
                         && bool_decide (r_booking_status r0 = active))
                (set_booking completed id (λ _, Some now)) (reservations db)
                k r Hr) as Hpos.
  destruct (SQL.update _ _ (reservations db)) as [t n]. simpl in *.
  destruct (decide (n = 0%nat)) as [Hn|]; [|done].
  exfalso. apply Hpos; [|done]. by rewrite Hsec, Hu, !Z.eqb_refl, Hst.
Qed.

(** X5: reserve, confirm-parking and end-reservation compose into a full
    cycle: on a motorcycle section with free capacity the three calls
    succeed in turn, the reservation ends completed with start_time and
    end_time set by the confirm and the end, and the section row is back
    to exactly what it was before the reserve. *)
Theorem capacity_cycle_restores_section db sectionId userId t1 date_now date_now'
    t2 t3 s c p rc :
  motorcycle_section db sectionId = Some s →
  psec_capacity s = Some c →
  psec_parked_count s = Some p →
  psec_reserved_count s = Some rc →
  p + rc < c →
  ∃ d db1 db2 db3 row,
    Capacity.reserve db sectionId userId t1 date_now date_now' = (Ok d, db1) ∧
    Capacity.confirm_parking db1 sectionId userId (Capacity.rv_reservationId d) t2
    = (Ok "Parking confirmed successfully", db2) ∧
    Capacity.end_reservation db2 sectionId userId t3
    = (Ok "Capacity reservation ended successfully", db3) ∧
    parking_section db3 !! sectionId = Some s ∧
    reservations db3 !! Capacity.rv_reservationId d = Some row ∧
    r_booking_status row = completed ∧
    r_start_time row = Some t2 ∧ r_end_time row = Some t3.
Proof.
  intros Hs Hc Hp Hrc Hfree.
  pose proof Hs as Hsec. apply select_by_key_Some in Hsec as [Hsec _].
  assert (Capacity.reserve db sectionId userId t1 date_now date_now'
          = (Ok {| Capacity.rv_reservationId := next_reservation_id db;
                   Capacity.rv_sectionName := psec_section_name s;
                   Capacity.rv_remainingCapacity := Z.max 0 (c - (p + rc)) - 1 |},
             update_section sectionId (set_counts id (λ c0, SQL.add c0 (Some 1)))
               (insert_reservation
                  {| r_user_id := userId; r_vehicle_id := None;
                     r_parking_spots_id := sectionId; r_parking_section_id := None;
                     r_spot_number := None; r_time_stamp := t1;
                     r_start_time := Some t1; r_end_time := Some (t1 + 24 * 3600);
                     r_booking_status := reserved;
                     r_QR := "CAP-" +:+ JS.num date_now +:+ "-" +:+ JS.num userId;
                     r_qr_key :=
                       Some ("CAP-" +:+ JS.num date_now' +:+ "-" +:+ JS.num userId) |}
                  db).2)) as Hrun1.
  { unfold Capacity.reserve. rewrite Hs, Hc, Hp, Hrc. simpl.
    destruct (Z.leb_spec (Z.max 0 (c - (p + rc))) 0); [lia|]. reflexivity. }
  set (row1 := {| r_user_id := userId; r_vehicle_id := None;
                  r_parking_spots_id := sectionId |}) in Hrun1.
  set (d1 := {| Capacity.rv_reservationId := next_reservation_id db |}) in Hrun1.
  set (db1 := update_section sectionId _ _) in Hrun1.
  assert (reservations db1 !! next_reservation_id db = Some row1) as Hrow1.
  { unfold db1. rewrite update_section_reservations. simpl.
    unfold SQL.insert_row. by rewrite lookup_insert_eq. }
  assert (parking_section db1 !! sectionId
          = Some (set_counts id (λ c0, SQL.add c0 (Some 1)) s)) as Hsec1.
  { unfold db1. rewrite update_section_lookup. simpl. by rewrite Hsec. }
  clearbody db1.
  pose proof (confirm_parking_run db1 sectionId userId (next_reservation_id db) t2
                row1 Hrow1 eq_refl eq_refl) as Hrun2.
  set (db2 := update_section sectionId _ (with_reservations _ db1)) in Hrun2.
  set (row2 := set_booking active (λ _, Some t2) id row1).
  assert (reservations db2 !! next_reservation_id db = Some row2) as Hrow2.
  { unfold db2. rewrite update_section_reservations.
    cbn [reservations with_reservations].
    rewrite update_lookup, Hrow1. simpl. by rewrite !Z.eqb_refl. }
  assert (parking_section db2 !! sectionId
          = Some (set_counts (λ c0, SQL.add c0 (Some 1)) (λ c0, SQL.sub c0 (Some 1))
                    (set_counts id (λ c0, SQL.add c0 (Some 1)) s))) as Hsec2.
  { unfold db2. rewrite update_section_lookup.
    cbn [parking_section with_reservations]. by rewrite Hsec1. }
  clearbody db2.
  pose proof (end_reservation_run db2 sectionId userId t3 (next_reservation_id db)
                row2 Hrow2 eq_refl eq_refl eq_refl) as Hrun3.
  set (db3 := update_section sectionId _ (with_reservations _ db2)) in Hrun3.
  exists d1, db1, db2, db3, (set_booking completed id (λ _, Some t3) row2).
  split; [exact Hrun1|]. split; [exact Hrun2|]. split; [exact Hrun3|]. split.
  - unfold db3. rewrite update_section_lookup.
    cbn [parking_section with_reservations]. rewrite Hsec2. simpl.
    f_equal. destruct s. simpl in *. subst.
    unfold set_counts. simpl. do 2 f_equal; f_equal; lia.
  - split; [|done]. unfold db3. rewrite update_section_reservations.
    cbn [reservations with_reservations Capacity.rv_reservationId d1].
    rewrite update_lookup, Hrow2. simpl. by rewrite !Z.eqb_refl.
Qed.

Lemma capacity_cycle_restores_section_witness :
  ∃ d db1 db2 db3,
    Capacity.reserve Sample.base_db 7 5 1000 1000000 1000001 = (Ok d, db1) ∧
    Capacity.confirm_parking db1 7 5 (Capacity.rv_reservationId d) 2000
    = (Ok "Parking confirmed successfully", db2) ∧
    Capacity.end_reservation db2 7 5 3000
    = (Ok "Capacity reservation ended successfully", db3) ∧
    parking_section db3 !! 7 = parking_section Sample.base_db !! 7.
Proof.
  destruct (capacity_cycle_restores_section Sample.base_db 7 5 1000 1000000 1000001
              2000 3000 (Sample.section_of Sample.base_db 7) 3 0 0
              ltac:(vm_compute; reflexivity) ltac:(reflexivity) ltac:(reflexivity)
              ltac:(reflexivity) ltac:(lia))
    as (d & db1 & db2 & db3 & row & H1 & H2 & H3 & Hsec & _).
  exists d, db1, db2, db3. do 3 (split; [assumption|]).
  rewrite Hsec. vm_compute. reflexivity.
Defined.

(** ** Failing requests *)

(** A refusal: the reply is a 400 or a 404 and the database is the one
    the request found. *)
Ltac refusal :=
  intros [= <- _ _ _ <-]; split; [first [by left|by right]|done].

(** X6: every refusal the capacity routes reserve, confirm-parking,
    end-reservation, release, assign and guest-assign issue themselves is
    a 400 or a 404 and comes with the database exactly as the request
    found it: a refusal is answered before the first write, after a
    rollback, or after an UPDATE that matched no row. (The 500 a handler
    answers when the database throws is no reply of the embedding.) *)
Theorem capacity_failures_change_nothing :
  (∀ db sectionId userId now date_now date_now' http message code details db',
     Capacity.reserve db sectionId userId now date_now date_now'
     = (Fail http message code details, db') →
       (http = 400 ∨ http = 404) ∧ db' = db)
  ∧ (∀ db sectionId userId reservationId now http message code details db',
       Capacity.confirm_parking db sectionId userId reservationId now
       = (Fail http message code details, db') →
       (http = 400 ∨ http = 404) ∧ db' = db)
  ∧ (∀ db sectionId userId now http message code details db',
       Capacity.end_reservation db sectionId userId now
       = (Fail http message code details, db') →
       (http = 400 ∨ http = 404) ∧ db' = db)
  ∧ (∀ db sectionId spotNumber userId now http message code details db',
       Capacity.release db sectionId spotNumber userId now
       = (Fail http message code details, db') →
       (http = 400 ∨ http = 404) ∧ db' = db)
  ∧ (∀ toDataURL db sectionId spotNumber vehicleId userId qrKey now
       http message code details db',
       Capacity.assign toDataURL db sectionId spotNumber vehicleId userId qrKey now
       = (Fail http message code details, db') →
       (http = 400 ∨ http = 404) ∧ db' = db)
  ∧ (∀ db sectionId spotNumber guestName plateNumber brand color userId guestEmail now
       http message code details db',
       Capacity.guest_assign db sectionId spotNumber guestName plateNumber brand color
         userId guestEmail now
       = (Fail http message code details, db') →
       (http = 400 ∨ http = 404) ∧ db' = db).
Proof.
  split; [|split; [|split; [|split; [|split]]]].
  - intros db sectionId userId now dn dn' h m c dt db'. unfold Capacity.reserve.
    destruct (motorcycle_section db sectionId); [|refusal].
    destruct (_ <=? 0); [refusal|discriminate].
  - intros db sectionId userId rid now h m c dt db'. unfold Capacity.confirm_parking.
    destruct (SQL.update _ _ (reservations db)) as [t n].
    destruct (decide (n = 0%nat)); [refusal|discriminate].
  - intros db sectionId userId now h m c dt db'. unfold Capacity.end_reservation.
    destruct (SQL.update _ _ (reservations db)) as [t n].
    destruct (decide (n = 0%nat)); [refusal|discriminate].
  - intros db sectionId spotNumber userId now h m c dt db'. unfold Capacity.release.
    match goal with
    | |- context [SQL.update ?P ?f (reservations db)] =>
        pose proof (update_none_id P f (reservations db)) as Hid;
        destruct (SQL.update P f (reservations db)) as [t n]
    end.
    simpl in Hid. destruct (decide (n = 0%nat)) as [Hn|]; [|discriminate].
    intros [= <- _ _ _ <-]. split; [by right|].
    rewrite (Hid Hn). apply with_reservations_id.
  - intros toDataURL db sectionId spotNumber vehicleId userId qrKey now h m c dt db'.
    unfold Capacity.assign.
    destruct ((userId =? 0) || JS.falsy vehicleId); [refusal|].
    destruct (motorcycle_section db sectionId); [|refusal].
    destruct (SQL.select_by_key _ _ (vehicles db)); [|refusal].
    destruct (SQL.select _ (reservations db)); [|refusal].
    destruct (SQL.select _ (reservations db)); [discriminate|refusal].
  - intros db sectionId spotNumber guestName plateNumber brand color userId guestEmail
      now h m c dt db'. unfold Capacity.guest_assign.
    destruct ((userId =? 0) || JS.falsy_str guestName || JS.falsy_str plateNumber);
      [refusal|].
    destruct (motorcycle_section db sectionId); [|refusal].
    destruct (SQL.select _ (reservations db)); [discriminate|refusal].
Qed.

(** X7: every refusal POST /book issues itself (missing field, foreign
    or unknown vehicle, unknown area or spot, spot not available, type
    mismatch, lost update, section full or unavailable) is a 400, the
    refusal of PUT /end-session is a 404, and each comes with the
    database exactly as the request found it. (The 500 a handler answers
    when the database throws is no reply of the embedding.) *)
Theorem parking_failures_change_nothing :
  (∀ toDataURL db vehicleId spotId areaId userId qrKey now
     http message code details db',
     Parking.book toDataURL db vehicleId spotId areaId userId qrKey now
     = (Fail http message code details, db') → http = 400 ∧ db' = db)
  ∧ (∀ db reservationId userId now http message code details db',
       Parking.end_session db reservationId userId now
       = (Fail http message code details, db') → http = 404 ∧ db' = db).
Proof.
  split.
  - intros toDataURL db vehicleId spotId areaId userId qrKey now h m c dt db'.
    unfold Parking.book.
    destruct (JS.falsy vehicleId || JS.falsy spotId || JS.falsy areaId);
      [by intros [= <- _ _ _ <-]|].
    destruct (SQL.select_by_key _ _ (vehicles db)); [|by intros [= <- _ _ _ <-]].
    destruct (vehicles db !! _) as [vehicle|]; [|by intros [= <- _ _ _ <-]].
    destruct (String.eqb (JS.toLowerCase (v_vehicle_type vehicle)) "motorcycle").
    { unfold Parking.bookMotorcycleSection.
      destruct (SQL.select_by_key _ _ (parking_section db));
        [discriminate|by intros [= <- _ _ _ <-]]. }
    destruct (parking_area db !! _); [|by intros [= <- _ _ _ <-]].
    destruct (parking_spot db !! _) as [spot|]; [|by intros [= <- _ _ _ <-]].
    destruct (negb (String.eqb (ps_status spot) "available"));
      [by intros [= <- _ _ _ <-]|].
    destruct (negb (String.eqb _ (JS.toLowerCase (ps_spot_type spot))));
      [by intros [= <- _ _ _ <-]|].
    unfold Parking.claim_spot.
    destruct (SQL.update _ _ (parking_spot db)) as [t n].
    destruct (decide (n = 0%nat)); [by intros [= <- _ _ _ <-]|discriminate].
  - intros db reservationId userId now h m c dt db'. unfold Parking.end_session.
    destruct (SQL.select_by_key _ _ (reservations db));
      [discriminate|by intros [= <- _ _ _ <-]].
Qed.

(** ** What a booking touches *)

Lemma claim_spot_succeeds toDataURL db spot vehicleId spotId userId qrKey now :
  parking_spot db !! spotId = Some spot →
  ps_status spot = "available" →
  is_ok (Parking.claim_spot toDataURL db spot vehicleId spotId userId qrKey now).1 = true.
Proof.
  intros Hspot Hst. unfold Parking.claim_spot.
  pose proof (update_affected_pos
                (λ k p, (k =? spotId) && String.eqb (ps_status p) "available")
                (set_spot_status "reserved") (parking_spot db) spotId spot Hspot)
    as Hpos.
  destruct (SQL.update _ _ (parking_spot db)) as [t n]. simpl in Hpos.
  destruct (decide (n = 0%nat)) as [Hn|]; [|done].
  exfalso. apply Hpos; [|done]. by rewrite Z.eqb_refl, Hst.
Qed.

Lemma bookMotorcycleSection_frame toDataURL db areaId spotId vehicleId userId qrKey now
    d db' :
  Parking.bookMotorcycleSection toDataURL db areaId spotId vehicleId userId qrKey now
  = (Ok d, db') →
  next_reservation_id db' = next_reservation_id db + 1 ∧
  (∀ k, k ≠ spotId → parking_section db' !! k = parking_section db !! k) ∧
  (∀ k, k ≠ next_reservation_id db → reservations db' !! k = reservations db !! k).
Proof.
  unfold Parking.bookMotorcycleSection.
  destruct (SQL.select_by_key spotId _ (parking_section db)); [|discriminate].
  intros [= <- <-]. split; [done|].
  unfold update_QR, update_section, insert_reservation.
  cbn [reservations parking_section with_reservations with_sections next_reservation_id].
  split.
  - intros k Hk. by rewrite update_key_ne.
  - intros k Hk. rewrite update_key_ne by done.
    unfold SQL.insert_row. by rewrite lookup_insert_ne.
Qed.

(** X8: a successful POST /book on the resource [sid] touches nothing
    else: users, vehicles and areas are unchanged, every spot other than
    [sid] and every section other than [sid] is unchanged, and so is
    every reservation but the new one, which takes the next
    AUTO_INCREMENT id. *)
Theorem book_touches_only_its_resource toDataURL db vehicleId sid areaId userId qrKey
    now d db' :
  Parking.book toDataURL db vehicleId (Some sid) areaId userId qrKey now = (Ok d, db') →
  users db' = users db ∧ vehicles db' = vehicles db ∧
  parking_area db' = parking_area db ∧
  bk_reservationId d = next_reservation_id db ∧
  (∀ k, k ≠ sid → parking_spot db' !! k = parking_spot db !! k) ∧
  (∀ k, k ≠ sid → parking_section db' !! k = parking_section db !! k) ∧
  (∀ k, k ≠ bk_reservationId d → reservations db' !! k = reservations db !! k).
Proof.
  intros Hrun. apply book_ok_inv in Hrun
    as (vid & sid' & aid & vehicle & -> & [= <-] & -> & Hveh & _ & Hpath).
  destruct Hpath as [[_ Hrun]|(_ & _ & spot & Hspot & _ & Hrun)].
  - destruct (bookMotorcycleSection_frame _ _ _ _ _ _ _ _ _ _ Hrun)
      as (_ & Hsecs & Hres).
    apply bookMotorcycleSection_ok in Hrun
      as (ps & _ & _ & Hid & _ & _ & Hu & Hv & Ha & Hspots & _ & _).
    rewrite Hid, Hspots. by repeat split.
  - apply claim_spot_ok in Hrun
      as (_ & Hid & _ & _ & Hu & Hv & Ha & Hsecs & Hspots & _ & Hres).
    rewrite Hid, Hsecs, Hspots. repeat split; try done.
    intros k Hk. unfold spot_update. rewrite update_lookup.
    destruct (parking_spot db !! k); [|done]. simpl.
    by rewrite (proj2 (Z.eqb_neq _ _) Hk).
Qed.

Lemma book_touches_only_its_resource_witness :
  ∃ d db',
    Parking.book Sample.toDataURL Sample.car_db (Some 51) (Some 100) (Some 1) 5
      Sample.token1 1000 = (Ok d, db') ∧
    parking_spot db' !! 101 = parking_spot Sample.car_db !! 101 ∧
    parking_section db' !! 20 = parking_section Sample.car_db !! 20.
Proof.
  destruct (Parking.book Sample.toDataURL Sample.car_db (Some 51) (Some 100) (Some 1) 5
              Sample.token1 1000) as [[d|] db'] eqn:Hrun;
    [|vm_compute in Hrun; discriminate].
  destruct (book_touches_only_its_resource _ _ _ _ _ _ _ _ _ _ Hrun)
    as (_ & _ & _ & _ & Hspots & Hsecs & _).
  exists d, db'. split; [reflexivity|]. split; [by apply Hspots|by apply Hsecs].
Defined.

(** X9: for a vehicle other than a motorcycle, the vehicle type decides
    the booking of an available discrete spot: the call succeeds exactly
    when the lower-cased vehicle type, with bicycle and ebike both
    mapped to bike, equals the lower-cased spot type; otherwise it is
    refused with VEHICLE_TYPE_MISMATCH, the reply names the vehicle type,
    the spot type and the expected spot type, and nothing is changed. A
    motorcycle is never matched against the spot: POST /book hands the
    request to bookMotorcycleSection, which reads the id as a section
    id, so a motorcycle naming an available discrete spot whose id is no
    section id is refused with SECTION_NOT_AVAILABLE, whatever the type
    of the spot. *)
Theorem book_type_compatibility toDataURL db vid sid aid userId qrKey now vehicle spot :
  vid ≠ 0 → sid ≠ 0 → aid ≠ 0 →
  vehicles db !! vid = Some vehicle →
  v_user_id vehicle = userId →
  is_Some (parking_area db !! aid) →
  parking_spot db !! sid = Some spot →
  ps_status spot = "available" →
  let run := Parking.book toDataURL db (Some vid) (Some sid) (Some aid) userId qrKey now in
  (JS.toLowerCase (v_vehicle_type vehicle) ≠ "motorcycle" →
   (is_ok run.1 = true ↔
    Parking.expectedSpotType (v_vehicle_type vehicle) = JS.toLowerCase (ps_spot_type spot))
   ∧ (Parking.expectedSpotType (v_vehicle_type vehicle)
      ≠ JS.toLowerCase (ps_spot_type spot) →
      run = (Fail 400
               ("This parking spot is for " +:+ ps_spot_type spot
                  +:+ "s only. Your vehicle is a " +:+ v_vehicle_type vehicle +:+ ".")
               (Some "VEHICLE_TYPE_MISMATCH")
               [("vehicleType", v_vehicle_type vehicle);
                ("spotType", ps_spot_type spot);
                ("expectedSpotType", Parking.expectedSpotType (v_vehicle_type vehicle))],
             db))
   ∧ (JS.toLowerCase (v_vehicle_type vehicle) = "bicycle"
      ∨ JS.toLowerCase (v_vehicle_type vehicle) = "ebike" →
      JS.toLowerCase (ps_spot_type spot) = "bike" → is_ok run.1 = true))
  ∧ (JS.toLowerCase (v_vehicle_type vehicle) = "motorcycle" →
     run = Parking.bookMotorcycleSection toDataURL db aid sid vid userId qrKey now
     ∧ (parking_section db !! sid = None →
        run = (Fail 400
                 "Recommended section is no longer available or is full/unavailable"
                 (Some "SECTION_NOT_AVAILABLE") [], db))).
Proof.
  intros Hv Hs Ha Hveh Hown Harea Hspot Hst run. split.
  - intros Hmoto.
    assert (run = _) as Hrun
      by exact (book_discrete toDataURL db vid sid aid userId qrKey now vehicle spot
                  Hv Hs Ha Hveh Hown Hmoto Harea Hspot).
    rewrite Hst in Hrun. simpl in Hrun.
    pose proof (claim_spot_succeeds toDataURL db spot vid sid userId qrKey now Hspot Hst)
      as Hclaim.
    assert (is_ok run.1 = true ↔
            Parking.expectedSpotType (v_vehicle_type vehicle)
            = JS.toLowerCase (ps_spot_type spot)) as Hiff.
    { rewrite Hrun.
      destruct (String.eqb_spec (Parking.expectedSpotType (v_vehicle_type vehicle))
                  (JS.toLowerCase (ps_spot_type spot))) as [Heq|Hne]; simpl.
      - by split.
      - split; [discriminate|done]. }
    split; [exact Hiff|]. split.
    + intros Hne. rewrite Hrun. by rewrite (proj2 (String.eqb_neq _ _) Hne).
    + intros Hbike Hspot_bike. apply Hiff. rewrite Hspot_bike.
      unfold Parking.expectedSpotType. destruct Hbike as [-> | ->]; reflexivity.
  - intros Hmoto.
    assert (run = Parking.bookMotorcycleSection toDataURL db aid sid vid userId qrKey now)
      as Hrun.
    { unfold run, Parking.book. simpl.
      rewrite (proj2 (Z.eqb_neq _ _) Hv), (proj2 (Z.eqb_neq _ _) Hs),
        (proj2 (Z.eqb_neq _ _) Ha). simpl.
      unfold SQL.select_by_key at 1. rewrite Hveh, Hown, Z.eqb_refl, Hmoto.
      reflexivity. }
    split; [exact Hrun|]. intros Hnone. rewrite Hrun.
    unfold Parking.bookMotorcycleSection, SQL.select_by_key. by rewrite Hnone.
Qed.

Lemma book_type_compatibility_witness :
  is_ok (Parking.book Sample.toDataURL Sample.car_db (Some 51) (Some 100) (Some 1) 5
           Sample.token1 1000).1 = true.
Proof.
  destruct (book_type_compatibility Sample.toDataURL Sample.car_db
              51 100 1 5 Sample.token1 1000
              (Sample.vehicle_of Sample.car_db 51) (Sample.spot_of Sample.car_db 100)
              ltac:(done) ltac:(done) ltac:(done)
              ltac:(vm_compute; reflexivity) ltac:(reflexivity)
              ltac:(vm_compute; eauto)
              ltac:(vm_compute; reflexivity) ltac:(reflexivity)) as [Hcar _].
  apply (proj1 (Hcar ltac:(vm_compute; discriminate))).
  vm_compute. reflexivity.
Defined.

(** X10: a successful POST /book for a motorcycle found
    capacity - parked_count - reserved_count > 0 in the section: it
    raises reserved_count by 1, so the units in use stay within the
    capacity, leaves the spot table alone, and stores a reservation in
    status reserved with the dummy parking_spots_id 0, the section id and
    the label {section_name}-{reserved_count + 1}. *)
Theorem motorcycle_booking_within_capacity toDataURL db areaId sid vehicleId userId
    qrKey now d db' :
  Parking.bookMotorcycleSection toDataURL db areaId sid vehicleId userId qrKey now
  = (Ok d, db') →
  ∃ ps ps' row,
    parking_section db !! sid = Some ps ∧
    parking_section db' !! sid = Some ps' ∧
    psec_capacity ps' = psec_capacity ps ∧
    psec_parked_count ps' = psec_parked_count ps ∧
    JS.or0 (psec_reserved_count ps') = JS.or0 (psec_reserved_count ps) + 1 ∧
    JS.or0 (psec_parked_count ps') + JS.or0 (psec_reserved_count ps')
    ≤ JS.or0 (psec_capacity ps') ∧
    parking_spot db' = parking_spot db ∧
    reservations db' !! bk_reservationId d = Some row ∧
    r_booking_status row = reserved ∧
    r_parking_spots_id row = 0 ∧
    r_parking_section_id row = Some sid ∧
    r_spot_number row
    = Some (Capacity.spot_label (psec_section_name ps)
              (JS.or0 (psec_reserved_count ps) + 1)).
Proof.
  intros Hrun. pose proof Hrun as Hwhere. revert Hwhere.
  unfold Parking.bookMotorcycleSection at 1.
  destruct (SQL.select_by_key sid _ (parking_section db)) as [ps0|] eqn:Hsel;
    [|discriminate].
  intros _. apply select_by_key_Some in Hsel as [Hps0 Hsel].
  apply bookMotorcycleSection_ok in Hrun
    as (ps & Hps & Hfree & Hid & _ & _ & _ & _ & _ & Hspots & Hsec & Hrow).
  rewrite Hps in Hps0. injection Hps0 as <-.
  apply andb_true_iff in Hsel as [Hsel _]. apply andb_true_iff in Hsel as [_ Hgt].
  unfold SQL.gt0, SQL.sub in Hgt.
  destruct (psec_capacity ps) as [c|] eqn:Hc; [|done].
  destruct (psec_parked_count ps) as [p|] eqn:Hp; [|done].
  destruct (psec_reserved_count ps) as [r|] eqn:Hr; [|done].
  simpl in Hfree.
  exists ps. eexists _, _. split; [done|]. split; [exact Hsec|].
  simpl. rewrite Hc, Hp, Hr. simpl.
  do 3 (split; [done|]). split; [lia|]. split; [done|].
  rewrite Hid. split; [exact Hrow|]. simpl. rewrite Hr. done.
Qed.

Lemma motorcycle_booking_within_capacity_witness :
  ∃ d db' ps',
    Parking.bookMotorcycleSection Sample.toDataURL Sample.base_db 1 7 50 5
      Sample.token1 1000 = (Ok d, db') ∧
    parking_section db' !! 7 = Some ps' ∧
    JS.or0 (psec_reserved_count ps') = 1.
Proof.
  destruct (Parking.bookMotorcycleSection Sample.toDataURL Sample.base_db 1 7 50 5
              Sample.token1 1000) as [[d|] db'] eqn:Hrun;
    [|vm_compute in Hrun; discriminate].
  destruct (motorcycle_booking_within_capacity _ _ _ _ _ _ _ _ _ _ Hrun)
    as (ps & ps' & row & Hps & Hps' & _ & _ & Hr & _).
  vm_compute in Hps. injection Hps as <-.
  exists d, db', ps'. split; [reflexivity|]. split; [exact Hps'|].
  rewrite Hr. reflexivity.
Defined.

Lemma book_spot_taken_witness :
  Parking.book Sample.toDataURL Sample.car_booked_db (Some 61) (Some 100) (Some 1) 6
    Sample.token2 2000
  = (Fail 400 "Parking spot is no longer available" (Some "SPOT_UNAVAILABLE") [],
     Sample.car_booked_db).
Proof.
  destruct (Parking.book Sample.toDataURL Sample.car_db (Some 51) (Some 100) (Some 1) 5
              Sample.token1 1000) as [[d|] db'] eqn:Hrun;
    [|vm_compute in Hrun; discriminate].
  assert (Sample.car_booked_db = db') as ->
    by (unfold Sample.car_booked_db; by rewrite Hrun).
  apply (book_spot_taken Sample.toDataURL Sample.car_db 51 100 (Some 1) 5
           Sample.token1 1000 d db' (Sample.vehicle_of Sample.car_db 51)
           61 1 6 Sample.token2 2000 (Sample.vehicle_of Sample.car_db 61) Hrun).
  - vm_compute. reflexivity.
  - vm_compute. discriminate.
  - done.
  - done.
  - vm_compute. reflexivity.
  - reflexivity.
  - vm_compute. discriminate.
  - vm_compute. eauto.
Defined.

(** ** The statistics of the virtual spots *)

Lemma live_status_str b :
  live b = true → booking_status_str b = "reserved" ∨ booking_status_str b = "active".
Proof. destruct b; [by left|by right|discriminate]. Qed.

Lemma virtual_spot_status db userId sectionId sectionData i :
  let st := Capacity.vs_status
              (Capacity.virtual_spot sectionId sectionData
                 (Capacity.reservations_query db userId sectionId) i) in
  st = "available" ∨ st = "reserved" ∨ st = "active".
Proof.
  simpl.
  destruct (Capacity.find_reservation _ _) as [row|] eqn:Hfind; [|by left].
  apply find_reservation_Some in Hfind as [Hin _].
  apply reservations_query_elem in Hin as (k & r & _ & Hlive & ->).
  apply section_live_inv in Hlive as [_ Hlive]. right. simpl.
  by apply live_status_str.
Qed.

Lemma count_status_partition (l : list Capacity.VirtualSpot) :
  Forall (λ s, Capacity.vs_status s = "available" ∨ Capacity.vs_status s = "reserved"
               ∨ Capacity.vs_status s = "active") l →
  (Capacity.count_status "available" l + Capacity.count_status "active" l
   + Capacity.count_status "reserved" l = length l)%nat.
Proof.
  unfold Capacity.count_status. induction 1 as [|s l Hs _ IH]; [done|].
  simpl. destruct Hs as [-> | [-> | ->]]; simpl; lia.
Qed.

(** X12: in every reply of GET /sections/:sectionId/spots the three
    counters add up: availableSpots + occupiedSpots + reservedSpots =
    totalSpots, and totalSpots is the capacity of the section (0 when the
    capacity is missing or negative). *)
Theorem get_spots_statistics_add_up db userId sectionId data :
  Capacity.get_spots db userId sectionId = Ok data →
  (Capacity.sd_availableSpots data + Capacity.sd_occupiedSpots data
   + Capacity.sd_reservedSpots data = Capacity.sd_totalSpots data)%nat
  ∧ ∃ section, motorcycle_section db sectionId = Some section ∧
               Capacity.sd_totalSpots data = Z.to_nat (JS.or0 (psec_capacity section)).
Proof.
  unfold Capacity.get_spots. destruct (userId =? 0); [discriminate|].
  destruct (motorcycle_section db sectionId) as [section|]; [|discriminate].
  intros [= <-]. simpl. split.
  - apply count_status_partition. unfold Capacity.virtualSpots.
    apply Forall_fmap, Forall_forall. intros i _.
    apply virtual_spot_status.
  - exists section. split; [done|]. unfold Capacity.virtualSpots.
    by rewrite length_fmap, length_seqZ.
Qed.

Lemma get_spots_statistics_add_up_witness :
  ∃ data,
    Capacity.get_spots Sample.guest_db 5 7 = Ok data ∧
    Capacity.sd_totalSpots data = 3%nat ∧
    (Capacity.sd_availableSpots data + Capacity.sd_occupiedSpots data
     + Capacity.sd_reservedSpots data = 3)%nat.
Proof.
  destruct (Capacity.get_spots Sample.guest_db 5 7) as [data|] eqn:Hrun;
    [|vm_compute in Hrun; discriminate].
  destruct (get_spots_statistics_add_up _ _ _ _ Hrun) as (Hsum & section & Hsec & Htot).
  vm_compute in Hsec. injection Hsec as <-.
  exists data. split; [reflexivity|]. split; [exact Htot|].
  rewrite Hsum. exact Htot.
Defined.

(** ** Capacity status after a booking *)

(** X13: after a successful motorcycle booking of a section, the
    capacity status of its area, asked by the booker, lists the section
    as booked by the caller, with reservedCount one higher than the
    stored value before the booking and availableCapacity one lower than
    the free capacity before it. *)
Theorem capacity_status_after_motorcycle_booking toDataURL db areaId sid vehicleId
    userId qrKey now d db' :
  Parking.bookMotorcycleSection toDataURL db areaId sid vehicleId userId qrKey now
  = (Ok d, db') →
  userId ≠ 0 →
  ∃ entries e ps,
    Capacity.capacity_status db' userId areaId = Ok entries ∧
    e ∈ entries ∧
    Capacity.ce_sectionId e = sid ∧
    Capacity.ce_isUserBooked e = true ∧
    parking_section db !! sid = Some ps ∧
    Capacity.ce_reservedCount e = JS.or0 (psec_reserved_count ps) + 1 ∧
    Capacity.ce_availableCapacity e
    = JS.or0 (psec_capacity ps) - JS.or0 (psec_parked_count ps)
      - JS.or0 (psec_reserved_count ps) - 1 ∧
    0 ≤ Capacity.ce_availableCapacity e.
Proof.
  intros Hrun Huser. pose proof Hrun as Hwhere. revert Hwhere.
  unfold Parking.bookMotorcycleSection at 1.
  destruct (SQL.select_by_key sid _ (parking_section db)) as [ps0|] eqn:Hsel;
    [|discriminate].
  intros _. apply select_by_key_Some in Hsel as [Hps0 Hsel].
  apply bookMotorcycleSection_ok in Hrun
    as (ps & Hps & Hfree & _ & _ & _ & _ & _ & _ & _ & Hsec & Hrow).
  rewrite Hps in Hps0. injection Hps0 as <-.
  repeat (apply andb_true_iff in Hsel as [Hsel ?]).
  set (ps' := set_counts id (λ c, SQL.add c (Some 1)) ps) in Hsec.
  exists (Capacity.capacity_entry db' userId <$> Capacity.status_query db' areaId),
    (Capacity.capacity_entry db' userId (sid, ps')), ps.
  split.
  { unfold Capacity.capacity_status. by rewrite (proj2 (Z.eqb_neq _ _) Huser). }
  split.
  { apply list_elem_of_fmap. exists (sid, ps'). split; [done|].
    unfold Capacity.status_query. rewrite merge_sort_Permutation.
    apply select_elem. split; [exact Hsec|]. simpl. by apply andb_true_iff. }
  split; [done|]. split.
  { simpl. unfold Capacity.is_user_booked.
    destruct (SQL.select _ (reservations db')) as [|x l] eqn:Hnone; [|done].
    exfalso. rewrite select_nil in Hnone. specialize (Hnone _ _ Hrow).
    simpl in Hnone. by rewrite !Z.eqb_refl in Hnone. }
  split; [done|]. simpl.
  unfold SQL.gt0, SQL.sub in *.
  destruct (psec_capacity ps), (psec_parked_count ps), (psec_reserved_count ps);
    try done. simpl in *. repeat split; lia.
Qed.

Lemma capacity_status_after_motorcycle_booking_witness :
  ∃ d db' entries e,
    Parking.bookMotorcycleSection Sample.toDataURL Sample.base_db 1 7 50 5
      Sample.token1 1000 = (Ok d, db') ∧
    Capacity.capacity_status db' 5 1 = Ok entries ∧
    e ∈ entries ∧ Capacity.ce_sectionId e = 7 ∧
    Capacity.ce_isUserBooked e = true ∧
    Capacity.ce_availableCapacity e = 2.
Proof.
  destruct (Parking.bookMotorcycleSection Sample.toDataURL Sample.base_db 1 7 50 5
              Sample.token1 1000) as [[d|] db'] eqn:Hrun;
    [|vm_compute in Hrun; discriminate].
  destruct (capacity_status_after_motorcycle_booking _ _ _ _ _ _ _ _ _ _ Hrun
              ltac:(done))
    as (entries & e & ps & Hst & Hin & Hid & Hbooked & Hps & _ & Hav & _).
  vm_compute in Hps. injection Hps as <-.
  exists d, db', entries, e. split; [reflexivity|]. do 4 (split; [assumption|]).
  rewrite Hav. reflexivity.
Defined.

(** ** The token that is served *)

Lemma trimEnd_idempotent s : JS.trimEnd (JS.trimEnd s) = JS.trimEnd s.
Proof.
  induction s as [|c s IH]; [done|]. simpl.
  destruct (JS.trimEnd s) as [|d t] eqn:Ht.
  - destruct (JS.is_ws c) eqn:Hc; [done|]. simpl. by rewrite Hc.
  - simpl. simpl in IH. by rewrite IH.
Qed.

Lemma trimStart_head s c t : JS.trimStart s = String c t → JS.is_ws c = false.
Proof.
  induction s as [|a s IH]; [discriminate|]. simpl.
  destruct (JS.is_ws a) eqn:Ha; [done|]. by intros [= <- _].
Qed.

Lemma trimEnd_keeps_head c s :
  JS.is_ws c = false → ∃ t, JS.trimEnd (String c s) = String c t.
Proof.
  intros Hc. simpl. destruct (JS.trimEnd s); [rewrite Hc|]; eauto.
Qed.

Lemma trim_idempotent s : JS.trim (JS.trim s) = JS.trim s.
Proof.
  unfold JS.trim. destruct (JS.trimStart s) as [|c u] eqn:Hs; [done|].
  apply trimStart_head in Hs.
  destruct (trimEnd_keeps_head c u Hs) as [t Ht]. rewrite Ht.
  assert (JS.trimStart (String c t) = String c t) as -> by (simpl; by rewrite Hs).
  rewrite <- Ht. apply trimEnd_idempotent.
Qed.

(** X14: whatever text is stored in qr_key, the qrKey served by
    GET /booking/:reservationId is either null or a bare token: the
    stored text with the white space around it removed, not empty and not
    opening with a brace or a bracket; serving that token again returns
    it unchanged. *)
Theorem clean_qr_key_normal_form json_valid stored k :
  Parking.clean_qr_key json_valid stored = Some k →
  (∃ raw, stored = Some raw ∧ k = JS.trim raw) ∧
  bare_token k ∧
  Parking.clean_qr_key json_valid (Some k) = Some k.
Proof.
  unfold Parking.clean_qr_key at 1. destruct stored as [raw|]; [|discriminate].
  destruct (JS.falsy_str (Some raw)); [discriminate|].
  cbn [default from_option id]. cbv zeta.
  destruct (JS.startsWith (JS.trim raw) "{" || JS.startsWith (JS.trim raw) "[")
    eqn:Hopen.
  { destruct (json_valid (JS.trim raw)); [|discriminate].
    destruct (JS.typeof_parsed (JS.trim raw)) eqn:Hty; try discriminate;
      exfalso; apply orb_true_iff in Hopen as [H|H];
      apply startsWith_char in H as [rest Hrest]; rewrite Hrest in Hty;
      discriminate. }
  apply orb_false_iff in Hopen as [Hobj Harr].
  destruct (JS.trim raw) as [|c t] eqn:Htrim; [discriminate|].
  intros [= <-].
  assert (bare_token (String c t)) as Hbare.
  { split; [done|]. split; [|done]. rewrite <- Htrim. apply trim_idempotent. }
  split; [by exists raw|]. split; [done|]. by apply clean_qr_key_bare.
Qed.

Lemma clean_qr_key_normal_form_witness :
  bare_token Sample.token1
  ∧ Parking.clean_qr_key Sample.json_valid (Some Sample.token1) = Some Sample.token1.
Proof.
  destruct (clean_qr_key_normal_form Sample.json_valid
              (Some (" " +:+ Sample.token1 +:+ " ")) Sample.token1
              ltac:(vm_compute; reflexivity)) as (_ & Hbare & Hagain).
  split; [exact Hbare|exact Hagain].
Defined.

(** ** From the listing to the booking *)

Lemma spots_regular_elem db areaId vehicleType includeAll row :
  vehicleType ≠ Some "motorcycle" →
  row ∈ ParkingViews.spots db areaId vehicleType includeAll ↔
  ∃ k ps, parking_spot db !! k = Some ps ∧
          ParkingViews.spot_listed db areaId vehicleType includeAll ps = true ∧
          row = ParkingViews.spot_row db (k, ps).
Proof.
  intros Hne. unfold ParkingViews.spots.
  rewrite bool_decide_eq_false_2 by done.
  rewrite merge_sort_Permutation, list_elem_of_fmap. split.
  - intros ([k ps] & -> & Hin). apply select_elem in Hin as [Hk Hp]. eauto.
  - intros (k & ps & Hk & Hp & ->). exists (k, ps). split; [done|].
    by apply select_elem.
Qed.

Lemma spots_motorcycle_elem db areaId includeAll row :
  row ∈ ParkingViews.spots db areaId (Some "motorcycle") includeAll ↔
  ∃ k ps, parking_section db !! k = Some ps ∧
          ParkingViews.section_listed areaId includeAll ps = true ∧
          row = ParkingViews.section_row (k, ps).
Proof.
  unfold ParkingViews.spots. rewrite bool_decide_eq_true_2 by done.
  rewrite merge_sort_Permutation, list_elem_of_fmap. split.
  - intros ([k ps] & -> & Hin). apply select_elem in Hin as [Hk Hp]. eauto.
  - intros (k & ps & Hk & Hp & ->). exists (k, ps). split; [done|].
    by apply select_elem.
Qed.

Lemma expectedSpotType_of_lower vt :
  JS.toLowerCase vt = vt →
  Parking.expectedSpotType vt = JS.toLowerCase (ParkingViews.spotType_of vt).
Proof.
  intros Hlow. unfold Parking.expectedSpotType, ParkingViews.spotType_of.
  rewrite Hlow.
  destruct (String.eqb vt "bicycle"); [done|].
  destruct (String.eqb vt "ebike"); [done|]. by rewrite Hlow.
Qed.

(** X15: every spot that GET /areas/:areaId/spots lists for a lower-case
    vehicle type other than motorcycle, without includeAll, can be booked
    at once by a vehicle of that type: POST /book on the listed id
    succeeds and leaves the spot reserved. (A spot with id 0 is listed
    but cannot be named in a booking.) *)
Theorem listed_spot_is_bookable toDataURL db areaId vt includeAll row vid vehicle
    userId qrKey now :
  row ∈ ParkingViews.spots db areaId (Some vt) includeAll →
  ParkingViews.only_available includeAll = true →
  vt ≠ "" → vt ≠ "motorcycle" → JS.toLowerCase vt = vt →
  vid ≠ 0 → areaId ≠ 0 → ParkingViews.sr_id row ≠ 0 →
  vehicles db !! vid = Some vehicle →
  v_user_id vehicle = userId →
  v_vehicle_type vehicle = vt →
  is_Some (parking_area db !! areaId) →
  ∃ d db',
    Parking.book toDataURL db (Some vid) (Some (ParkingViews.sr_id row)) (Some areaId)
      userId qrKey now = (Ok d, db') ∧
    (ps_status <$> parking_spot db' !! ParkingViews.sr_id row) = Some "reserved".
Proof.
  intros Hin Honly Hne Hmoto Hlow Hvid Harea_id Hid Hveh Hown Hty Harea.
  apply spots_regular_elem in Hin as (k & ps & Hk & Hlisted & ->); [|congruence].
  simpl in *. unfold ParkingViews.spot_listed in Hlisted.
  destruct (parking_section db !! ps_parking_section_id ps) as [psec|]; [|done].
  rewrite Honly in Hlisted.
  assert (JS.falsy_str (Some vt) = false) as Hfalsy by by destruct vt.
  rewrite Hfalsy in Hlisted. cbn [default from_option id] in Hlisted.
  apply andb_true_iff in Hlisted as [Hlisted Htype].
  apply andb_true_iff in Hlisted as [_ Hst].
  apply String.eqb_eq in Hst. apply String.eqb_eq in Htype.
  assert (JS.toLowerCase (v_vehicle_type vehicle) ≠ "motorcycle") as Hnm
    by (rewrite Hty, Hlow; done).
  rewrite (book_discrete toDataURL db vid k areaId userId qrKey now vehicle ps)
    by done.
  rewrite Hst, Hty, Htype, (expectedSpotType_of_lower vt Hlow), !String.eqb_refl.
  cbn [negb].
  pose proof (claim_spot_succeeds toDataURL db ps vid k userId qrKey now Hk Hst)
    as Hok.
  destruct (Parking.claim_spot toDataURL db ps vid k userId qrKey now)
    as [[d|] db'] eqn:Hclaim; [|discriminate].
  exists d, db'. split; [done|].
  apply claim_spot_ok in Hclaim as (_ & _ & _ & _ & _ & _ & _ & _ & Hspots & _).
  rewrite Hspots. unfold spot_update. rewrite update_lookup, Hk. simpl.
  by rewrite Z.eqb_refl, Hst.
Qed.

(** X16: every section that GET /areas/:areaId/spots lists for
    vehicleType=motorcycle, without includeAll, is reported available and
    can be booked at once: POST /book on the listed id with a motorcycle
    of the caller succeeds. *)
Theorem listed_section_is_bookable toDataURL db areaId includeAll row vid vehicle
    userId qrKey now :
  row ∈ ParkingViews.spots db areaId (Some "motorcycle") includeAll →
  ParkingViews.only_available includeAll = true →
  vid ≠ 0 → areaId ≠ 0 → ParkingViews.sr_id row ≠ 0 →
  vehicles db !! vid = Some vehicle →
  v_user_id vehicle = userId →
  JS.toLowerCase (v_vehicle_type vehicle) = "motorcycle" →
  ParkingViews.sr_status row = "available" ∧
  is_ok (Parking.book toDataURL db (Some vid) (Some (ParkingViews.sr_id row))
           (Some areaId) userId qrKey now).1 = true.
Proof.
  intros Hin Honly Hvid Harea_id Hid Hveh Hown Hmoto.
  apply spots_motorcycle_elem in Hin as (k & ps & Hk & Hlisted & ->).
  simpl in *. unfold ParkingViews.section_listed in Hlisted.
  rewrite Honly in Hlisted.
  repeat (apply andb_true_iff in Hlisted as [Hlisted ?]).
  unfold ParkingViews.free_capacity in *.
  split; [by destruct (SQL.gt0 _)|].
  unfold Parking.book. simpl.
  rewrite (proj2 (Z.eqb_neq _ _) Hvid), (proj2 (Z.eqb_neq _ _) Hid),
    (proj2 (Z.eqb_neq _ _) Harea_id). simpl.
  unfold SQL.select_by_key at 1. rewrite Hveh, Hown, Z.eqb_refl, Hmoto. simpl.
  unfold Parking.bookMotorcycleSection, SQL.select_by_key. rewrite Hk.
  assert ((psec_parking_area_id ps =? areaId)
          && String.eqb (psec_vehicle_type ps) "motorcycle"
          && String.eqb (psec_section_mode ps) "capacity_only"
          && SQL.gt0 (SQL.sub (SQL.sub (psec_capacity ps) (psec_parked_count ps))
                              (psec_reserved_count ps))
          && SQL.neS (psec_status ps) "unavailable" = true) as ->.
  { repeat (apply andb_true_iff; split); done. }
  reflexivity.
Qed.

Lemma listed_spot_is_bookable_witness :
  ∃ d db',
    Parking.book Sample.toDataURL Sample.car_db (Some 61) (Some 100) (Some 1) 6
      Sample.token2 1000 = (Ok d, db') ∧
    (ps_status <$> parking_spot db' !! 100) = Some "reserved".
Proof.
  apply (listed_spot_is_bookable Sample.toDataURL Sample.car_db 1 "car" None
           (ParkingViews.spot_row Sample.car_db (100, Sample.spot_of Sample.car_db 100))
           61 (Sample.vehicle_of Sample.car_db 61) 6 Sample.token2 1000).
  - vm_compute. constructor.
  - reflexivity.
  - done.
  - done.
  - reflexivity.
  - done.
  - done.
  - done.
  - vm_compute. reflexivity.
  - reflexivity.
  - reflexivity.
  - vm_compute. eauto.
Defined.

Lemma listed_section_is_bookable_witness :
  is_ok (Parking.book Sample.toDataURL Sample.base_db (Some 50) (Some 7) (Some 1) 5
           Sample.token1 1000).1 = true.
Proof.
  apply (listed_section_is_bookable Sample.toDataURL Sample.base_db 1 None
           (ParkingViews.section_row (7, Sample.section_of Sample.base_db 7))
           50 (Sample.vehicle_of Sample.base_db 50) 5 Sample.token1 1000).
  - vm_compute. constructor.
  - reflexivity.
  - done.
  - done.
  - done.
  - vm_compute. reflexivity.
  - reflexivity.
  - reflexivity.
Defined.

(** ** Looking a booking up again *)

(** X17: after a successful POST /book, GET
    /reservation/:reservationId/parking-spot-id on the returned id
    answers the booker with the booked spot id, or with the dummy id 0
    when the vehicle is a motorcycle, and answers any other user with
    404. *)
Theorem parking_spot_id_after_book toDataURL db vid sid areaId userId qrKey now d db'
    vehicle :
  Parking.book toDataURL db (Some vid) (Some sid) areaId userId qrKey now = (Ok d, db') →
  vehicles db !! vid = Some vehicle →
  ParkingViews.parking_spot_id db' (bk_reservationId d) userId
  = Ok (if String.eqb (JS.toLowerCase (v_vehicle_type vehicle)) "motorcycle"
        then 0 else sid)
  ∧ ∀ other, other ≠ userId →
      ParkingViews.parking_spot_id db' (bk_reservationId d) other
      = Fail 404 "Reservation not found or does not belong to user" None [].
Proof.
  intros Hrun Hveh. apply book_ok_inv in Hrun
    as (vid' & sid' & aid & vehicle' & [= <-] & [= <-] & -> & Hveh' & _ & Hpath).
  rewrite Hveh in Hveh'. injection Hveh' as <-.
  unfold ParkingViews.parking_spot_id, SQL.select_by_key.
  destruct Hpath as [[Hmoto Hrun]|(Hmoto & _ & spot & _ & _ & Hrun)].
  - apply bookMotorcycleSection_ok in Hrun
      as (ps & _ & _ & Hid & _ & _ & _ & _ & _ & _ & _ & Hrow).
    rewrite Hid, Hrow, Hmoto. simpl. rewrite Z.eqb_refl. split; [done|].
    intros other Hne. by rewrite (proj2 (Z.eqb_neq _ _) (not_eq_sym Hne)).
  - apply claim_spot_ok in Hrun as (_ & Hid & _ & _ & _ & _ & _ & _ & _ & Hrow & _).
    rewrite Hid, Hrow, (proj2 (String.eqb_neq _ _) Hmoto). simpl.
    rewrite Z.eqb_refl. split; [done|].
    intros other Hne. by rewrite (proj2 (Z.eqb_neq _ _) (not_eq_sym Hne)).
Qed.

Lemma parking_spot_id_after_book_witness :
  ∃ d db',
    Parking.book Sample.toDataURL Sample.car_db (Some 51) (Some 100) (Some 1) 5
      Sample.token1 1000 = (Ok d, db') ∧
    ParkingViews.parking_spot_id db' (bk_reservationId d) 5 = Ok 100 ∧
    ParkingViews.parking_spot_id db' (bk_reservationId d) 6
    = Fail 404 "Reservation not found or does not belong to user" None [].
Proof.
  destruct (Parking.book Sample.toDataURL Sample.car_db (Some 51) (Some 100) (Some 1) 5
              Sample.token1 1000) as [[d|] db'] eqn:Hrun;
    [|vm_compute in Hrun; discriminate].
  destruct (parking_spot_id_after_book _ _ _ _ _ _ _ _ _ _
              (Sample.vehicle_of Sample.car_db 51) Hrun
              ltac:(vm_compute; reflexivity)) as [Hmine Hother].
  exists d, db'. split; [reflexivity|]. split; [exact Hmine|].
  by apply Hother.
Defined.

(** X18: after a successful POST /book of a discrete spot, the layout
    listing GET /areas/:areaId/spots-status of the spot's area, asked by
    the booker, shows the spot with status reserved and flagged as booked
    by the caller. *)
Theorem spots_status_after_book toDataURL db vid sid areaId userId qrKey now d db'
    vehicle spot psec :
  Parking.book toDataURL db (Some vid) (Some sid) areaId userId qrKey now = (Ok d, db') →
  vehicles db !! vid = Some vehicle →
  JS.toLowerCase (v_vehicle_type vehicle) ≠ "motorcycle" →
  parking_spot db !! sid = Some spot →
  parking_section db !! ps_parking_section_id spot = Some psec →
  ∃ row,
    row ∈ ParkingViews.spots_status db' userId (psec_parking_area_id psec) ∧
    ParkingViews.ss_id row = sid ∧
    ParkingViews.ss_spot_number row = ps_spot_number spot ∧
    ParkingViews.ss_status row = "reserved" ∧
    ParkingViews.ss_is_user_booked row = 1.
Proof.
  intros Hrun Hveh Hmoto Hspot Hpsec. apply book_ok_inv in Hrun
    as (vid' & sid' & aid & vehicle' & [= <-] & [= <-] & -> & Hveh' & _ & Hpath).
  rewrite Hveh in Hveh'. injection Hveh' as <-.
  destruct Hpath as [[Hmoto' _]|(_ & _ & spot' & Hspot' & Hst & Hrun)]; [done|].
  rewrite Hspot in Hspot'. injection Hspot' as <-.
  apply claim_spot_ok in Hrun
    as (_ & Hid & _ & _ & _ & _ & _ & Hsecs & Hspots & Hrow & _).
  assert (parking_spot db' !! sid = Some (set_spot_status "reserved" spot)) as Hspot'.
  { rewrite Hspots. unfold spot_update. rewrite update_lookup, Hspot. simpl.
    by rewrite Z.eqb_refl, Hst. }
  exists (ParkingViews.spot_status_row db' userId
            (sid, set_spot_status "reserved" spot)).
  split.
  { unfold ParkingViews.spots_status.
    rewrite merge_sort_Permutation, list_elem_of_fmap.
    exists (sid, set_spot_status "reserved" spot). split; [done|].
    apply select_elem. split; [done|]. unfold ParkingViews.spot_in_area. simpl.
    by rewrite Hsecs, Hpsec, Z.eqb_refl. }
  do 3 (split; [done|]). simpl. unfold ParkingViews.spot_user_booked.
  destruct (SQL.select _ (reservations db')) as [|x l] eqn:Hnone; [|done].
  exfalso. rewrite select_nil in Hnone. specialize (Hnone _ _ Hrow).
  simpl in Hnone. by rewrite !Z.eqb_refl in Hnone.
Qed.

Lemma spots_status_after_book_witness :
  ∃ row,
    row ∈ ParkingViews.spots_status Sample.car_booked_db 5 1 ∧
    ParkingViews.ss_id row = 100 ∧
    ParkingViews.ss_status row = "reserved" ∧
    ParkingViews.ss_is_user_booked row = 1.
Proof.
  destruct (Parking.book Sample.toDataURL Sample.car_db (Some 51) (Some 100) (Some 1) 5
              Sample.token1 1000) as [[d|] db'] eqn:Hrun;
    [|vm_compute in Hrun; discriminate].
  assert (Sample.car_booked_db = db') as ->
    by (unfold Sample.car_booked_db; by rewrite Hrun).
  destruct (spots_status_after_book _ _ _ _ _ _ _ _ _ _
              (Sample.vehicle_of Sample.car_db 51) (Sample.spot_of Sample.car_db 100)
              (Sample.section_of Sample.car_db 20) Hrun
              ltac:(vm_compute; reflexivity) ltac:(vm_compute; discriminate)
              ltac:(vm_compute; reflexivity) ltac:(vm_compute; reflexivity))
    as (row & Hin & Hid & _ & Hst & Hmine).
  exists row. by repeat split.
Defined.

(** ** The current booking *)

Lemma NoDup_List_filter {A} (f : A → bool) (l : list A) :
  NoDup l → NoDup (List.filter f l).
Proof.
  induction 1 as [|x l Hx _ IH]; simpl; [constructor|].
  destruct (f x); [|done]. constructor; [|done].
  intros Hin. apply Hx. apply list_elem_of_In in Hin.
  apply List.filter_In in Hin as [Hin _]. by apply list_elem_of_In.
Qed.

Lemma select_unique {A} (P : Z → A → bool) (t : gmap Z A) k r :
  t !! k = Some r → P k r = true →
  (∀ k' r', t !! k' = Some r' → P k' r' = true → k' = k) →
  SQL.select P t = [(k, r)].
Proof.
  intros Hk HP Huniq.
  assert (NoDup (SQL.select P t)) as Hnd.
  { unfold SQL.select. apply NoDup_List_filter, NoDup_map_to_list. }
  assert (∀ x, x ∈ SQL.select P t → x = (k, r)) as Hall.
  { intros [k' r'] Hin. apply select_elem in Hin as [Hk' HP'].
    pose proof (Huniq _ _ Hk' HP') as ->. congruence. }
  assert ((k, r) ∈ SQL.select P t) as Hin by by apply select_elem.
  destruct (SQL.select P t) as [|a [|b l]].
  - by apply elem_of_nil in Hin.
  - f_equal. apply Hall. left.
  - exfalso. assert (a = b) as ->.
    { rewrite (Hall a), (Hall b); [done| |]; [right; left|left]. }
    apply NoDup_cons in Hnd as [Hnotin _]. apply Hnotin. left.
Qed.

Lemma current_reservations_single db userId k r :
  reservations db !! k = Some r →
  r_user_id r = userId →
  live (r_booking_status r) = true →
  is_Some (ParkingViews.vehicle_of_reservation db r) →
  (∀ k' r', reservations db !! k' = Some r' → k' ≠ k →
            r_user_id r' = userId → live (r_booking_status r') = false) →
  ParkingViews.current_reservations db userId = [(k, r)].
Proof.
  intros Hk Hu Hlive Hveh Hothers. unfold ParkingViews.current_reservations.
  rewrite (select_unique _ _ k r Hk).
  - apply Permutation_singleton_r, merge_sort_Permutation.
  - rewrite Hu, Z.eqb_refl, Hlive. simpl. by apply bool_decide_eq_true_2.
  - intros k' r' Hk' HP. destruct (decide (k' = k)) as [|Hne]; [done|].
    exfalso. apply andb_true_iff in HP as [HP _].
    apply andb_true_iff in HP as [Hu' Hlive']. apply Z.eqb_eq in Hu'.
    by rewrite (Hothers _ _ Hk' Hne Hu') in Hlive'.
Qed.

(** X19: a user without a live reservation who books a discrete spot
    through POST /book gets exactly that booking back from
    GET /current-booking: the returned reservation id, status reserved,
    the spot number, and the token and QR image of the booking. The spot
    id must not also be the id of a section, and the spot's section and
    area rows must exist. *)
Theorem current_booking_after_book toDataURL db vid sid areaId userId qrKey now d db'
    vehicle spot psec pa :
  Parking.book toDataURL db (Some vid) (Some sid) areaId userId qrKey now = (Ok d, db') →
  vehicles db !! vid = Some vehicle →
  JS.toLowerCase (v_vehicle_type vehicle) ≠ "motorcycle" →
  (∀ k r, reservations db !! k = Some r → r_user_id r = userId →
          live (r_booking_status r) = false) →
  parking_section db !! sid = None →
  parking_spot db !! sid = Some spot →
  parking_section db !! ps_parking_section_id spot = Some psec →
  parking_area db !! psec_parking_area_id psec = Some pa →
  ∃ b,
    ParkingViews.current_booking db' userId = Some b ∧
    ParkingViews.cb_reservationId b = bk_reservationId d ∧
    ParkingViews.cb_bookingStatus b = "reserved" ∧
    ParkingViews.cb_spot_number b = ps_spot_number spot ∧
    ParkingViews.cb_qr_key b = Some qrKey ∧
    ParkingViews.cb_qr_code b = bk_qrCode d.
Proof.
  intros Hrun Hveh Hmoto Hnone Hnosec Hspot Hpsec Hpa. apply book_ok_inv in Hrun
    as (vid' & sid' & aid & vehicle' & [= <-] & [= <-] & -> & Hveh' & _ & Hpath).
  rewrite Hveh in Hveh'. injection Hveh' as <-.
  destruct Hpath as [[Hmoto' _]|(_ & _ & spot' & Hspot' & Hst & Hrun)]; [done|].
  rewrite Hspot in Hspot'. injection Hspot' as <-.
  apply claim_spot_ok in Hrun
    as (_ & Hid & _ & Hqr & _ & Hvehs & Hareas & Hsecs & Hspots & Hrow & Hothers).
  set (row := spot_reservation toDataURL db vid sid userId qrKey now) in Hrow.
  assert (ParkingViews.vehicle_of_reservation db' row = Some vehicle) as Hvrow.
  { unfold ParkingViews.vehicle_of_reservation. simpl. by rewrite Hvehs. }
  assert (ParkingViews.current_reservations db' userId
          = [(next_reservation_id db, row)]) as Hcur.
  { apply current_reservations_single.
    - exact Hrow.
    - reflexivity.
    - reflexivity.
    - by rewrite Hvrow.
    - intros k' r' Hk' Hne Hu. rewrite (Hothers _ Hne) in Hk'. eauto. }
  assert (parking_spot db' !! sid = Some (set_spot_status "reserved" spot)) as Hspot'.
  { rewrite Hspots. unfold spot_update. rewrite update_lookup, Hspot. simpl.
    by rewrite Z.eqb_refl, Hst. }
  unfold ParkingViews.current_booking. rewrite Hcur. cbv beta iota.
  rewrite Hvrow. simpl.
  rewrite Hsecs, Hnosec, Hspot'. simpl. rewrite Hpsec. simpl.
  rewrite Hareas, Hpa. simpl.
  eexists. split; [reflexivity|]. simpl. by rewrite Hid, Hqr.
Qed.

Lemma current_booking_after_book_witness :
  ∃ b,
    ParkingViews.current_booking Sample.car_booked_db 5 = Some b ∧
    ParkingViews.cb_reservationId b = 1 ∧
    ParkingViews.cb_qr_key b = Some Sample.token1.
Proof.
  destruct (Parking.book Sample.toDataURL Sample.car_db (Some 51) (Some 100) (Some 1) 5
              Sample.token1 1000) as [[d|] db'] eqn:Hrun;
    [|vm_compute in Hrun; discriminate].
  assert (Sample.car_booked_db = db') as ->
    by (unfold Sample.car_booked_db; by rewrite Hrun).
  destruct (current_booking_after_book _ _ _ _ _ _ _ _ _ _
              (Sample.vehicle_of Sample.car_db 51) (Sample.spot_of Sample.car_db 100)
              (Sample.section_of Sample.car_db 20)
              {| pa_parking_area_name := Some "Main"; pa_location := Some "Campus" |}
              Hrun
              ltac:(vm_compute; reflexivity) ltac:(vm_compute; discriminate))
    as (b & Hb & Hid & _ & _ & Hkey & _).
  - intros k r Hk. exfalso. revert Hk.
    change ((∅ : gmap Z Reservation) !! k = Some r → False).
    by rewrite lookup_empty.
  - vm_compute. reflexivity.
  - vm_compute. reflexivity.
  - vm_compute. reflexivity.
  - vm_compute. reflexivity.
  - exists b. split; [exact Hb|]. split; [|exact Hkey].
    rewrite Hid. vm_compute in Hrun. by injection Hrun as <- _.
Defined.

(** X20: a motorcycle booking made through POST /book is stored under
    the dummy parking_spots_id 0, so GET /current-booking, which resolves
    the booking through parking_spots_id, finds neither a section nor a
    spot for it and answers booking: null (no section and no spot has
    id 0, and the user holds no other live reservation). *)
Theorem current_booking_after_motorcycle_book toDataURL db vid sid areaId userId qrKey
    now d db' vehicle :
  Parking.book toDataURL db (Some vid) (Some sid) areaId userId qrKey now = (Ok d, db') →
  vehicles db !! vid = Some vehicle →
  JS.toLowerCase (v_vehicle_type vehicle) = "motorcycle" →
  (∀ k r, reservations db !! k = Some r → r_user_id r = userId →
          live (r_booking_status r) = false) →
  parking_section db !! 0 = None →
  parking_spot db !! 0 = None →
  (r_booking_status <$> reservations db' !! bk_reservationId d) = Some reserved
  ∧ ParkingViews.current_booking db' userId = None.
Proof.
  intros Hrun Hveh Hmoto Hnone Hnosec Hnospot.
  assert (sid ≠ 0) as Hsid.
  { intros ->. unfold Parking.book in Hrun. simpl in Hrun.
    rewrite orb_true_r in Hrun. discriminate. }
  apply book_ok_inv in Hrun
    as (vid' & sid' & aid & vehicle' & [= <-] & [= <-] & -> & Hveh' & _ & Hpath).
  rewrite Hveh in Hveh'. injection Hveh' as <-.
  destruct Hpath as [[_ Hrun]|(Hmoto' & _)]; [|done].
  destruct (bookMotorcycleSection_frame _ _ _ _ _ _ _ _ _ _ Hrun)
    as (_ & Hsecs & Hothers).
  apply bookMotorcycleSection_ok in Hrun
    as (ps & _ & _ & Hid & _ & _ & _ & Hvehs & _ & Hspots & _ & Hrow).
  set (row := section_reservation toDataURL ps vid sid userId qrKey now) in Hrow.
  rewrite Hid, Hrow. split; [done|].
  assert (ParkingViews.vehicle_of_reservation db' row = Some vehicle) as Hvrow.
  { unfold ParkingViews.vehicle_of_reservation. simpl. by rewrite Hvehs. }
  assert (ParkingViews.current_reservations db' userId
          = [(next_reservation_id db, row)]) as Hcur.
  { apply current_reservations_single.
    - exact Hrow.
    - reflexivity.
    - reflexivity.
    - by rewrite Hvrow.
    - intros k' r' Hk' Hne Hu. rewrite (Hothers _ Hne) in Hk'. eauto. }
  unfold ParkingViews.current_booking. rewrite Hcur. cbv beta iota.
  rewrite Hvrow. simpl.
  rewrite (Hsecs 0) by done. by rewrite Hnosec, Hspots, Hnospot.
Qed.

Lemma current_booking_after_motorcycle_book_witness :
  ParkingViews.current_booking Sample.moto_booked_db 5 = None.
Proof.
  destruct (Parking.book Sample.toDataURL Sample.base_db (Some 50) (Some 7) (Some 1) 5
              "3f2b8c1e-0d4a-4e7b-9c61-5a1f0e6d2b77" 1000) as [[d|] db'] eqn:Hrun;
    [|vm_compute in Hrun; discriminate].
  assert (Sample.moto_booked_db = db') as ->
    by (unfold Sample.moto_booked_db; by rewrite Hrun).
  apply (current_booking_after_motorcycle_book _ _ _ _ _ _ _ _ _ _
           (Sample.vehicle_of Sample.base_db 50) Hrun).
  - vm_compute. reflexivity.
  - reflexivity.
  - intros k r Hk. exfalso. revert Hk.
    change ((∅ : gmap Z Reservation) !! k = Some r → False).
    by rewrite lookup_empty.
  - vm_compute. reflexivity.
  - reflexivity.
Defined.

(** ** Deleting a history record *)

Lemma delete_where_lookup {A} (P : Z → A → bool) (t : gmap Z A) k :
  (History.delete_where P t).1 !! k
  = t !! k ≫= λ r, if P k r then None else Some r.
Proof.
  unfold History.delete_where; simpl. rewrite map_lookup_filter.
  destruct (t !! k) as [r|]; [|done]. simpl.
  destruct (P k r).
  - by rewrite option_guard_False.
  - by rewrite option_guard_True.
Qed.

Lemma delete_where_affected_pos {A} (P : Z → A → bool) (t : gmap Z A) k r :
  t !! k = Some r → P k r = true → (History.delete_where P t).2 ≠ 0%nat.
Proof.
  intros Hk HP. unfold History.delete_where; simpl.
  rewrite map_size_non_empty_iff. intros Hempty.
  assert (filter (λ kr : Z * A, P kr.1 kr.2 = true) t !! k = Some r) as Hin
    by by apply map_lookup_filter_Some.
  by rewrite Hempty, lookup_empty in Hin.
Qed.

(** X21: DELETE /parking/:reservationId succeeds exactly when the
    reservation exists and belongs to the caller, whatever its booking
    status; it then removes that one row and nothing else: every other
    reservation, every spot status and every section counter stay as
    they were (a spot held by the deleted reservation is not freed).
    Every failure leaves the database unchanged. *)
Theorem delete_parking_removes_only_own_record db reservationId userId reply db' :
  History.delete_parking db reservationId userId = (reply, db') →
  (is_ok reply = true ↔
     ∃ r, reservations db !! reservationId = Some r ∧ r_user_id r = userId) ∧
  (is_ok reply = true →
     reservations db' !! reservationId = None ∧
     (∀ k, k ≠ reservationId → reservations db' !! k = reservations db !! k) ∧
     parking_spot db' = parking_spot db ∧
     parking_section db' = parking_section db ∧
     users db' = users db ∧ vehicles db' = vehicles db) ∧
  (is_ok reply = false → db' = db).
Proof.
  unfold History.delete_parking.
  destruct (reservations db !! reservationId) as [r|] eqn:Hr.
  2: { intros [= <- <-]. simpl. split; [|done].
       split; [done|]. by intros (r & ? & _). }
  destruct (r_user_id r =? userId) eqn:Hu; cbn [negb].
  2: { intros [= <- <-]. simpl. split; [|done].
       split; [done|]. intros (r' & [= <-] & Hown).
       apply Z.eqb_neq in Hu. done. }
  apply Z.eqb_eq in Hu.
  pose proof (delete_where_affected_pos
                (λ k r, (k =? reservationId) && (r_user_id r =? userId))
                (reservations db) reservationId r Hr) as Hpos.
  pose proof (delete_where_lookup
                (λ k r, (k =? reservationId) && (r_user_id r =? userId))
                (reservations db)) as Hlook.
  destruct (History.delete_where _ (reservations db)) as [t n].
  simpl in Hpos, Hlook.
  destruct (decide (n = 0%nat)) as [->|_].
  { exfalso. apply Hpos; [|done]. by rewrite Z.eqb_refl, Hu, Z.eqb_refl. }
  intros [= <- <-]. simpl. split; [|split; [|done]].
  - split; [eauto|done].
  - intros _. split; [|split; [|done]].
    + rewrite Hlook, Hr. simpl. by rewrite Z.eqb_refl, Hu, Z.eqb_refl.
    + intros k Hne. rewrite Hlook. destruct (reservations db !! k); [|done].
      simpl. by rewrite (proj2 (Z.eqb_neq _ _) Hne).
Qed.

Lemma delete_parking_removes_only_own_record_witness :
  reservations (History.delete_parking Sample.car_booked_db 1 5).2 !! 1 = None ∧
  (ps_status <$> parking_spot (History.delete_parking Sample.car_booked_db 1 5).2 !! 100)
  = Some "reserved" ∧
  (History.delete_parking Sample.car_booked_db 1 6).2 = Sample.car_booked_db.
Proof.
  destruct (History.delete_parking Sample.car_booked_db 1 5) as [reply db'] eqn:Hrun.
  destruct (History.delete_parking Sample.car_booked_db 1 6) as [reply2 db2] eqn:Hrun2.
  destruct (delete_parking_removes_only_own_record _ _ _ _ _ Hrun)
    as (_ & Hok & _).
  destruct (delete_parking_removes_only_own_record _ _ _ _ _ Hrun2)
    as (_ & _ & Hfail).
  assert (is_ok reply = true) as H1.
  { change reply with (reply, db').1. rewrite <- Hrun. vm_compute. reflexivity. }
  assert (is_ok reply2 = false) as H2.
  { change reply2 with (reply2, db2).1. rewrite <- Hrun2. vm_compute. reflexivity. }
  destruct (Hok H1) as (Hgone & _ & Hspots & _). simpl.
  split; [exact Hgone|]. split; [|exact (Hfail H2)].
  rewrite Hspots. vm_compute. reflexivity.
Defined.

(** ** The status of a section *)

Lemma size_filter_key {A} (Q : A → Prop) `{!∀ x, Decision (Q x)} (t : gmap Z A) key r :
  t !! key = Some r →
  size (filter (λ kr : Z * A, kr.1 = key ∧ Q kr.2) t)
  = if decide (Q r) then 1%nat else 0%nat.
Proof.
  intros Hk. destruct (decide (Q r)) as [HQ|HQ].
  - assert (filter (λ kr : Z * A, kr.1 = key ∧ Q kr.2) t = {[ key := r ]}) as ->.
    { apply map_eq. intros k. destruct (decide (k = key)) as [->|Hne].
      - rewrite lookup_singleton_eq. by apply map_lookup_filter_Some.
      - rewrite lookup_singleton_ne by done. apply map_lookup_filter_None.
        right. intros x _ [Heq _]. done. }
    apply map_size_singleton.
  - assert (filter (λ kr : Z * A, kr.1 = key ∧ Q kr.2) t = ∅) as ->.
    { apply map_eq. intros k. rewrite lookup_empty. apply map_lookup_filter_None.
      right. intros x Hx [Heq HQx]. simpl in Heq, HQx. subst k.
      rewrite Hk in Hx. injection Hx as <-. done. }
    apply map_size_empty.
Qed.

Lemma update_key_matched {A} (f : A → A) (t : gmap Z A) key r :
  t !! key = Some r → (SQL.update (λ k _, k =? key) f t).2 = 1%nat.
Proof.
  intros Hk. unfold SQL.update. simpl.
  assert (filter (λ kr : Z * A, (kr.1 =? key) = true) t = {[ key := r ]}) as ->.
  { apply map_eq. intros k. destruct (decide (k = key)) as [->|Hne].
    - rewrite lookup_singleton_eq. apply map_lookup_filter_Some.
      split; [done|]. apply Z.eqb_refl.
    - rewrite lookup_singleton_ne by done. apply map_lookup_filter_None.
      right. intros x _ Heq. simpl in Heq. by apply Z.eqb_eq in Heq. }
  apply map_size_singleton.
Qed.

Lemma changed_rows_key sectionId st t ps :
  t !! sectionId = Some ps →
  SectionAdmin.changed_rows sectionId st t
  = if decide (psec_status ps = Some st) then 0%nat else 1%nat.
Proof.
  intros Hps. unfold SectionAdmin.changed_rows.
  etrans; [exact (size_filter_key (λ s, psec_status s ≠ Some st) t sectionId ps Hps)|].
  destruct (decide (psec_status ps = Some st)) as [Heq|Hne].
  - by rewrite decide_False by (intros H; by apply H).
  - by rewrite decide_True.
Qed.

Lemma set_section_status_same st ps :
  psec_status ps = Some st → SectionAdmin.set_section_status st ps = ps.
Proof. intros Hst. destruct ps. simpl in *. by rewrite Hst. Qed.

(** The handler past its checks: what it reads from the driver decides
    between the 500 and the success, the write is made either way. *)
Lemma update_section_status_run affected db sectionId st ps :
  st ∈ SectionAdmin.validStatuses →
  parking_section db !! sectionId = Some ps →
  SectionAdmin.update_section_status affected db sectionId (Some st)
  = (if decide (affected 1%nat (if decide (psec_status ps = Some st)
                                then 0%nat else 1%nat) = 0%nat)
     then Fail 500 "Failed to update section status" None []
     else Ok ("Section status updated to " +:+ st),
     update_section sectionId (SectionAdmin.set_section_status st) db).
Proof.
  intros Hvalid Hps. unfold SectionAdmin.update_section_status.
  assert (JS.falsy_str (Some st) = false) as ->.
  { destruct st; [|done]. exfalso.
    repeat (apply elem_of_cons in Hvalid as [Hvalid|Hvalid]; [discriminate|]).
    by apply elem_of_nil in Hvalid. }
  cbn [default from_option id].
  rewrite (bool_decide_eq_true_2 _ Hvalid). cbn [negb]. rewrite Hps.
  rewrite (changed_rows_key _ _ _ _ Hps).
  pose proof (update_key_matched (SectionAdmin.set_section_status st)
                (parking_section db) sectionId ps Hps) as Hmatched.
  unfold update_section.
  destruct (SQL.update _ _ (parking_section db)) as [t n]. simpl in Hmatched.
  subst n. simpl. by destruct (decide _).
Qed.

Lemma update_section_same db sectionId st ps :
  parking_section db !! sectionId = Some ps →
  psec_status ps = Some st →
  update_section sectionId (SectionAdmin.set_section_status st) db = db.
Proof.
  intros Hps Hst. unfold update_section.
  assert ((SQL.update (λ k _, k =? sectionId) (SectionAdmin.set_section_status st)
             (parking_section db)).1 = parking_section db) as ->.
  { apply map_eq. intros k. rewrite update_lookup.
    destruct (parking_section db !! k) as [r|] eqn:Hk; [|done]. simpl.
    destruct (Z.eqb_spec k sectionId) as [->|]; [|done].
    rewrite Hps in Hk. injection Hk as <-. by rewrite set_section_status_same. }
  by destruct db.
Qed.

(** How the handler can fail before its UPDATE. *)
Lemma update_section_status_refused affected db sectionId status :
  (∀ st, status = Some st → st ∈ SectionAdmin.validStatuses →
         parking_section db !! sectionId = None) →
  ∃ http message,
    SectionAdmin.update_section_status affected db sectionId status
    = (Fail http message None [], db) ∧ (http = 400 ∨ http = 404).
Proof.
  intros Hnot. unfold SectionAdmin.update_section_status.
  destruct (JS.falsy_str status) eqn:Hfalsy; [eauto|].
  destruct status as [st|]; [|discriminate]. cbn [default from_option id].
  destruct (bool_decide (st ∈ SectionAdmin.validStatuses)) eqn:Hvalid;
    cbn [negb]; [|eauto].
  apply bool_decide_eq_true in Hvalid.
  rewrite (Hnot st eq_refl Hvalid). eauto.
Qed.

Lemma update_section_status_ok affected db sectionId st msg db' :
  SectionAdmin.update_section_status affected db sectionId (Some st) = (Ok msg, db') →
  ∃ ps, parking_section db !! sectionId = Some ps ∧
        parking_section db' !! sectionId
        = Some (SectionAdmin.set_section_status st ps) ∧
        st ∈ SectionAdmin.validStatuses.
Proof.
  intros Hrun.
  destruct (decide (st ∈ SectionAdmin.validStatuses)) as [Hvalid|Hinvalid].
  2: { destruct (update_section_status_refused affected db sectionId (Some st))
         as (http & message & Hrun' & _); [by intros st' [= <-] Hin|].
       rewrite Hrun' in Hrun. discriminate. }
  destruct (parking_section db !! sectionId) as [ps|] eqn:Hps.
  2: { destruct (update_section_status_refused affected db sectionId (Some st))
         as (http & message & Hrun' & _); [by intros st' [= <-] _|].
       rewrite Hrun' in Hrun. discriminate. }
  rewrite (update_section_status_run _ _ _ _ _ Hvalid Hps) in Hrun.
  destruct (decide (affected 1%nat _ = 0%nat)); [discriminate|].
  injection Hrun as _ <-. exists ps. split; [done|]. split; [|done].
  unfold update_section. cbn [parking_section with_sections].
  by rewrite update_key_eq, Hps.
Qed.

(** X22: PUT /sections/:sectionId/status answers success exactly when
    the status is one of available, unavailable, maintenance, the section
    exists, and the driver reports the UPDATE as having affected a row
    (one row matched; it changed unless the section already stored the
    status). A success has written the status of that section only: its
    counters, capacity, mode and area, every other section, and all
    reservations, spots and vehicles are unchanged. A failing reply
    leaves the database unchanged, except the 500 answered when the
    driver reports no affected row although the status changed: the
    handler has no transaction, and the write stays. *)
Theorem update_section_status_writes_status_only affected db sectionId status
    reply db' :
  SectionAdmin.update_section_status affected db sectionId status = (reply, db') →
  (is_ok reply = true ↔
     ∃ st ps, status = Some st ∧ st ∈ SectionAdmin.validStatuses ∧
              parking_section db !! sectionId = Some ps ∧
              affected 1%nat (if decide (psec_status ps = Some st)
                              then 0%nat else 1%nat) ≠ 0%nat) ∧
  (is_ok reply = true →
     ∃ st ps,
       status = Some st ∧ parking_section db !! sectionId = Some ps ∧
       parking_section db' !! sectionId = Some (SectionAdmin.set_section_status st ps) ∧
       (∀ k, k ≠ sectionId → parking_section db' !! k = parking_section db !! k) ∧
       reservations db' = reservations db ∧
       parking_spot db' = parking_spot db ∧
       vehicles db' = vehicles db) ∧
  (is_ok reply = false →
     db' = db
     ∨ (reply = Fail 500 "Failed to update section status" None [] ∧
        ∃ st ps, status = Some st ∧ parking_section db !! sectionId = Some ps ∧
                 psec_status ps ≠ Some st ∧
                 parking_section db' !! sectionId
                 = Some (SectionAdmin.set_section_status st ps))).
Proof.
  intros Hrun.
  destruct status as [st|].
  2: { destruct (update_section_status_refused affected db sectionId None)
         as (http & message & Hrun' & _); [discriminate|].
       rewrite Hrun' in Hrun. injection Hrun as <- <-.
       split; [|split; [done|by left]].
       split; [done|]. by intros (st & ps & ? & _). }
  destruct (decide (st ∈ SectionAdmin.validStatuses)) as [Hvalid|Hinvalid].
  2: { destruct (update_section_status_refused affected db sectionId (Some st))
         as (http & message & Hrun' & _); [by intros st' [= <-] Hin|].
       rewrite Hrun' in Hrun. injection Hrun as <- <-.
       split; [|split; [done|by left]].
       split; [done|]. by intros (st' & ps & [= <-] & Hin & _). }
  destruct (parking_section db !! sectionId) as [ps|] eqn:Hps.
  2: { destruct (update_section_status_refused affected db sectionId (Some st))
         as (http & message & Hrun' & _); [done|].
       rewrite Hrun' in Hrun. injection Hrun as <- <-.
       split; [|split; [done|by left]].
       split; [done|]. by intros (st' & ps & _ & _ & ? & _). }
  rewrite (update_section_status_run _ _ _ _ _ Hvalid Hps) in Hrun.
  assert (parking_section
            (update_section sectionId (SectionAdmin.set_section_status st) db)
            !! sectionId = Some (SectionAdmin.set_section_status st ps)) as Hwritten.
  { unfold update_section. cbn [parking_section with_sections].
    by rewrite update_key_eq, Hps. }
  destruct (decide (affected 1%nat _ = 0%nat)) as [Hzero|Hpos];
    injection Hrun as <- <-; cbn [is_ok].
  - split; [|split; [done|]].
    + split; [done|]. intros (st' & ps' & [= <-] & _ & [= <-] & Hpos). done.
    + intros _. destruct (decide (psec_status ps = Some st)) as [Hsame|Hdiff].
      * left. by apply (update_section_same _ _ _ ps).
      * right. split; [done|]. exists st, ps. done.
  - split; [|split; [|done]].
    + split; [|done]. intros _. exists st, ps. done.
    + intros _. exists st, ps. split; [done|]. split; [done|]. split; [done|].
      split; [|done]. intros k Hne. unfold update_section.
      cbn [parking_section with_sections]. by rewrite update_key_ne.
Qed.

Lemma update_section_status_writes_status_only_witness :
  (psec_status <$>
     parking_section
       (SectionAdmin.update_section_status Sample.changed_only Sample.base_db 7
          (Some "maintenance")).2 !! 7)
  = Some (Some "maintenance") ∧
  (SectionAdmin.update_section_status Sample.found_rows Sample.base_db 7
     (Some "closed")).2 = Sample.base_db ∧
  (SectionAdmin.update_section_status Sample.changed_only Sample.base_db 7
     (Some "available")).2 = Sample.base_db.
Proof.
  destruct (SectionAdmin.update_section_status Sample.changed_only Sample.base_db 7
              (Some "maintenance")) as [reply db'] eqn:Hrun.
  destruct (SectionAdmin.update_section_status Sample.found_rows Sample.base_db 7
              (Some "closed")) as [reply2 db2] eqn:Hrun2.
  destruct (SectionAdmin.update_section_status Sample.changed_only Sample.base_db 7
              (Some "available")) as [reply3 db3] eqn:Hrun3.
  destruct (update_section_status_writes_status_only _ _ _ _ _ _ Hrun)
    as (_ & Hok & _).
  destruct (update_section_status_writes_status_only _ _ _ _ _ _ Hrun2)
    as (Hiff2 & _ & Hfail2).
  destruct (update_section_status_writes_status_only _ _ _ _ _ _ Hrun3)
    as (Hiff3 & _ & Hfail3).
  assert (is_ok reply = true) as H1.
  { change reply with (reply, db').1. rewrite <- Hrun. vm_compute. reflexivity. }
  assert (is_ok reply2 = false) as H2.
  { change reply2 with (reply2, db2).1. rewrite <- Hrun2. vm_compute. reflexivity. }
  assert (match reply2 with Fail h _ _ _ => h | Ok _ => 0 end = 400) as Hhttp.
  { change reply2 with (reply2, db2).1. rewrite <- Hrun2. vm_compute. reflexivity. }
  assert (is_ok reply3 = false) as H3.
  { apply not_true_is_false. intros Hok3.
    apply Hiff3 in Hok3 as (st & ps & [= <-] & _ & Hps & Hread).
    vm_compute in Hps. injection Hps as <-. by apply Hread. }
  destruct (Hok H1) as (st & ps & [= <-] & _ & Hrow & _). simpl.
  split; [by rewrite Hrow|]. split.
  - destruct (Hfail2 H2) as [Heq|(Hr & _)]; [done|].
    rewrite Hr in Hhttp. discriminate.
  - destruct (Hfail3 H3) as [Heq|(_ & st & ps' & [= <-] & Hps & Hdiff & _)]; [done|].
    exfalso. vm_compute in Hps. injection Hps as <-. by apply Hdiff.
Defined.

(** X23: once PUT /sections/:sectionId/status has set a section to
    unavailable, bookMotorcycleSection refuses every booking of it with
    errorCode SECTION_NOT_AVAILABLE and changes nothing, and
    GET /areas/:areaId/spots lists it for no area and no includeAll. *)
Theorem unavailable_section_is_closed toDataURL affected db sectionId msg db1 :
  SectionAdmin.update_section_status affected db sectionId (Some "unavailable")
  = (Ok msg, db1) →
  (∀ areaId vehicleId userId qrKey now,
     Parking.bookMotorcycleSection toDataURL db1 areaId sectionId vehicleId userId
       qrKey now
     = (Fail 400 "Recommended section is no longer available or is full/unavailable"
             (Some "SECTION_NOT_AVAILABLE") [], db1)) ∧
  (∀ areaId includeAll row,
     row ∈ ParkingViews.spots db1 areaId (Some "motorcycle") includeAll →
     ParkingViews.sr_id row ≠ sectionId).
Proof.
  intros Hrun. apply update_section_status_ok in Hrun as (ps & _ & Hps1 & _). split.
  - intros areaId vehicleId userId qrKey now.
    unfold Parking.bookMotorcycleSection, SQL.select_by_key. rewrite Hps1.
    cbn [SectionAdmin.set_section_status psec_status SQL.neS String.eqb
         Ascii.eqb Bool.eqb negb].
    by rewrite !andb_false_r.
  - intros areaId includeAll row Hin Hid.
    apply spots_motorcycle_elem in Hin as (k & ps' & Hk & Hlisted & ->).
    simpl in Hid. subst k. rewrite Hps1 in Hk. injection Hk as <-.
    unfold ParkingViews.section_listed in Hlisted.
    apply andb_true_iff in Hlisted as [Hlisted _].
    apply andb_true_iff in Hlisted as [_ Hst]. done.
Qed.

Lemma unavailable_section_is_closed_witness :
  is_ok (Parking.bookMotorcycleSection Sample.toDataURL
           (SectionAdmin.update_section_status Sample.changed_only Sample.base_db 7
              (Some "unavailable")).2
           1 7 50 5 "3f2b8c1e-0d4a-4e7b-9c61-5a1f0e6d2b77" 1000).1 = false.
Proof.
  destruct (SectionAdmin.update_section_status Sample.changed_only Sample.base_db 7
              (Some "unavailable"))
    as [[msg|] db1] eqn:Hrun; [|vm_compute in Hrun; discriminate].
  destruct (unavailable_section_is_closed Sample.toDataURL _ _ _ _ _ Hrun) as [Hbook _].
  simpl. by rewrite Hbook.
Defined.

(** X24: only unavailable closes a section. After
    PUT /sections/:sectionId/status has set a motorcycle capacity section
    with free capacity to available or to maintenance,
    bookMotorcycleSection accepts a booking of it in its area and
    GET /areas/:areaId/spots lists it as available. *)
Theorem maintenance_section_stays_bookable toDataURL affected db sectionId st msg db1
    ps vehicleId userId qrKey now includeAll :
  SectionAdmin.update_section_status affected db sectionId (Some st) = (Ok msg, db1) →
  st ≠ "unavailable" →
  parking_section db !! sectionId = Some ps →
  psec_vehicle_type ps = "motorcycle" →
  psec_section_mode ps = "capacity_only" →
  SQL.gt0 (ParkingViews.free_capacity ps) = true →
  is_ok (Parking.bookMotorcycleSection toDataURL db1 (psec_parking_area_id ps) sectionId
           vehicleId userId qrKey now).1 = true ∧
  ∃ row,
    row ∈ ParkingViews.spots db1 (psec_parking_area_id ps) (Some "motorcycle") includeAll ∧
    ParkingViews.sr_id row = sectionId ∧
    ParkingViews.sr_status row = "available".
Proof.
  intros Hrun Hst Hps Htype Hmode Hfree.
  apply update_section_status_ok in Hrun as (ps' & Hps' & Hps1 & _).
  rewrite Hps in Hps'. injection Hps' as <-.
  assert (SQL.neS (Some st) "unavailable" = true) as Hne.
  { simpl. apply negb_true_iff, String.eqb_neq. done. }
  split.
  - unfold Parking.bookMotorcycleSection, SQL.select_by_key. rewrite Hps1.
    cbn [SectionAdmin.set_section_status psec_status psec_parking_area_id
         psec_vehicle_type psec_section_mode psec_capacity psec_parked_count
         psec_reserved_count].
    unfold ParkingViews.free_capacity in Hfree.
    rewrite Z.eqb_refl, Htype, Hmode, Hfree, Hne. reflexivity.
  - exists (ParkingViews.section_row (sectionId, SectionAdmin.set_section_status st ps)).
    split; [|split].
    + apply spots_motorcycle_elem. eexists _, _. split; [exact Hps1|].
      split; [|done]. unfold ParkingViews.section_listed.
      change (ParkingViews.free_capacity (SectionAdmin.set_section_status st ps))
        with (ParkingViews.free_capacity ps).
      cbn [SectionAdmin.set_section_status psec_status psec_parking_area_id
           psec_vehicle_type psec_section_mode].
      rewrite Z.eqb_refl, Htype, Hmode, Hfree, Hne.
      by destruct (ParkingViews.only_available includeAll).
    + done.
    + unfold ParkingViews.section_row. cbn [ParkingViews.sr_status snd].
      change (ParkingViews.free_capacity (SectionAdmin.set_section_status st ps))
        with (ParkingViews.free_capacity ps).
      by rewrite Hfree.
Qed.

Lemma maintenance_section_stays_bookable_witness :
  is_ok (Parking.bookMotorcycleSection Sample.toDataURL
           (SectionAdmin.update_section_status Sample.changed_only Sample.base_db 7
              (Some "maintenance")).2
           1 7 50 5 "3f2b8c1e-0d4a-4e7b-9c61-5a1f0e6d2b77" 1000).1 = true.
Proof.
  destruct (SectionAdmin.update_section_status Sample.changed_only Sample.base_db 7
              (Some "maintenance"))
    as [[msg|] db1] eqn:Hrun; [|vm_compute in Hrun; discriminate].
  apply (maintenance_section_stays_bookable Sample.toDataURL _ _ _ _ _ _
           (Sample.section_of Sample.base_db 7) 50 5 _ 1000 None Hrun).
  - discriminate.
  - vm_compute. reflexivity.
  - reflexivity.
  - reflexivity.
  - reflexivity.
Defined.

(** ** Assigning a pseudo-spot *)

(** X25: a pseudo-spot taken through
    POST /sections/:sectionId/spots/:spotNumber/assign shows up in
    GET /sections/:sectionId/spots: when the label is the i-th label of
    the section, the caller sees the i-th virtual spot as reserved,
    booked by them, and occupied by the reservation of the reply. *)
Theorem assign_shows_in_get_spots toDataURL db sectionId spotNumber vehicleId userId
    qrKey now d db' ps i :
  Capacity.assign toDataURL db sectionId spotNumber vehicleId userId qrKey now
  = (Ok d, db') →
  parking_section db !! sectionId = Some ps →
  1 ≤ i ≤ JS.or0 (psec_capacity ps) →
  spotNumber = Capacity.spot_label (psec_section_name ps) i →
  ∃ data spot,
    Capacity.get_spots db' userId sectionId = Ok data ∧
    Capacity.sd_spots data !! Z.to_nat (i - 1) = Some spot ∧
    Capacity.vs_spotNumber spot = spotNumber ∧
    Capacity.vs_status spot = "reserved" ∧
    Capacity.vs_isUserBooked spot = true ∧
    (Capacity.oc_reservationId <$> Capacity.vs_reservation spot)
    = Some (bk_reservationId d).
Proof.
  intros Hrun Hps Hi Hlabel. apply assign_ok in Hrun
    as (ps' & vid & row & Hu & _ & Hps' & Htype & _ & Htaken & Hid & Hrow & Hown & _
        & Hzero & Hsid & Hnum & Hst & Hothers & Hsec' & _).
  rewrite Hps in Hps'. injection Hps' as <-.
  unfold Capacity.get_spots. rewrite (proj2 (Z.eqb_neq _ _) Hu).
  assert (motorcycle_section db' sectionId
          = Some (set_counts (λ c, SQL.add c (Some 1)) id ps)) as ->.
  { apply select_by_key_Some. split; [done|]. simpl. by rewrite Htype. }
  eexists _, _. split; [reflexivity|]. cbn [Capacity.sd_spots].
  unfold Capacity.virtualSpots. cbn [set_counts psec_capacity].
  split.
  { rewrite list_lookup_fmap, lookup_seqZ_lt by lia. simpl.
    replace (1 + Z.of_nat (Z.to_nat (i - 1))) with i by lia. reflexivity. }
  unfold Capacity.virtual_spot.
  cbn [Capacity.vs_spotNumber Capacity.vs_status Capacity.vs_isUserBooked
       Capacity.vs_reservation set_counts psec_section_name].
  rewrite <- Hlabel.
  set (rows := Capacity.reservations_query db' userId sectionId).
  assert (Capacity.section_live db' sectionId row = true) as Hlive.
  { unfold Capacity.section_live. rewrite Hsid, Hst, Hzero. simpl.
    by rewrite Z.eqb_refl. }
  destruct (Capacity.find_reservation rows spotNumber) as [lrow|] eqn:Hfind.
  2: { exfalso.
       apply (find_reservation_None rows spotNumber
                (Capacity.live_row db' userId (next_reservation_id db, row)) Hfind).
       - apply reservations_query_elem. eauto.
       - done. }
  apply find_reservation_Some in Hfind as [Hin Hlrow].
  apply reservations_query_elem in Hin as (k & r & Hk & Hlive' & ->).
  destruct (section_live_inv _ _ _ Hlive') as [Hrsec Hrst].
  simpl in Hlrow.
  assert (k = next_reservation_id db) as ->.
  { destruct (decide (k = next_reservation_id db)) as [|Hne]; [done|].
    rewrite (Hothers _ Hne) in Hk.
    by rewrite (Htaken _ _ Hk Hrsec Hlrow) in Hrst. }
  rewrite Hrow in Hk. injection Hk as <-.
  split; [done|]. simpl. rewrite Hst, Hown, Z.eqb_refl, Hid. by repeat split.
Qed.

Lemma assign_shows_in_get_spots_witness :
  ∃ d db' data spot,
    Capacity.assign Sample.toDataURL Sample.base_db 7 "A-2" (Some 50) 5
      "3f2b8c1e-0d4a-4e7b-9c61-5a1f0e6d2b77" 1000 = (Ok d, db') ∧
    Capacity.get_spots db' 5 7 = Ok data ∧
    Capacity.sd_spots data !! 1%nat = Some spot ∧
    Capacity.vs_status spot = "reserved".
Proof.
  destruct (Capacity.assign Sample.toDataURL Sample.base_db 7 "A-2" (Some 50) 5
              "3f2b8c1e-0d4a-4e7b-9c61-5a1f0e6d2b77" 1000) as [[d|] db'] eqn:Hrun;
    [|vm_compute in Hrun; discriminate].
  destruct (assign_shows_in_get_spots _ _ _ _ _ _ _ _ _ _
              (Sample.section_of Sample.base_db 7) 2 Hrun)
    as (data & spot & Hget & Hspot & _ & Hst & _).
  - vm_compute. reflexivity.
  - split; [lia|]. vm_compute. discriminate.
  - vm_compute. reflexivity.
  - exists d, db', data, spot. by repeat split.
Defined.

(** X26: a pseudo-spot taken through assign and then confirmed through
    POST /sections/:sectionId/confirm-parking is counted twice: assign
    already raised parked_count, and confirm-parking raises it again and
    lowers reserved_count, which assign never raised. The section ends at
    parked_count + 2 and reserved_count - 1. *)
Theorem assign_then_confirm_counts_twice toDataURL db sectionId spotNumber vehicleId
    userId qrKey now d db1 ps parked reserved_ now' :
  Capacity.assign toDataURL db sectionId spotNumber vehicleId userId qrKey now
  = (Ok d, db1) →
  parking_section db !! sectionId = Some ps →
  psec_parked_count ps = Some parked →
  psec_reserved_count ps = Some reserved_ →
  ∃ db2 ps2,
    Capacity.confirm_parking db1 sectionId userId (bk_reservationId d) now'
    = (Ok "Parking confirmed successfully", db2) ∧
    (r_booking_status <$> reservations db2 !! bk_reservationId d) = Some active ∧
    parking_section db2 !! sectionId = Some ps2 ∧
    psec_parked_count ps2 = Some (parked + 2) ∧
    psec_reserved_count ps2 = Some (reserved_ - 1) ∧
    psec_capacity ps2 = psec_capacity ps.
Proof.
  intros Hrun Hps Hparked Hreserved. apply assign_ok in Hrun
    as (ps' & vid & row & _ & _ & Hps' & _ & _ & _ & Hid & Hrow & Hown & _
        & _ & _ & _ & Hst & _ & Hsec1 & _).
  rewrite Hps in Hps'. injection Hps' as <-. rewrite Hid.
  rewrite (confirm_parking_run _ _ _ _ _ _ Hrow Hown Hst).
  eexists _, _. split; [reflexivity|].
  unfold update_section.
  cbn [reservations parking_section with_reservations with_sections].
  split; [|split; [by rewrite update_key_eq, Hsec1|]].
  - rewrite update_lookup, Hrow. simpl.
    by rewrite Z.eqb_refl, Hown, Z.eqb_refl, Hst.
  - simpl. rewrite Hparked, Hreserved. simpl.
    split; [f_equal; lia|]. by split.
Qed.

Lemma assign_then_confirm_counts_twice_witness :
  ∃ d db1 db2,
    Capacity.assign Sample.toDataURL Sample.base_db 7 "A-2" (Some 50) 5
      "3f2b8c1e-0d4a-4e7b-9c61-5a1f0e6d2b77" 1000 = (Ok d, db1) ∧
    Capacity.confirm_parking db1 7 5 (bk_reservationId d) 2000
    = (Ok "Parking confirmed successfully", db2) ∧
    (psec_parked_count <$> parking_section db2 !! 7) = Some (Some 2).
Proof.
  destruct (Capacity.assign Sample.toDataURL Sample.base_db 7 "A-2" (Some 50) 5
              "3f2b8c1e-0d4a-4e7b-9c61-5a1f0e6d2b77" 1000) as [[d|] db1] eqn:Hrun;
    [|vm_compute in Hrun; discriminate].
  destruct (assign_then_confirm_counts_twice _ _ _ _ _ _ _ _ _ _
              (Sample.section_of Sample.base_db 7) 0 0 2000 Hrun)
    as (db2 & ps2 & Hconfirm & _ & Hsec & Hparked & _).
  - vm_compute. reflexivity.
  - reflexivity.
  - reflexivity.
  - exists d, db1, db2. split; [reflexivity|]. split; [exact Hconfirm|].
    by rewrite Hsec; simpl; rewrite Hparked.
Defined.

(** X27: a pseudo-spot taken through assign cannot be released before
    it is confirmed: the reservation is stored as reserved, the release
    route addresses active reservations of the caller only, and assign
    made sure the caller has none, so
    POST /sections/:sectionId/spots/:spotNumber/release answers 404 and
    leaves the database as assign left it. *)
Theorem release_after_assign_refused toDataURL db sectionId spotNumber vehicleId userId
    qrKey now d db1 sectionId' spotNumber' now' :
  Capacity.assign toDataURL db sectionId spotNumber vehicleId userId qrKey now
  = (Ok d, db1) →
  Capacity.release db1 sectionId' spotNumber' userId now'
  = (Fail 404 "No active reservation found for this spot" None [], db1).
Proof.
  intros Hrun. apply assign_ok in Hrun
    as (ps & vid & row & _ & _ & _ & _ & Hactive & _ & _ & Hrow & Hown & _
        & _ & _ & _ & Hst & Hothers & _).
  unfold Capacity.release.
  set (P := λ (_ : Z) (r : Reservation),
              SQL.eqZ (r_parking_section_id r) sectionId'
              && SQL.eqS (r_spot_number r) spotNumber'
              && (r_user_id r =? userId)
              && bool_decide (r_booking_status r = active)).
  assert ((SQL.update P (set_booking completed id (λ _, Some now'))
             (reservations db1)).2 = 0%nat) as Hzero.
  { apply update_affected_zero. intros k r Hk. unfold P.
    destruct (decide (k = next_reservation_id db)) as [->|Hne].
    - rewrite Hrow in Hk. injection Hk as <-. rewrite Hst.
      rewrite bool_decide_eq_false_2 by done. apply andb_false_r.
    - rewrite (Hothers _ Hne) in Hk.
      destruct (r_user_id r =? userId) eqn:Hu.
      + apply Z.eqb_eq in Hu.
        rewrite (bool_decide_eq_false_2 _ (Hactive _ _ Hk Hu)). apply andb_false_r.
      + by rewrite andb_false_r. }
  pose proof (update_none_id _ _ _ Hzero) as Hsame.
  destruct (SQL.update P _ (reservations db1)) as [t n].
  simpl in Hzero, Hsame. subst n t.
  destruct (decide (0%nat = 0%nat)); [|done].
  by destruct db1.
Qed.

Lemma release_after_assign_refused_witness :
  ∃ d db1,
    Capacity.assign Sample.toDataURL Sample.base_db 7 "A-2" (Some 50) 5
      "3f2b8c1e-0d4a-4e7b-9c61-5a1f0e6d2b77" 1000 = (Ok d, db1) ∧
    Capacity.release db1 7 "A-2" 5 3000
    = (Fail 404 "No active reservation found for this spot" None [], db1).
Proof.
  destruct (Capacity.assign Sample.toDataURL Sample.base_db 7 "A-2" (Some 50) 5
              "3f2b8c1e-0d4a-4e7b-9c61-5a1f0e6d2b77" 1000) as [[d|] db1] eqn:Hrun;
    [|vm_compute in Hrun; discriminate].
  exists d, db1. split; [reflexivity|].
  exact (release_after_assign_refused _ _ _ _ _ _ _ _ _ _ 7 "A-2" 3000 Hrun).
Defined.
